(** * YearCompass: the storage module ([src/js/storage.js])

    A shallow embedding of the persistence layer of the YearCompass web
    application, and the properties of it that the specification states.
    The last part covers the rest of the module and two helpers of its
    callers: the suggested year of the year selector and the content test
    of the PDF export.

    Modelling conventions.

    - Values are the values a stored record is made of: [null], booleans,
      numbers, strings and plain objects.  The persisted record format has no
      arrays, and the universe below has none.  A number [JNum n] is an
      integer-valued number; the module only ever tests numbers for their
      type and for truthiness, and turns them into property keys.
    - An object is the list of its own enumerable properties in the order
      [Object.keys] reports them: array-index keys in ascending order first,
      other keys in order of creation.  Its prototype is [Object.prototype]:
      a read by computed key, [o[k]], that finds no property of [o] itself
      finds the member of [Object.prototype] of that name, if there is one
      ([constructor], [toString], [__proto__], ...), and an assignment
      [o['__proto__'] = v] reaches the inherited setter.  The built-in objects
      are taken as the platform provides them: a property that the module
      sets on one of them is not kept.
    - Reading a property of [undefined] or [null], and writing a property of
      a primitive (the module is strict-mode code), throws a [TypeError];
      reading a property of a primitive yields [undefined].
    - The module's variables ([storageData], [onStorageError], [saveTimeout])
      and its environment ([localStorage], the timer queue, the clock, the
      console, the calls received by the registered callback) form one state
      record, which every function threads through a state-and-exception
      monad.
    - The registered error callback is code of the user interface: a call
      to it is recorded and returns.  An exception that leaves a call made by
      the event loop ends that call and leaves the state as the call left it.
    - [JSON.parse], [JSON.stringify] and [Date.prototype.toISOString] belong
      to the platform; the module is parametrised by them ([Runtime]).  A
      reference runtime on the fragment above is given for closed examples. *)

From Stdlib Require Import ZArith String Ascii List Lia DecimalString.
From stdpp Require Import base strings gmap list.

Local Open Scope string_scope.

(** ** Values *)

#[local] Set Warnings "-register-all".

Inductive JSValue : Type :=
  | JNull
  | JBool (b : bool)
  | JNum (n : Z)
  | JStr (s : string)
  | JObj (props : list (string * JSValue)).

#[local] Set Warnings "register-all".

Abbreviation Props := (list (string * JSValue)).

(** The result of reading a property: [None] is [undefined]. *)
Abbreviation JSRead := (option JSValue).

(** ToBoolean. *)
Definition truthy (v : JSValue) : bool :=
  match v with
  | JNull => false
  | JBool b => b
  | JNum n => negb (Z.eqb n 0)
  | JStr s => negb (String.eqb s "")
  | JObj _ => true
  end.

Definition truthy_opt (r : JSRead) : bool :=
  match r with
  | Some v => truthy v
  | None => false
  end.

(** The [typeof] operator. *)
Definition typeof (r : JSRead) : string :=
  match r with
  | None => "undefined"
  | Some JNull => "object"
  | Some (JBool _) => "boolean"
  | Some (JNum _) => "number"
  | Some (JStr _) => "string"
  | Some (JObj _) => "object"
  end.

(** The test [!v || typeof v !== 'object'] that the module applies to every
    value it expects to be an object. *)
Definition not_an_object (r : JSRead) : bool :=
  negb (truthy_opt r) || negb (String.eqb (typeof r) "object").

(** The properties of a value that passed the test above. *)
Definition props_of (r : JSRead) : Props :=
  match r with
  | Some (JObj ps) => ps
  | _ => []
  end.

(** ToString, as applied to a value used as a property key. *)
Definition ToString (v : JSValue) : string :=
  match v with
  | JNull => "null"
  | JBool true => "true"
  | JBool false => "false"
  | JNum n => NilZero.string_of_int (Z.to_int n)
  | JStr s => s
  | JObj _ => "[object Object]"
  end.

(** ** Own properties *)

Fixpoint obj_get (k : string) (ps : Props) : JSRead :=
  match ps with
  | [] => None
  | (k', v) :: ps' => if String.eqb k k' then Some v else obj_get k ps'
  end.

(** [Object.keys] and [Object.values]. *)
Definition obj_keys (ps : Props) : list string := map fst ps.
Definition obj_values (ps : Props) : list JSValue := map snd ps.

Definition digit_of (a : ascii) : option N :=
  let n := N_of_ascii a in
  if (48 <=? n)%N && (n <=? 57)%N then Some (n - 48)%N else None.

Fixpoint digits_value (acc : N) (s : string) : option N :=
  match s with
  | EmptyString => Some acc
  | String a s' =>
      match digit_of a with
      | Some d => digits_value (acc * 10 + d)%N s'
      | None => None
      end
  end.

(** An array index is the canonical decimal form of an integer below
    [2^32 - 1]; such keys are enumerated first, in ascending order. *)
Definition array_index (k : string) : option N :=
  match k with
  | EmptyString => None
  | String a rest =>
      if Ascii.eqb a "0" && negb (String.eqb rest "") then None
      else
        match digits_value 0 k with
        | Some n => if (n <? 4294967295)%N then Some n else None
        | None => None
        end
  end.

Fixpoint obj_replace (k : string) (v : JSValue) (ps : Props) : Props :=
  match ps with
  | [] => []
  | (k', v') :: ps' =>
      if String.eqb k k' then (k, v) :: ps' else (k', v') :: obj_replace k v ps'
  end.

Fixpoint obj_insert_index (i : N) (k : string) (v : JSValue) (ps : Props) : Props :=
  match ps with
  | [] => [(k, v)]
  | (k', v') :: ps' =>
      match array_index k' with
      | Some j =>
          if (j <? i)%N then (k', v') :: obj_insert_index i k v ps'
          else (k, v) :: ps
      | None => (k, v) :: ps
      end
  end.

(** [o[k] = v]: an existing property keeps its place; a new one goes where
    the enumeration order puts it. *)
Definition obj_set (k : string) (v : JSValue) (ps : Props) : Props :=
  match obj_get k ps with
  | Some _ => obj_replace k v ps
  | None =>
      match array_index k with
      | Some i => obj_insert_index i k v ps
      | None => ps ++ [(k, v)]
      end
  end.

(** [delete o[k]]. *)
Definition obj_delete (k : string) (ps : Props) : Props :=
  List.filter (fun p => negb (String.eqb k (fst p))) ps.

(** ** Inherited members *)

(** The names of the members that an object inherits from
    [Object.prototype]: eleven functions and the accessor [__proto__]. *)
Definition OBJECT_PROTOTYPE : list string :=
  ["constructor"; "hasOwnProperty"; "isPrototypeOf"; "propertyIsEnumerable";
   "toLocaleString"; "toString"; "valueOf"; "__proto__"; "__defineGetter__";
   "__defineSetter__"; "__lookupGetter__"; "__lookupSetter__"].

Definition inherited_name (k : string) : bool :=
  existsb (String.eqb k) OBJECT_PROTOTYPE.

Arguments inherited_name k : simpl never.

(** What a read by computed key finds: a value of the document, or the
    member of [Object.prototype] of the given name, which is a built-in
    function or, under the name [__proto__], [Object.prototype] itself.  A
    value of the document stands for itself where a member is expected. *)
Inductive Member : Type :=
  | Plain (v : JSValue)
  | Builtin (name : string).

Coercion Plain : JSValue >-> Member.

(** ToBoolean: functions and objects are truthy. *)
Definition truthy_member (m : Member) : bool :=
  match m with
  | Plain v => truthy v
  | Builtin _ => true
  end.

Definition truthy_found (r : option Member) : bool :=
  match r with
  | Some m => truthy_member m
  | None => false
  end.

(** [o[k]] for an object with the own properties [ps]: a property of its
    own comes first, then the inherited member of that name. *)
Definition lookup (k : string) (ps : Props) : option Member :=
  match obj_get k ps with
  | Some v => Some (Plain v)
  | None => if inherited_name k then Some (Builtin k) else None
  end.

Arguments lookup k ps : simpl never.

(** The read finds what the object holds under [k], or nothing: it finds
    no built-in. *)
Definition finds_own (k : string) (ps : Props) : bool :=
  match lookup k ps with
  | Some (Builtin _) => false
  | _ => true
  end.

(** The own properties after [o[k] = v], for an object with the own
    properties [ps].  Under the key [__proto__], on an object that has no
    property of that name itself, the assignment reaches the setter
    inherited from [Object.prototype]: a primitive is ignored, and an object
    or [null] becomes the prototype of the object.  The property list keeps
    that prototype under the name [__proto__], where a later read
    [o['__proto__']] finds it ([undefined] after [null], which only the
    answers of a section can be given, and those the module never reads by
    key); that [Object.keys] and [JSON.stringify] pass over it, and that its
    members are inherited in turn, is not modelled: where a property would
    depend on either, it is stated for keys other than [__proto__]. *)
Definition assigned (k : string) (v : JSValue) (ps : Props) : Props :=
  match obj_get k ps, v with
  | None, (JBool _ | JNum _ | JStr _) =>
      if String.eqb k "__proto__" then ps else obj_set k v ps
  | _, _ => obj_set k v ps
  end.

Arguments assigned k v ps : simpl never.

(** What was found, when it is a value of the document. *)
Definition plain (r : option Member) : JSRead :=
  match r with
  | Some (Plain v) => Some v
  | _ => None
  end.

(** ** Strings *)

Fixpoint strip_prefix (p s : string) : option string :=
  match p with
  | EmptyString => Some s
  | String a p' =>
      match s with
      | EmptyString => None
      | String b s' => if Ascii.eqb a b then strip_prefix p' s' else None
      end
  end.

(** [s.replace(pat, rep)] for a string pattern: the first occurrence only. *)
Fixpoint replace_first (pat rep s : string) : string :=
  match strip_prefix pat s with
  | Some rest => rep +:+ rest
  | None =>
      match s with
      | EmptyString => EmptyString
      | String a s' => String a (replace_first pat rep s')
      end
  end.

(** White space and line terminators of ECMAScript, in UTF-8: the ASCII
    ones, U+00A0, U+1680, U+2000..U+200A, U+2028, U+2029, U+202F, U+205F,
    U+3000 and U+FEFF. *)
Definition ws1 (a : ascii) : bool :=
  let n := nat_of_ascii a in
  (Nat.leb 9 n && Nat.leb n 13) || Nat.eqb n 32.

Definition ws2 (a b : ascii) : bool :=
  Nat.eqb (nat_of_ascii a) 194 && Nat.eqb (nat_of_ascii b) 160.

Definition ws3 (a b c : ascii) : bool :=
  let x := nat_of_ascii a in
  let y := nat_of_ascii b in
  let z := nat_of_ascii c in
  (Nat.eqb x 225 && Nat.eqb y 154 && Nat.eqb z 128)
  || (Nat.eqb x 226 && Nat.eqb y 128
      && ((Nat.leb 128 z && Nat.leb z 138) || Nat.eqb z 168 || Nat.eqb z 169
          || Nat.eqb z 175))
  || (Nat.eqb x 226 && Nat.eqb y 129 && Nat.eqb z 159)
  || (Nat.eqb x 227 && Nat.eqb y 128 && Nat.eqb z 128)
  || (Nat.eqb x 239 && Nat.eqb y 187 && Nat.eqb z 191).

(** Drops leading white space; with [back] the bytes come in reverse. *)
Fixpoint strip_ws (back : bool) (l : list ascii) : list ascii :=
  match l with
  | [] => []
  | a :: l1 =>
      if ws1 a then strip_ws back l1
      else
        match l1 with
        | [] => l
        | b :: l2 =>
            if (if back then ws2 b a else ws2 a b) then strip_ws back l2
            else
              match l2 with
              | [] => l
              | c :: l3 =>
                  if (if back then ws3 c b a else ws3 a b c)
                  then strip_ws back l3
                  else l
              end
        end
  end.

(** [s.trim()]. *)
Definition trim (s : string) : string :=
  string_of_list_ascii
    (rev (strip_ws true (rev (strip_ws false (list_ascii_of_string s))))).

(** [Object.values] of a value that is not an object: a string yields its
    characters, any other primitive nothing. *)
Definition utf8_width (a : ascii) : nat :=
  let n := nat_of_ascii a in
  if Nat.ltb n 192 then 1 else if Nat.ltb n 224 then 2
  else if Nat.ltb n 240 then 3 else 4.

Fixpoint take_string (n : nat) (s : string) : string * string :=
  match n, s with
  | S n', String a s' =>
      let (h, t) := take_string n' s' in (String a h, t)
  | _, _ => (EmptyString, s)
  end.

Fixpoint characters (fuel : nat) (s : string) : list string :=
  match fuel, s with
  | S fuel', String a _ =>
      let (c, rest) := take_string (utf8_width a) s in
      c :: characters fuel' rest
  | _, _ => []
  end.

Definition values_of (v : JSValue) : list JSValue :=
  match v with
  | JObj ps => obj_values ps
  | JStr s => map JStr (characters (String.length s) s)
  | _ => []
  end.

(** ** Exceptions, the platform and the state *)

(** A thrown error, by the two fields the module inspects ([error.name] and
    [error.code]). *)
Record Exn : Type := mkExn { exn_name : string; exn_code : option Z }.

Definition TypeError : Exn := mkExn "TypeError" None.
Definition SyntaxError : Exn := mkExn "SyntaxError" None.
Definition QuotaExceededError : Exn := mkExn "QuotaExceededError" (Some 22%Z).

Inductive Result (A : Type) : Type :=
  | Ok (a : A)
  | Throw (e : Exn).

Arguments Ok {A} & a.
Arguments Throw {A} e.

(** A pair is checked against the type its context expects, so that a value
    of the document is read as a [Member] where a result holds one. *)
Arguments pair {A B}%_type_scope & a b.

(** The payload handed to the registered error callback. *)
Record StorageError : Type := mkStorageError {
  err_type : string;
  err_message : string;
  err_originalError : option Exn }.

(** The operations of the key-value backend. *)
Inductive BackendOp : Type :=
  | OpSetItem (k v : string)
  | OpGetItem (k : string)
  | OpRemoveItem (k : string).

(** The platform functions the module calls.  [JSON_parse] yields [None]
    where [JSON.parse] throws a [SyntaxError]; [JSON_stringify_pretty] is
    [JSON.stringify(v, null, 2)]; [Date_toISOString] formats the clock. *)
Record Runtime : Type := mkRuntime {
  JSON_parse : string -> option JSValue;
  JSON_stringify : JSValue -> string;
  JSON_stringify_pretty : JSValue -> string;
  Date_toISOString : N -> string }.

(** The module's variables and its environment.  [ls_fault] is the backend's
    failure behaviour: the error an operation throws, if any, given the
    stored items.  [ls_writes] records the [setItem] calls that went through,
    [delivered] the calls the registered callback received and [console] the
    lines logged, oldest first.  [timers] holds the pending timeouts with the
    time they are due; the module only ever schedules one closure (the
    deferred save), so a handle and a due time describe a timer. *)
Record State : Type := mkState {
  storageData : JSValue;
  onStorageError : option nat;
  saveTimeout : option positive;
  localStorage : gmap string string;
  ls_fault : gmap string string -> BackendOp -> option Exn;
  ls_writes : list (string * string);
  delivered : list StorageError;
  console : list (string * string);
  timers : list (positive * N);
  next_timer : positive;
  clock : N }.

Definition with_storageData (v : JSValue) (st : State) : State :=
  mkState v (onStorageError st) (saveTimeout st) (localStorage st)
    (ls_fault st) (ls_writes st) (delivered st) (console st) (timers st)
    (next_timer st) (clock st).

Definition with_onStorageError (cb : option nat) (st : State) : State :=
  mkState (storageData st) cb (saveTimeout st) (localStorage st)
    (ls_fault st) (ls_writes st) (delivered st) (console st) (timers st)
    (next_timer st) (clock st).

Definition with_saveTimeout (h : option positive) (st : State) : State :=
  mkState (storageData st) (onStorageError st) h (localStorage st)
    (ls_fault st) (ls_writes st) (delivered st) (console st) (timers st)
    (next_timer st) (clock st).

Definition with_localStorage (m : gmap string string) (st : State) : State :=
  mkState (storageData st) (onStorageError st) (saveTimeout st) m
    (ls_fault st) (ls_writes st) (delivered st) (console st) (timers st)
    (next_timer st) (clock st).

Definition with_ls_writes (w : list (string * string)) (st : State) : State :=
  mkState (storageData st) (onStorageError st) (saveTimeout st)
    (localStorage st) (ls_fault st) w (delivered st) (console st) (timers st)
    (next_timer st) (clock st).

Definition with_delivered (d : list StorageError) (st : State) : State :=
  mkState (storageData st) (onStorageError st) (saveTimeout st)
    (localStorage st) (ls_fault st) (ls_writes st) d (console st) (timers st)
    (next_timer st) (clock st).

Definition with_console (c : list (string * string)) (st : State) : State :=
  mkState (storageData st) (onStorageError st) (saveTimeout st)
    (localStorage st) (ls_fault st) (ls_writes st) (delivered st) c
    (timers st) (next_timer st) (clock st).

Definition with_timers (t : list (positive * N)) (n : positive)
    (st : State) : State :=
  mkState (storageData st) (onStorageError st) (saveTimeout st)
    (localStorage st) (ls_fault st) (ls_writes st) (delivered st) (console st)
    t n (clock st).

Definition with_clock (c : N) (st : State) : State :=
  mkState (storageData st) (onStorageError st) (saveTimeout st)
    (localStorage st) (ls_fault st) (ls_writes st) (delivered st) (console st)
    (timers st) (next_timer st) c.

(** ** The state-and-exception monad *)

Definition M (A : Type) : Type := State -> Result A * State.

Definition ret {A : Type} (a : A) : M A := fun st => (Ok a, st).

Definition bind {A B : Type} (c : M A) (k : A -> M B) : M B :=
  fun st =>
    match c st with
    | (Ok a, st') => k a st'
    | (Throw e, st') => (Throw e, st')
    end.

Definition throw {A : Type} (e : Exn) : M A := fun st => (Throw e, st).

(** [try { c } catch (e) { h e }]. *)
Definition try_catch {A : Type} (c : M A) (h : Exn -> M A) : M A :=
  fun st =>
    match c st with
    | (Ok a, st') => (Ok a, st')
    | (Throw e, st') => h e st'
    end.

Definition gets {A : Type} (f : State -> A) : M A := fun st => (Ok (f st), st).

Definition modify (f : State -> State) : M unit := fun st => (Ok tt, f st).

Notation "'let*' x ':=' c 'in' k" := (bind c (fun x => k))
  (at level 10, x pattern, c at level 100, k at level 200).

Notation "c1 ';;;' c2" := (bind c1 (fun _ => c2))
  (at level 100, c2 at level 200, right associativity).

(** [r.name], for the names the module writes out ([version], [years],
    [sections], [answers], ...): [Object.prototype] has no member of such a
    name, so the read finds a property of the object itself or nothing. *)
Definition read_prop (r : JSRead) (k : string) : M JSRead :=
  match r with
  | None | Some JNull => throw TypeError
  | Some (JObj ps) => ret (obj_get k ps)
  | Some _ => ret None
  end.

(** [r.name = v] for such a name, yielding the updated object.  The same
    serves where an object that was read from a property of [r] itself and
    has changed in place is put back under its key. *)
Definition write_prop (r : JSRead) (k : string) (v : JSValue) : M JSValue :=
  match r with
  | Some (JObj ps) => ret (JObj (obj_set k v ps))
  | _ => throw TypeError
  end.

(** [r[k]], for a computed key. *)
Definition read_key (r : JSRead) (k : string) : M (option Member) :=
  match r with
  | None | Some JNull => throw TypeError
  | Some (JObj ps) => ret (lookup k ps)
  | Some _ => ret None
  end.

(** [r[k] = v], for a computed key, yielding the updated object. *)
Definition write_key (r : JSRead) (k : string) (v : JSValue) : M JSValue :=
  match r with
  | Some (JObj ps) => ret (JObj (assigned k v ps))
  | _ => throw TypeError
  end.

(** [m.name] for what a read by computed key found.  A built-in has none of
    the properties the module reads by name. *)
Definition member_prop (m : option Member) (k : string) : M JSRead :=
  match m with
  | Some (Plain v) => read_prop (Some v) k
  | Some (Builtin _) => ret None
  | None => throw TypeError
  end.

(** [m.name = v].  A built-in takes the property, and the model does not
    keep it. *)
Definition member_set (m : Member) (k : string) (v : JSValue) : M Member :=
  match m with
  | Plain o => let* o' := write_prop (Some o) k v in ret (Plain o')
  | Builtin name => ret (Builtin name)
  end.

(** *** The backend *)

Definition ls_setItem (k v : string) : M unit :=
  fun st =>
    match ls_fault st (localStorage st) (OpSetItem k v) with
    | Some e => (Throw e, st)
    | None =>
        (Ok tt,
         with_ls_writes (ls_writes st ++ [(k, v)])
           (with_localStorage (<[k := v]> (localStorage st)) st))
    end.

Definition ls_getItem (k : string) : M (option string) :=
  fun st =>
    match ls_fault st (localStorage st) (OpGetItem k) with
    | Some e => (Throw e, st)
    | None => (Ok (localStorage st !! k), st)
    end.

Definition ls_removeItem (k : string) : M unit :=
  fun st =>
    match ls_fault st (localStorage st) (OpRemoveItem k) with
    | Some e => (Throw e, st)
    | None => (Ok tt, with_localStorage (delete k (localStorage st)) st)
    end.

(** *** The console and the clock *)

Definition console_log (level text : string) : M unit :=
  modify (fun st => with_console (console st ++ [(level, text)]) st).

(** *** Timers *)

(** [setTimeout(f, delay)], for the one closure the module schedules. *)
Definition setTimeout (delay : N) : M positive :=
  fun st =>
    let h := next_timer st in
    (Ok h,
     with_timers (timers st ++ [(h, (clock st + delay)%N)]) (Pos.succ h) st).

Definition clearTimeout (h : positive) : M unit :=
  modify (fun st =>
    with_timers (List.filter (fun t => negb (Pos.eqb (fst t) h)) (timers st))
      (next_timer st) st).

(** ** The module *)

Definition STORAGE_KEY : string := "yearcompass_data".
Definition DATA_VERSION : Z := 1.

(** The messages of the module, for the user. *)
Definition MSG_CORRUPT : string :=
  "Stored data is not a valid object. Starting fresh.".
Definition MSG_QUOTA : string :=
  "Storage is full. Please export your data and clear old entries to continue saving.".
Definition MSG_SAVE : string :=
  "Failed to save your progress. Please try again or export your data.".
Definition MSG_UNAVAILABLE : string :=
  "Local storage is not available. Your browser may be in private mode or have storage disabled. Your progress cannot be saved.".
Definition MSG_PARSE : string :=
  "Your saved data appears to be corrupted. Starting with a fresh workspace.".
Definition MSG_UNKNOWN : string :=
  "An unexpected error occurred while loading your data.".

Definition setStorageErrorCallback (callback : option nat) : M unit :=
  modify (with_onStorageError callback).

Definition reportStorageError (type message : string)
    (originalError : option Exn) : M unit :=
  console_log "error" ("Storage error [" +:+ type +:+ "]: " +:+ message) ;;;
  let* cb := gets onStorageError in
  match cb with
  | Some _ =>
      modify (fun st =>
        with_delivered
          (delivered st ++ [mkStorageError type message originalError]) st)
  | None => ret tt
  end.

Definition isLocalStorageAvailable : M bool :=
  try_catch
    (let testKey := "__yearcompass_test__" in
     ls_setItem testKey "test" ;;;
     let* result := ls_getItem testKey in
     ls_removeItem testKey ;;;
     ret (match result with
          | Some r => String.eqb r "test"
          | None => false
          end))
    (fun _ => ret false).

Definition default_settings : JSValue :=
  JObj [("theme", JStr "light"); ("fontSize", JStr "medium");
        ("markdownPreview", JStr "onBlur")].

Definition getDefaultData : JSValue :=
  JObj [("version", JNum DATA_VERSION); ("currentYear", JNull);
        ("settings", default_settings); ("years", JObj [])].

Record Validation : Type := mkValidation {
  valid : bool;
  repaired : bool;
  data : JSValue }.

Definition empty_section : JSValue :=
  JObj [("completed", JBool false); ("answers", JObj [])].

(** The loop over [Object.keys(year.sections)]. *)
Fixpoint validate_sections (sectionIds : list string) (sections : Props)
    (repaired : bool) : Props * bool :=
  match sectionIds with
  | [] => (sections, repaired)
  | sectionId :: rest =>
      let section := obj_get sectionId sections in
      if not_an_object section then
        validate_sections rest (obj_set sectionId empty_section sections) true
      else if not_an_object (obj_get "answers" (props_of section)) then
        validate_sections rest
          (obj_set sectionId
             (JObj (obj_set "answers" (JObj []) (props_of section))) sections)
          true
      else validate_sections rest sections repaired
  end.

(** The backfills of a year entry that is an object. *)
Definition backfill_year (now yearId : string) (year : Props) : Props :=
  let year :=
    if negb (truthy_opt (obj_get "id" year))
    then obj_set "id" (JStr yearId) year else year in
  let year :=
    if negb (truthy_opt (obj_get "displayName" year))
    then obj_set "displayName" (JStr (replace_first "-" " → " yearId)) year
    else year in
  let year :=
    if negb (truthy_opt (obj_get "createdAt" year))
    then obj_set "createdAt" (JStr now) year else year in
  if negb (truthy_opt (obj_get "lastModified" year))
  then
    match obj_get "createdAt" year with
    | Some createdAt => obj_set "lastModified" createdAt year
    | None => year
    end
  else year.

(** One year entry that is an object: the backfills, then its sections. *)
Definition validate_year (now yearId : string) (year : Props)
    (repaired : bool) : Props * bool :=
  let year := backfill_year now yearId year in
  let '(year, repaired) :=
    if not_an_object (obj_get "sections" year)
    then (obj_set "sections" (JObj []) year, true)
    else (year, repaired) in
  let sections := props_of (obj_get "sections" year) in
  let '(sections, repaired) :=
    validate_sections (obj_keys sections) sections repaired in
  (obj_set "sections" (JObj sections) year, repaired).

(** The loop over [Object.keys(data.years)]. *)
Fixpoint validate_years (now : string) (yearIds : list string) (years : Props)
    (repaired : bool) : Props * bool :=
  match yearIds with
  | [] => (years, repaired)
  | yearId :: rest =>
      let year := obj_get yearId years in
      if not_an_object year then
        validate_years now rest (obj_delete yearId years) true
      else
        let '(year', repaired) :=
          validate_year now yearId (props_of year) repaired in
        validate_years now rest (obj_set yearId (JObj year') years) repaired
  end.

(** The statements of [validateAndRepairData] for an input that is an
    object, each taking and returning the object and the [repaired] flag. *)

(** [if (typeof data.version !== 'number')]. *)
Definition ensure_version (data : Props) (repaired : bool) : Props * bool :=
  if negb (String.eqb (typeof (obj_get "version" data)) "number")
  then (obj_set "version" (JNum DATA_VERSION) data, true)
  else (data, repaired).

(** [if (!data.settings || typeof data.settings !== 'object')]. *)
Definition ensure_settings (data : Props) (repaired : bool) : Props * bool :=
  if not_an_object (obj_get "settings" data)
  then (obj_set "settings" default_settings data, true)
  else (data, repaired).

(** [if (!data.years || typeof data.years !== 'object')]. *)
Definition ensure_years (data : Props) (repaired : bool) : Props * bool :=
  if not_an_object (obj_get "years" data)
  then (obj_set "years" (JObj []) data, true)
  else (data, repaired).

(** [if (data.currentYear && !data.years[data.currentYear])]. *)
Definition repair_currentYear (data : Props) (repaired : bool)
    : Props * bool :=
  let years := props_of (obj_get "years" data) in
  match obj_get "currentYear" data with
  | Some currentYear =>
      if truthy currentYear
         && negb (truthy_found (lookup (ToString currentYear) years))
      then
        let yearIds := obj_keys years in
        (obj_set "currentYear"
           (match last yearIds with
            | Some yearId => JStr yearId
            | None => JNull
            end) data, true)
      else (data, repaired)
  | None => (data, repaired)
  end.

(** [for (const yearId of Object.keys(data.years))]. *)
Definition repair_years (now : string) (data : Props) (repaired : bool)
    : Props * bool :=
  let years := props_of (obj_get "years" data) in
  let '(years, repaired) :=
    validate_years now (obj_keys years) years repaired in
  (obj_set "years" (JObj years) data, repaired).

(** The body of [validateAndRepairData] for an input that is an object;
    [now] is what [new Date().toISOString()] yields. *)
Definition repair_document (now : string) (data : Props) : Props * bool :=
  let repaired := false in
  let '(data, repaired) := ensure_version data repaired in
  let '(data, repaired) := ensure_settings data repaired in
  let '(data, repaired) := ensure_years data repaired in
  let '(data, repaired) := repair_currentYear data repaired in
  repair_years now data repaired.

Section StorageModule.

Variable rt : Runtime.

Definition now_iso : M string :=
  gets (fun st => Date_toISOString rt (clock st)).

Definition validateAndRepairData (data : JSValue) : M Validation :=
  if not_an_object (Some data) then
    reportStorageError "corrupt" MSG_CORRUPT None ;;;
    ret (mkValidation false false getDefaultData)
  else
    let* now := now_iso in
    let '(data, repaired) := repair_document now (props_of (Some data)) in
    (if repaired
     then console_log "warn" "Data structure was repaired during validation"
     else ret tt) ;;;
    ret (mkValidation true repaired (JObj data)).

Definition is_quota_error (error : Exn) : bool :=
  String.eqb (exn_name error) "QuotaExceededError"
  || match exn_code error with Some c => Z.eqb c 22 | None => false end
  || match exn_code error with Some c => Z.eqb c 1014 | None => false end
  || String.eqb (exn_name error) "NS_ERROR_DOM_QUOTA_REACHED".

Definition saveToLocalStorage : M bool :=
  let* available := isLocalStorageAvailable in
  if negb available then ret false
  else
    try_catch
      (let* dataString := gets (fun st => JSON_stringify rt (storageData st)) in
       ls_setItem STORAGE_KEY dataString ;;;
       ret true)
      (fun error =>
         (if is_quota_error error
          then reportStorageError "quota" MSG_QUOTA (Some error)
          else reportStorageError "save" MSG_SAVE (Some error)) ;;;
         ret false).

Definition json_parse (text : string) : M JSValue :=
  match JSON_parse rt text with
  | Some v => ret v
  | None => throw SyntaxError
  end.

Definition initStorage : M JSValue :=
  let* available := isLocalStorageAvailable in
  if negb available then
    reportStorageError "unavailable" MSG_UNAVAILABLE None ;;;
    modify (with_storageData getDefaultData) ;;;
    gets storageData
  else
    try_catch
      (let* stored := ls_getItem STORAGE_KEY in
       match stored with
       | Some text =>
           if negb (String.eqb text "") then
             let* parsed :=
               try_catch
                 (let* v := json_parse text in ret (Some v))
                 (fun parseError =>
                    reportStorageError "parse" MSG_PARSE (Some parseError) ;;;
                    modify (with_storageData getDefaultData) ;;;
                    let* _ := saveToLocalStorage in
                    ret None) in
             match parsed with
             | None => ret tt
             | Some parsed =>
                 let* r := validateAndRepairData parsed in
                 modify (with_storageData (data r)) ;;;
                 if repaired r
                 then let* _ := saveToLocalStorage in ret tt
                 else ret tt
             end
           else
             modify (with_storageData getDefaultData) ;;;
             let* _ := saveToLocalStorage in ret tt
       | None =>
           modify (with_storageData getDefaultData) ;;;
           let* _ := saveToLocalStorage in ret tt
       end)
      (fun error =>
         reportStorageError "unknown" MSG_UNKNOWN (Some error) ;;;
         modify (with_storageData getDefaultData)) ;;;
    gets storageData.

Definition exportData : M string :=
  gets (fun st => JSON_stringify_pretty rt (storageData st)).

Record ImportResult : Type := mkImportResult {
  success : bool;
  message : string }.

Definition importData (jsonString : string) : M ImportResult :=
  try_catch
    (let* parsed := json_parse jsonString in
     let* r := validateAndRepairData parsed in
     if negb (valid r) then
       ret (mkImportResult false
              "The imported data is not valid YearCompass data.")
     else
       modify (with_storageData (data r)) ;;;
       let* saved := saveToLocalStorage in
       if negb saved then
         ret (mkImportResult false
                "Could not save imported data. Storage may be full.")
       else ret (mkImportResult true "Data imported successfully."))
    (fun _ => ret (mkImportResult false "The file is not valid JSON data.")).

Definition getCurrentYear : M Member :=
  let* sd := gets storageData in
  if negb (truthy sd) then ret (Plain JNull)
  else
    let* currentYear := read_prop (Some sd) "currentYear" in
    match currentYear with
    | Some currentYear =>
        if negb (truthy currentYear) then ret (Plain JNull)
        else
          let* years := read_prop (Some sd) "years" in
          let* year := read_key years (ToString currentYear) in
          match year with
          | Some year => ret (if truthy_member year then year else Plain JNull)
          | None => ret (Plain JNull)
          end
    | None => ret (Plain JNull)
    end.

(** The closure handed to [setTimeout] by [debouncedSave]. *)
Definition deferred_save : M unit :=
  let* _ := saveToLocalStorage in
  modify (with_saveTimeout None).

Definition debouncedSave : M unit :=
  let* pending := gets saveTimeout in
  match pending with
  | Some h => clearTimeout h
  | None => ret tt
  end ;;;
  let* h := setTimeout 300 in
  modify (with_saveTimeout (Some h)).

(** The objects on the path from [storageData] to the answers are shared
    and change in place; here each changed object is written back into the
    one that holds it, which leaves every key where it was.  A year or a
    section that is a built-in has no [sections] or [answers], so the call
    has thrown before anything is written back. *)
Definition saveAnswer (yearId sectionId fieldId : string) (value : JSValue)
    : M unit :=
  let* sd := gets storageData in
  let* years := read_prop (Some sd) "years" in
  let* year := read_key years yearId in
  if negb (truthy_found year) then ret tt
  else
    let* sections := member_prop year "sections" in
    let* section := read_key sections sectionId in
    let* sections :=
      if negb (truthy_found section)
      then
        let* sections' := write_key sections sectionId empty_section in
        ret (Some sections')
      else ret sections in
    let* section := read_key sections sectionId in
    let* answers := member_prop section "answers" in
    let* answers := write_key answers fieldId value in
    let* section := write_prop (plain section) "answers" answers in
    let* sections := write_prop sections sectionId section in
    let* year := write_prop (plain year) "sections" sections in
    let* now := now_iso in
    let* year := write_prop (Some year) "lastModified" (JStr now) in
    let* years := write_prop years yearId year in
    let* sd := write_prop (Some sd) "years" years in
    modify (with_storageData sd) ;;;
    debouncedSave.

Definition string_of (v : JSValue) : string :=
  match v with
  | JStr s => s
  | _ => EmptyString
  end.

Definition isSectionStarted (sectionId : string) : M bool :=
  let* year := getCurrentYear in
  let* answers :=
    match year with
    | Plain JNull => ret None
    | _ =>
        let* sections := member_prop (Some year) "sections" in
        let* section := read_key sections sectionId in
        match section with
        | None | Some (Plain JNull) => ret None
        | Some _ => member_prop section "answers"
        end
    end in
  match answers with
  | Some answers =>
      if negb (truthy answers) then ret false
      else
        ret (existsb
               (fun value =>
                  truthy value
                  && String.eqb (typeof (Some value)) "string"
                  && Nat.ltb 0 (String.length (trim (string_of value))))
               (values_of answers))
  | None => ret false
  end.

(** ** The event loop *)

(** A pending timer fires: it leaves the queue and its closure runs. *)
Definition fire (h : positive) : M unit :=
  clearTimeout h ;;; deferred_save.

Fixpoint run_due (queue : list (positive * N)) (st : State) : State :=
  match queue with
  | [] => st
  | (h, due) :: rest =>
      if N.leb due (clock st)
         && existsb (fun t => Pos.eqb (fst t) h) (timers st)
      then run_due rest (snd (fire h st))
      else run_due rest st
  end.

(** Time passes with the module idle; the timers that fall due fire. *)
Definition elapse (ms : N) (st : State) : State :=
  let st := with_clock (clock st + ms)%N st in
  run_due (timers st) st.

Inductive Event : Type :=
  | CallSaveAnswer (yearId sectionId fieldId : string) (value : JSValue)
  | Elapse (ms : N).

Definition step (st : State) (ev : Event) : State :=
  match ev with
  | CallSaveAnswer yearId sectionId fieldId value =>
      snd (saveAnswer yearId sectionId fieldId value st)
  | Elapse ms => elapse ms st
  end.

Definition run (evs : list Event) (st : State) : State :=
  fold_left step evs st.

End StorageModule.

(** ** A reference runtime

    [JSON.stringify], [JSON.parse] and [toISOString] on the fragment of the
    conventions: objects, strings, integer numbers, booleans and [null].
    The parser answers [None] on a text that is not JSON and on one that
    leaves the fragment (arrays, fractions, exponents, escapes of code points
    outside the Basic Latin block). *)

Module Reference.

Definition chr (n : nat) : string := String (ascii_of_nat n) EmptyString.

Definition hex_digit (n : nat) : string :=
  match String.get n "0123456789abcdef" with
  | Some a => String a EmptyString
  | None => "0"
  end.

Definition quote_char (a : ascii) : string :=
  let n := nat_of_ascii a in
  if Nat.eqb n 34 then "\" +:+ chr 34
  else if Nat.eqb n 92 then "\\"
  else if Nat.eqb n 8 then "\b"
  else if Nat.eqb n 12 then "\f"
  else if Nat.eqb n 10 then "\n"
  else if Nat.eqb n 13 then "\r"
  else if Nat.eqb n 9 then "\t"
  else if Nat.ltb n 32
       then "\u00" +:+ hex_digit (n / 16) +:+ hex_digit (n mod 16)
  else String a EmptyString.

Fixpoint quote_body (s : string) : string :=
  match s with
  | EmptyString => EmptyString
  | String a s' => quote_char a +:+ quote_body s'
  end.

Definition quote (s : string) : string := chr 34 +:+ quote_body s +:+ chr 34.

Fixpoint join (sep : string) (l : list string) : string :=
  match l with
  | [] => EmptyString
  | [x] => x
  | x :: l' => x +:+ sep +:+ join sep l'
  end.

Fixpoint spaces (n : nat) : string :=
  match n with
  | O => EmptyString
  | S n' => String " " (spaces n')
  end.

(** [JSON.stringify(v)]. *)
Fixpoint stringify (v : JSValue) : string :=
  match v with
  | JNull => "null"
  | JBool true => "true"
  | JBool false => "false"
  | JNum n => NilZero.string_of_int (Z.to_int n)
  | JStr s => quote s
  | JObj ps =>
      "{" +:+
      join ","
        ((fix members (ps : Props) : list string :=
            match ps with
            | [] => []
            | (k, x) :: ps' => (quote k +:+ ":" +:+ stringify x) :: members ps'
            end) ps)
      +:+ "}"
  end.

(** [JSON.stringify(v, null, 2)], at a given depth of indentation. *)
Fixpoint stringify_indent (depth : nat) (v : JSValue) : string :=
  match v with
  | JObj [] => "{}"
  | JObj ps =>
      "{" +:+ chr 10 +:+ spaces (2 * S depth) +:+
      join ("," +:+ chr 10 +:+ spaces (2 * S depth))
        ((fix members (ps : Props) : list string :=
            match ps with
            | [] => []
            | (k, x) :: ps' =>
                (quote k +:+ ": " +:+ stringify_indent (S depth) x)
                :: members ps'
            end) ps)
      +:+ chr 10 +:+ spaces (2 * depth) +:+ "}"
  | _ => stringify v
  end.

Definition json_ws (a : ascii) : bool :=
  let n := nat_of_ascii a in
  Nat.eqb n 32 || Nat.eqb n 9 || Nat.eqb n 10 || Nat.eqb n 13.

Fixpoint skip_ws (s : string) : string :=
  match s with
  | String a s' => if json_ws a then skip_ws s' else s
  | EmptyString => EmptyString
  end.

Definition hex_value (a : ascii) : option nat :=
  let n := nat_of_ascii a in
  if Nat.leb 48 n && Nat.leb n 57 then Some (n - 48)
  else if Nat.leb 97 n && Nat.leb n 102 then Some (n - 87)
  else if Nat.leb 65 n && Nat.leb n 70 then Some (n - 55)
  else None.

(** The characters of a string literal after its opening quote, and the text
    that follows the closing quote. *)
Fixpoint parse_chars (s : string) : option (string * string) :=
  match s with
  | EmptyString => None
  | String a s1 =>
      let n := nat_of_ascii a in
      if Nat.eqb n 34 then Some (EmptyString, s1)
      else if Nat.ltb n 32 then None
      else if Nat.eqb n 92 then
        match s1 with
        | String e s2 =>
            let simple (c : nat) :=
              match parse_chars s2 with
              | Some (body, rest) => Some (String (ascii_of_nat c) body, rest)
              | None => None
              end in
            match nat_of_ascii e with
            | 34 => simple 34
            | 92 => simple 92
            | 47 => simple 47
            | 98 => simple 8
            | 102 => simple 12
            | 110 => simple 10
            | 114 => simple 13
            | 116 => simple 9
            | 117 =>
                match s2 with
                | String h1 (String h2 (String h3 (String h4 s6))) =>
                    match hex_value h1, hex_value h2, hex_value h3,
                          hex_value h4 with
                    | Some 0, Some 0, Some x, Some y =>
                        if Nat.ltb (16 * x + y) 128 then
                          match parse_chars s6 with
                          | Some (body, rest) =>
                              Some (String (ascii_of_nat (16 * x + y)) body,
                                    rest)
                          | None => None
                          end
                        else None
                    | _, _, _, _ => None
                    end
                | _ => None
                end
            | _ => None
            end
        | EmptyString => None
        end
      else
        match parse_chars s1 with
        | Some (body, rest) => Some (String a body, rest)
        | None => None
        end
  end.

Fixpoint take_digits (s : string) : string * string :=
  match s with
  | String a s' =>
      match digit_of a with
      | Some _ => let (d, rest) := take_digits s' in (String a d, rest)
      | None => (EmptyString, s)
      end
  | EmptyString => (EmptyString, EmptyString)
  end.

(** An integer literal: [-]? (0 | [1-9][0-9]* ), not followed by a fraction
    or an exponent. *)
Definition parse_int (s : string) : option (Z * string) :=
  let (neg, s1) :=
    match s with
    | String "-" s' => (true, s')
    | _ => (false, s)
    end in
  let (digits, rest) := take_digits s1 in
  match digits with
  | EmptyString => None
  | String d ds =>
      if Ascii.eqb d "0" && negb (String.eqb ds "") then None
      else
        match rest with
        | String "." _ | String "e" _ | String "E" _ => None
        | _ =>
            match digits_value 0 digits with
            | Some n =>
                Some (if neg then (- Z.of_N n)%Z else Z.of_N n, rest)
            | None => None
            end
        end
  end.

Fixpoint parse_value (fuel : nat) (s : string) : option (JSValue * string) :=
  match fuel with
  | O => None
  | S fuel' =>
      let s := skip_ws s in
      match s with
      | String "{" s1 =>
          match skip_ws s1 with
          | String "}" rest => Some (JObj [], rest)
          | s2 =>
              (fix members (n : nat) (acc : Props) (s : string)
                 : option (JSValue * string) :=
                 match n with
                 | O => None
                 | S n' =>
                     match skip_ws s with
                     | String q s3 =>
                         if Nat.eqb (nat_of_ascii q) 34 then
                           match parse_chars s3 with
                           | Some (k, s4) =>
                               match skip_ws s4 with
                               | String ":" s5 =>
                                   match parse_value fuel' s5 with
                                   | Some (x, s6) =>
                                       let acc := obj_set k x acc in
                                       match skip_ws s6 with
                                       | String "," s7 => members n' acc s7
                                       | String "}" rest =>
                                           Some (JObj acc, rest)
                                       | _ => None
                                       end
                                   | None => None
                                   end
                               | _ => None
                               end
                           | None => None
                           end
                         else None
                     | EmptyString => None
                     end
                 end) (String.length s2) [] s2
          end
      | String q s1 =>
          if Nat.eqb (nat_of_ascii q) 34 then
            match parse_chars s1 with
            | Some (body, rest) => Some (JStr body, rest)
            | None => None
            end
          else
            match strip_prefix "null" s, strip_prefix "true" s,
                  strip_prefix "false" s with
            | Some rest, _, _ => Some (JNull, rest)
            | _, Some rest, _ => Some (JBool true, rest)
            | _, _, Some rest => Some (JBool false, rest)
            | _, _, _ =>
                match parse_int s with
                | Some (n, rest) => Some (JNum n, rest)
                | None => None
                end
            end
      | EmptyString => None
      end
  end.

(** [JSON.parse(text)]: one value, then nothing but white space. *)
Definition parse (text : string) : option JSValue :=
  match parse_value (S (String.length text)) text with
  | Some (v, rest) =>
      match skip_ws rest with
      | EmptyString => Some v
      | _ => None
      end
  | None => None
  end.

Fixpoint zeros (n : nat) : string :=
  match n with
  | O => EmptyString
  | S n' => String "0" (zeros n')
  end.

Definition pad (width : nat) (n : N) : string :=
  let s := NilZero.string_of_uint (N.to_uint n) in
  zeros (width - String.length s) +:+ s.

(** [new Date(ms).toISOString()], for a time [ms] in milliseconds since the
    epoch (years 1970 to 9999). *)
Definition toISOString (ms : N) : string :=
  (let days := ms / 86400000 in
   let rem := ms mod 86400000 in
   let z := days + 719468 in
   let era := z / 146097 in
   let doe := z mod 146097 in
   let yoe := (doe - doe / 1460 + doe / 36524 - doe / 146096) / 365 in
   let doy := doe - (365 * yoe + yoe / 4 - yoe / 100) in
   let mp := (5 * doy + 2) / 153 in
   let d := doy - (153 * mp + 2) / 5 + 1 in
   let m := if mp <? 10 then mp + 3 else mp - 9 in
   let y := yoe + era * 400 + (if m <=? 2 then 1 else 0) in
   pad 4 y +:+ "-" +:+ pad 2 m +:+ "-" +:+ pad 2 d +:+ "T"
   +:+ pad 2 (rem / 3600000) +:+ ":" +:+ pad 2 (rem mod 3600000 / 60000)
   +:+ ":" +:+ pad 2 (rem mod 60000 / 1000) +:+ "."
   +:+ pad 3 (rem mod 1000) +:+ "Z")%N.

Definition runtime : Runtime :=
  mkRuntime parse stringify (stringify_indent 0) toISOString.

End Reference.

(** ** Reading a document *)

Definition doc_props (d : JSValue) : Props := props_of (Some d).

Definition doc_currentYear (d : JSValue) : JSRead :=
  obj_get "currentYear" (doc_props d).

Definition doc_years (d : JSValue) : Props :=
  props_of (obj_get "years" (doc_props d)).

(** [currentYear] is not set, or it names a key of [years]. *)
Definition currentYear_resolves (d : JSValue) : bool :=
  match doc_currentYear d with
  | Some currentYear =>
      negb (truthy currentYear)
      || existsb (String.eqb (ToString currentYear)) (obj_keys (doc_years d))
  | None => true
  end.

(** The sections of a year. *)
Definition doc_sections (d : JSValue) (yearId : string) : Props :=
  props_of (obj_get "sections" (props_of (obj_get yearId (doc_years d)))).

(** The answer stored for a field, if any. *)
Definition doc_answer (d : JSValue) (yearId sectionId fieldId : string)
    : JSRead :=
  obj_get fieldId
    (props_of (obj_get "answers"
       (props_of (obj_get sectionId
          (props_of (obj_get "sections"
             (props_of (obj_get yearId (doc_years d))))))))).

(** The current year: the entry of [years] that [currentYear] names, if
    [currentYear] is set and names one. *)
Definition current_year (d : JSValue) : JSRead :=
  match doc_currentYear d with
  | Some currentYear =>
      if truthy currentYear
      then obj_get (ToString currentYear) (doc_years d)
      else None
  | None => None
  end.

(** What [storageData.years[storageData.currentYear]] finds, if
    [currentYear] is set: the entry above, or a built-in when [currentYear]
    names no entry but a member of [Object.prototype]. *)
Definition current_member (d : JSValue) : option Member :=
  match doc_currentYear d with
  | Some currentYear =>
      if truthy currentYear
      then lookup (ToString currentYear) (doc_years d)
      else None
  | None => None
  end.

(** [currentYear] is set and finds a built-in. *)
Definition current_builtin (d : JSValue) : bool :=
  match current_member d with
  | Some (Builtin _) => true
  | _ => false
  end.

(** [currentYear] is not the name of a member of [Object.prototype]. *)
Definition currentYear_plain (d : JSValue) : bool :=
  match doc_currentYear d with
  | Some currentYear => negb (inherited_name (ToString currentYear))
  | None => true
  end.

(** The answers of a section of the current year, when there are any. *)
Definition current_answers (d : JSValue) (sectionId : string)
    : option Props :=
  match obj_get sectionId
          (props_of (obj_get "sections" (props_of (current_year d))))
  with
  | Some (JObj section) =>
      match obj_get "answers" section with
      | Some (JObj answers) => Some answers
      | _ => None
      end
  | _ => None
  end.

(** ** The data model of the specification *)

Definition is_object (r : JSRead) : bool :=
  match r with
  | Some (JObj _) => true
  | _ => false
  end.

Definition is_nonempty_string (r : JSRead) : bool :=
  match r with
  | Some (JStr s) => negb (String.eqb s "")
  | _ => false
  end.

(** A SectionEntry: an object whose [answers] is an object. *)
Definition section_entry (v : JSValue) : bool :=
  match v with
  | JObj section => is_object (obj_get "answers" section)
  | _ => false
  end.

(** The shape every operation relies on: a year entry is an object whose
    [sections] is an object of SectionEntries. *)
Definition year_shape (v : JSValue) : bool :=
  match v with
  | JObj year =>
      match obj_get "sections" year with
      | Some (JObj sections) => forallb (fun p => section_entry (snd p)) sections
      | _ => false
      end
  | _ => false
  end.

(** Invariants 1 and 2 of the data model: [years] is an object of year
    entries of that shape. *)
Definition document_shape (d : JSValue) : bool :=
  match obj_get "years" (doc_props d) with
  | Some (JObj years) => forallb (fun p => year_shape (snd p)) years
  | _ => false
  end.

(** A YearEntry stored under [yearId]: its [id] is its key, its
    [displayName] a label (the one derived from the id, if empty), its
    timestamps are set, and it has the shape above. *)
Definition year_entry (yearId : string) (v : JSValue) : bool :=
  match v with
  | JObj year =>
      match obj_get "id" year with
      | Some (JStr id) => String.eqb id yearId
      | _ => false
      end
      && match obj_get "displayName" year with
         | Some (JStr label) =>
             negb (String.eqb label "")
             || String.eqb label (replace_first "-" " → " yearId)
         | _ => false
         end
      && is_nonempty_string (obj_get "createdAt" year)
      && is_nonempty_string (obj_get "lastModified" year)
      && year_shape v
  | _ => false
  end.

(** A RootDocument that satisfies the invariants of the data model. *)
Definition root_document (d : JSValue) : bool :=
  match d with
  | JObj props =>
      String.eqb (typeof (obj_get "version" props)) "number"
      && is_object (obj_get "settings" props)
      && match obj_get "years" props with
         | Some (JObj years) =>
             forallb (fun p => year_entry (fst p) (snd p)) years
             && match obj_get "currentYear" props with
                | None | Some JNull => true
                | Some (JStr yearId) =>
                    existsb (String.eqb yearId) (obj_keys years)
                | Some _ => false
                end
         | _ => false
         end
  | _ => false
  end.

(** ** Documents that need no flagged repair

    The shape above, read through the property lookups the repair pass
    makes. *)

Definition is_section (r : JSRead) : bool :=
  match r with
  | Some v => section_entry v
  | None => false
  end.

Definition year_repaired (year : Props) : bool :=
  match obj_get "sections" year with
  | Some (JObj sections) =>
      forallb (fun id => is_section (obj_get id sections)) (obj_keys sections)
  | _ => false
  end.

Definition is_repaired_year (r : JSRead) : bool :=
  match r with
  | Some (JObj year) => year_repaired year
  | _ => false
  end.

(** [currentYear] is not set, or [years[currentYear]] is truthy. *)
Definition currentYear_found (years : Props) (r : JSRead) : bool :=
  match r with
  | Some currentYear =>
      negb (truthy currentYear)
      || truthy_found (lookup (ToString currentYear) years)
  | None => true
  end.

Definition needs_no_repair (data : Props) : bool :=
  String.eqb (typeof (obj_get "version" data)) "number"
  && is_object (obj_get "settings" data)
  && match obj_get "years" data with
     | Some (JObj years) =>
         forallb (fun id => is_repaired_year (obj_get id years))
           (obj_keys years)
         && currentYear_found years (obj_get "currentYear" data)
     | _ => false
     end.

(** Every entry of [years] is an object. *)
Definition year_entries_are_objects (d : JSValue) : bool :=
  forallb (fun id => is_object (obj_get id (doc_years d)))
    (obj_keys (doc_years d)).

(** ** Edits and bursts of edits *)

(** What [saveAnswer] makes of a document of the expected shape, where the
    section id finds no built-in: of the sections of the year, of the year
    and of the document; [now] is the new [lastModified]. *)
Definition edited_sections (sectionId fieldId : string) (value : JSValue)
    (sections : Props) : Props :=
  let sections :=
    if truthy_opt (obj_get sectionId sections) then sections
    else obj_set sectionId empty_section sections in
  let section := props_of (obj_get sectionId sections) in
  let answers := props_of (obj_get "answers" section) in
  obj_set sectionId
    (JObj (obj_set "answers" (JObj (assigned fieldId value answers)) section))
    sections.

Definition edited_year (now sectionId fieldId : string) (value : JSValue)
    (year : Props) : Props :=
  obj_set "lastModified" (JStr now)
    (obj_set "sections"
       (JObj (edited_sections sectionId fieldId value
                (props_of (obj_get "sections" year))))
       year).

Definition edited_document (now yearId sectionId fieldId : string)
    (value : JSValue) (d : JSValue) : JSValue :=
  JObj (obj_set "years"
          (JObj (obj_set yearId
                   (JObj (edited_year now sectionId fieldId value
                            (props_of (obj_get yearId (doc_years d)))))
                   (doc_years d)))
          (doc_props d)).

Record Edit : Type := mkEdit {
  edit_year : string;
  edit_section : string;
  edit_field : string;
  edit_value : JSValue }.

Definition call_of (e : Edit) : Event :=
  CallSaveAnswer (edit_year e) (edit_section e) (edit_field e) (edit_value e).

(** A first edit, further edits each after a gap, then a quiet period. *)
Definition burst_events (first : Edit) (rest : list (N * Edit)) (quiet : N)
    : list Event :=
  call_of first
  :: flat_map (fun ge => [Elapse (fst ge); call_of (snd ge)]) rest
  ++ [Elapse quiet].

Definition last_edit (first : Edit) (rest : list (N * Edit)) : Edit :=
  match last rest with
  | Some ge => snd ge
  | None => first
  end.

(** Every edit of the burst addresses a year entry of the document. *)
Definition edits_address_years (d : JSValue) (first : Edit)
    (rest : list (N * Edit)) : bool :=
  forallb (fun e => is_object (obj_get (edit_year e) (doc_years d)))
    (first :: map snd rest).

(** Ids that find what the document holds and nothing else: the section id
    is not the name of a member of [Object.prototype], and the field id is
    not [__proto__]. *)
Definition plain_ids (sectionId fieldId : string) : bool :=
  negb (inherited_name sectionId) && negb (String.eqb fieldId "__proto__").

(** Every edit of the burst has such ids. *)
Definition edits_plain (first : Edit) (rest : list (N * Edit)) : bool :=
  forallb (fun e => plain_ids (edit_section e) (edit_field e))
    (first :: map snd rest).

(** The timer queue holds at most the timer that [saveTimeout] tracks. *)
Definition timers_tracked (st : State) : bool :=
  match saveTimeout st, timers st with
  | None, [] => true
  | Some h, [(h', _)] => Pos.eqb h h'
  | _, _ => false
  end.

(** The state in which [debouncedSave] leaves a state whose timer queue was
    tracked: one timer, due after the quiet period. *)
Definition armed (st : State) : State :=
  with_saveTimeout (Some (next_timer st))
    (with_timers [(next_timer st, (clock st + 300)%N)]
       (Pos.succ (next_timer st)) st).

(** A deferred save is pending, scheduled at the current instant. *)
Definition pending (st : State) : Prop :=
  exists h, saveTimeout st = Some h
            /\ timers st = [(h, (clock st + 300)%N)].

(** ** Backends and states *)

(** A backend that never fails, and one that is full: every [setItem]
    throws the quota error. *)
Definition no_fault : gmap string string -> BackendOp -> option Exn :=
  fun _ _ => None.

Definition full_backend : gmap string string -> BackendOp -> option Exn :=
  fun _ op =>
    match op with
    | OpSetItem _ _ => Some QuotaExceededError
    | _ => None
    end.

(** A backend with room for everything but the document: [setItem] under
    the storage key throws the quota error, the availability probe passes. *)
Definition record_quota : gmap string string -> BackendOp -> option Exn :=
  fun _ op =>
    match op with
    | OpSetItem k _ =>
        if String.eqb k STORAGE_KEY then Some QuotaExceededError else None
    | _ => None
    end.

(** The state of a freshly loaded module over a given backend. *)
Definition fresh_state (items : gmap string string)
    (fault : gmap string string -> BackendOp -> option Exn)
    (callback : option nat) : State :=
  mkState JNull callback None items fault [] [] [] [] 1%positive 0%N.

(** The state of a running module that holds [d], over a given backend. *)
Definition running_state (d : JSValue)
    (fault : gmap string string -> BackendOp -> option Exn)
    (callback : option nat) : State :=
  with_storageData d (fresh_state ∅ fault callback).

(** The backend serves every operation. *)
Definition working (st : State) : Prop :=
  forall items op, ls_fault st items op = None.

(** The state after an availability probe that went through: the probe key
    was written and removed. *)
Definition probed (st : State) : State :=
  with_localStorage
    (delete "__yearcompass_test__"
       (<["__yearcompass_test__" := "test"]> (localStorage st)))
    (with_ls_writes (ls_writes st ++ [("__yearcompass_test__", "test")]) st).

(** The state after [text] was stored under the storage key. *)
Definition stored (text : string) (st : State) : State :=
  with_ls_writes (ls_writes st ++ [(STORAGE_KEY, text)])
    (with_localStorage (<[STORAGE_KEY := text]> (localStorage st)) st).

(** The writes of the document that reached the backend, oldest first. *)
Definition record_writes (st : State) : list string :=
  map snd
    (List.filter (fun w => String.eqb (fst w) STORAGE_KEY) (ls_writes st)).

(** The state in which [reportStorageError] leaves [st]. *)
Definition reported (type message : string) (originalError : option Exn)
    (st : State) : State :=
  let st :=
    with_console
      (console st
       ++ [("error", "Storage error [" +:+ type +:+ "]: " +:+ message)]) st in
  match onStorageError st with
  | Some _ =>
      with_delivered
        (delivered st ++ [mkStorageError type message originalError]) st
  | None => st
  end.

(** Two states with the same module variables, timers and clock: only the
    backend, the console and the callback log may differ. *)
Definition same_module (st st' : State) : Prop :=
  storageData st' = storageData st
  /\ onStorageError st' = onStorageError st
  /\ saveTimeout st' = saveTimeout st
  /\ ls_fault st' = ls_fault st
  /\ timers st' = timers st
  /\ next_timer st' = next_timer st
  /\ clock st' = clock st.

(** A command that leaves the state as it found it, whether it returns or
    throws. *)
Definition reads_only {A : Type} (c : M A) : Prop :=
  forall st, snd (c st) = st.

(** ** Sample records *)

(** A stored record whose [currentYear] is dangling and whose only year
    entry is not an object. *)
Definition dangling_record : JSValue :=
  JObj [("version", JNum 1); ("currentYear", JStr "2099-2100");
        ("settings", default_settings);
        ("years", JObj [("2024-2025", JStr "oops")])].

(** A stored record whose only year entry lacks [id], [displayName],
    [createdAt] and [lastModified]. *)
Definition bare_year_record : JSValue :=
  JObj [("version", JNum 1); ("currentYear", JStr "2024-2025");
        ("settings", default_settings);
        ("years", JObj [("2024-2025", JObj [("sections", JObj [])])])].

(** A RootDocument with one year, whose section [x] has a blank and a
    filled answer and whose section [y] has a blank answer only. *)
Definition sample_year : JSValue :=
  JObj [("id", JStr "2024-2025"); ("displayName", JStr "2024 → 2025");
        ("createdAt", JStr "2024-12-31T10:00:00.000Z");
        ("lastModified", JStr "2025-01-01T09:30:00.000Z");
        ("currentSection", JStr "intro");
        ("sections",
         JObj [("x", JObj [("completed", JBool false);
                           ("answers", JObj [("a", JStr "  ");
                                             ("b", JStr "hello")])]);
               ("y", JObj [("completed", JBool false);
                           ("answers", JObj [("a", JStr "   ")])])])].

Definition sample_document : JSValue :=
  JObj [("version", JNum 1); ("currentYear", JStr "2024-2025");
        ("settings", default_settings);
        ("years", JObj [("2024-2025", sample_year)])].

(** ** Years, settings and the current section

    The other operations of the module ([src/js/storage.js], lines 304-363
    and 391-424).  Where the platform enumerates a string by UTF-16 code
    unit ([Object.keys] and object spread of a string) the model enumerates
    it by character, which is the same on the Basic Multilingual Plane; the
    module itself only ever hands objects to these. *)

Definition index_keys (n : nat) : list string :=
  map (fun i => NilZero.string_of_uint (Nat.to_uint i)) (seq 0 n).

(** [Object.keys(v)]. *)
Definition keys_of (r : JSRead) : M (list string) :=
  match r with
  | None | Some JNull => throw TypeError
  | Some (JObj ps) => ret (obj_keys ps)
  | Some (JStr s) =>
      ret (index_keys (List.length (characters (String.length s) s)))
  | Some _ => ret []
  end.

Definition getAllYears : M (list string) :=
  let* sd := gets storageData in
  if negb (truthy sd) then ret []
  else
    let* years := read_prop (Some sd) "years" in
    keys_of years.

Definition loadYear (yearId : string) : M Member :=
  let* sd := gets storageData in
  if negb (truthy sd) then ret (Plain JNull)
  else
    let* years := read_prop (Some sd) "years" in
    let* year := read_key years yearId in
    match year with
    | Some year => ret (if truthy_member year then year else Plain JNull)
    | None => ret (Plain JNull)
    end.

(** [storageData?.settings || getDefaultData().settings]. *)
Definition getSettings : M JSValue :=
  let* sd := gets storageData in
  let* settings :=
    match sd with
    | JNull => ret None
    | _ => read_prop (Some sd) "settings"
    end in
  match settings with
  | Some settings => ret (if truthy settings then settings else default_settings)
  | None => ret default_settings
  end.

(** [year?.currentSection || 'intro']. *)
Definition getCurrentSection : M JSValue :=
  let* year := getCurrentYear in
  let* currentSection :=
    match year with
    | Plain JNull => ret None
    | _ => member_prop (Some year) "currentSection"
    end in
  match currentSection with
  | Some currentSection =>
      ret (if truthy currentSection then currentSection else JStr "intro")
  | None => ret (JStr "intro")
  end.

(** The entry that [createNewYear] builds. *)
Definition new_year_entry (now yearId : string) : JSValue :=
  JObj [("id", JStr yearId);
        ("displayName", JStr (replace_first "-" " → " yearId));
        ("createdAt", JStr now); ("lastModified", JStr now);
        ("currentSection", JStr "intro"); ("sections", JObj [])].

(** The own enumerable properties that [{...v}] copies. *)
Definition spread_of (r : JSRead) : Props :=
  match r with
  | Some (JObj ps) => ps
  | Some (JStr s) =>
      let cs := characters (String.length s) s in
      combine (index_keys (List.length cs)) (map JStr cs)
  | _ => []
  end.

(** The properties of [source] defined one after the other on [target]. *)
Definition define_all (source target : Props) : Props :=
  fold_left (fun acc p => obj_set (fst p) (snd p) acc) source target.

Section YearOperations.

Variable rt : Runtime.

Definition setCurrentYear (yearId : string) : M unit :=
  let* sd := gets storageData in
  let* years := read_prop (Some sd) "years" in
  let* year := read_key years yearId in
  if truthy_found year then
    let* sd := write_prop (Some sd) "currentYear" (JStr yearId) in
    modify (with_storageData sd) ;;;
    let* _ := saveToLocalStorage rt in
    ret tt
  else ret tt.

Definition createNewYear (yearId : string) : M (option Member) :=
  let* now := now_iso rt in
  let* sd := gets storageData in
  let* years := read_prop (Some sd) "years" in
  let* years := write_key years yearId (new_year_entry now yearId) in
  let* sd := write_prop (Some sd) "years" years in
  let* sd := write_prop (Some sd) "currentYear" (JStr yearId) in
  modify (with_storageData sd) ;;;
  let* _ := saveToLocalStorage rt in
  let* sd := gets storageData in
  let* years := read_prop (Some sd) "years" in
  read_key years yearId.

(** [data] is the caller's object, stamped before [storageData] is looked
    at.  It is taken by value: an object that the document does not already
    hold under another key. *)
Definition saveYear (yearId : string) (data : JSValue) : M unit :=
  let* now := now_iso rt in
  let* data := write_prop (Some data) "lastModified" (JStr now) in
  let* sd := gets storageData in
  let* years := read_prop (Some sd) "years" in
  let* years := write_key years yearId data in
  let* sd := write_prop (Some sd) "years" years in
  modify (with_storageData sd) ;;;
  let* _ := saveToLocalStorage rt in
  ret tt.

Definition saveSettings (settings : JSValue) : M unit :=
  let* sd := gets storageData in
  let* current := read_prop (Some sd) "settings" in
  let merged :=
    define_all (spread_of (Some settings)) (define_all (spread_of current) []) in
  let* sd := write_prop (Some sd) "settings" (JObj merged) in
  modify (with_storageData sd) ;;;
  let* _ := saveToLocalStorage rt in
  ret tt.

(** The current year is what [storageData.years[storageData.currentYear]]
    finds.  A value of the document changes in place, which is written back
    under that key here; a built-in is no part of the document. *)
Definition saveCurrentSection (sectionId : string) : M unit :=
  let* year := getCurrentYear in
  if truthy_member year then
    let* year := member_set year "currentSection" (JStr sectionId) in
    let* now := now_iso rt in
    let* year := member_set year "lastModified" (JStr now) in
    match year with
    | Plain year =>
        let* sd := gets storageData in
        let* currentYear := read_prop (Some sd) "currentYear" in
        let* years := read_prop (Some sd) "years" in
        let* years :=
          write_prop years
            (match currentYear with
             | Some currentYear => ToString currentYear
             | None => "undefined"
             end) year in
        let* sd := write_prop (Some sd) "years" years in
        modify (with_storageData sd)
    | Builtin _ => ret tt
    end ;;;
    debouncedSave
  else ret tt.

(** *** Calls of the user interface, in sequence *)

Inductive Action : Type :=
  | DoSaveAnswer (yearId sectionId fieldId : string) (value : JSValue)
  | DoSaveCurrentSection (sectionId : string)
  | DoCreateNewYear (yearId : string)
  | DoSetCurrentYear (yearId : string)
  | DoSaveYear (yearId : string) (data : JSValue)
  | DoSaveSettings (settings : JSValue)
  | DoImportData (jsonString : string)
  | Wait (ms : N).

Definition perform (st : State) (a : Action) : State :=
  match a with
  | DoSaveAnswer yearId sectionId fieldId value =>
      snd (saveAnswer rt yearId sectionId fieldId value st)
  | DoSaveCurrentSection sectionId => snd (saveCurrentSection sectionId st)
  | DoCreateNewYear yearId => snd (createNewYear yearId st)
  | DoSetCurrentYear yearId => snd (setCurrentYear yearId st)
  | DoSaveYear yearId data => snd (saveYear yearId data st)
  | DoSaveSettings settings => snd (saveSettings settings st)
  | DoImportData jsonString => snd (importData rt jsonString st)
  | Wait ms => elapse rt ms st
  end.

Definition perform_all (actions : list Action) (st : State) : State :=
  fold_left perform actions st.

(** The stored record is the serialization of the in-memory document. *)
Definition in_sync (st : State) : Prop :=
  localStorage st !! STORAGE_KEY
  = Some (JSON_stringify rt (storageData st)).

(** The backend serves every operation, the timer queue holds at most the
    deferred save, due within the debounce delay, and the stored record is
    up to date unless a deferred save is pending. *)
Definition settled (st : State) : Prop :=
  working st
  /\ timers_tracked st = true
  /\ (forall h due, timers st = [(h, due)] -> (due <= clock st + 300)%N)
  /\ (timers st = [] -> in_sync st).

End YearOperations.

(** ** Callers of the module

    The suggested year of the year selector ([year.js]), given what
    [getFullYear] and [getMonth] return for the current date, and the
    content test of the PDF export ([src/js/pdf.js]). *)

Definition show_number (n : Z) : string := NilZero.string_of_int (Z.to_int n).

Definition getSuggestedYearId (currentYear currentMonth : Z) : string :=
  if (currentMonth <? 3)%Z
  then show_number (currentYear - 1) +:+ "-" +:+ show_number currentYear
  else show_number currentYear +:+ "-" +:+ show_number (currentYear + 1).

Definition formatYearDisplay (yearId : string) : string :=
  replace_first "-" " → " yearId.

Definition isCurrentYearCompass (currentYear currentMonth : Z)
    (yearId : string) : bool :=
  String.eqb yearId (getSuggestedYearId currentYear currentMonth).

(** [value && typeof value === 'string' ? value.trim().length > 0 : !!value]. *)
Definition has_value (value : JSValue) : bool :=
  if truthy value && String.eqb (typeof (Some value)) "string"
  then Nat.ltb 0 (String.length (trim (string_of value)))
  else truthy value.

Definition hasContent (answers : JSRead) : bool :=
  match answers with
  | Some answers =>
      if negb (truthy answers) then false
      else existsb has_value (values_of answers)
  | None => false
  end.

(** The test of [isSectionStarted] on one answer. *)
Definition is_filled (value : JSValue) : bool :=
  truthy value
  && String.eqb (typeof (Some value)) "string"
  && Nat.ltb 0 (String.length (trim (string_of value))).

(** ** Documents after the operations on years and settings *)

(** An object whose [years] is an object: what [initStorage] leaves in
    memory. *)
Definition has_years (d : JSValue) : bool :=
  is_object (obj_get "years" (doc_props d)).

(** What [createNewYear], [setCurrentYear], [saveYear], [saveSettings] and
    [saveCurrentSection] make of such a document; [now] is the time stamp. *)
Definition created_document (now yearId : string) (d : JSValue) : JSValue :=
  JObj (obj_set "currentYear" (JStr yearId)
          (obj_set "years"
             (JObj (obj_set yearId (new_year_entry now yearId) (doc_years d)))
             (doc_props d))).

Definition switched_document (yearId : string) (d : JSValue) : JSValue :=
  JObj (obj_set "currentYear" (JStr yearId) (doc_props d)).

Definition saved_year_document (now yearId : string) (data : Props)
    (d : JSValue) : JSValue :=
  JObj (obj_set "years"
          (JObj (obj_set yearId (JObj (obj_set "lastModified" (JStr now) data))
                   (doc_years d)))
          (doc_props d)).

Definition merged_settings (current : JSRead) (settings : JSValue) : Props :=
  define_all (spread_of (Some settings)) (define_all (spread_of current) []).

Definition settings_document (settings d : JSValue) : JSValue :=
  JObj (obj_set "settings"
          (JObj (merged_settings (obj_get "settings" (doc_props d)) settings))
          (doc_props d)).

Definition section_document (now sectionId currentYear : string)
    (year : Props) (d : JSValue) : JSValue :=
  JObj (obj_set "years"
          (JObj (obj_set currentYear
                   (JObj (obj_set "lastModified" (JStr now)
                            (obj_set "currentSection" (JStr sectionId) year)))
                   (doc_years d)))
          (doc_props d)).

(** The state after [d] became the in-memory document and was written at
    once: the probe, then the record. *)
Definition saved_at_once (rt : Runtime) (d : JSValue) (st : State) : State :=
  stored (JSON_stringify rt d) (probed (with_storageData d st)).

(** How a call can leave the module: as it was (up to the console and the
    callback log), with the record written, or with a deferred save
    scheduled. *)
Definition kept (st st' : State) : Prop :=
  same_module st st' /\ localStorage st' = localStorage st.

Definition flushed (rt : Runtime) (st st' : State) : Prop :=
  saveTimeout st' = saveTimeout st
  /\ ls_fault st' = ls_fault st
  /\ timers st' = timers st
  /\ clock st' = clock st
  /\ in_sync rt st'.

Definition scheduled (st st' : State) : Prop :=
  ls_fault st' = ls_fault st
  /\ clock st' = clock st
  /\ exists h, saveTimeout st' = Some h
               /\ timers st' = [(h, (clock st + 300)%N)].

(** Invariants 1, 2, 4 and 5 of the data model, read through property
    lookups: [version] is a number, [settings] an object, [years] an object
    whose every entry is an object with well-formed sections. *)
Definition repaired_shape (d : JSValue) : bool :=
  String.eqb (typeof (obj_get "version" (doc_props d))) "number"
  && is_object (obj_get "settings" (doc_props d))
  && match obj_get "years" (doc_props d) with
     | Some (JObj years) =>
         forallb (fun id => is_repaired_year (obj_get id years))
           (obj_keys years)
     | _ => false
     end.

(** A call that keeps the shape above whatever the document: every call
    but a [saveYear] of an object that is not a well-formed year entry. *)
Definition keeps_shape (a : Action) : bool :=
  match a with
  | DoSaveYear _ data =>
      negb (is_object (Some data)) || is_repaired_year (Some data)
  | _ => true
  end.

(** A call that leaves the prototypes alone: it assigns nothing under the
    key [__proto__], which would replace the prototype of [years] or of the
    answers of a section, and it makes no name of a member of
    [Object.prototype] the current year, which would hand that member to
    [saveCurrentSection].  For an import this is a condition on the record:
    neither its [currentYear] nor a key of its [years] is such a name. *)
Definition spares_prototypes (rt : Runtime) (a : Action) : bool :=
  match a with
  | DoSaveAnswer _ _ fieldId _ => negb (String.eqb fieldId "__proto__")
  | DoCreateNewYear yearId | DoSetCurrentYear yearId =>
      negb (inherited_name yearId)
  | DoSaveYear yearId _ => negb (String.eqb yearId "__proto__")
  | DoImportData jsonString =>
      match JSON_parse rt jsonString with
      | Some d =>
          currentYear_plain d
          && forallb (fun id => negb (inherited_name id))
               (obj_keys (doc_years d))
      | None => true
      end
  | _ => true
  end.

(** A backend that refuses the document for a reason other than space:
    [setItem] under the storage key throws a [SecurityError]. *)
Definition record_refused : gmap string string -> BackendOp -> option Exn :=
  fun _ op =>
    match op with
    | OpSetItem k _ =>
        if String.eqb k STORAGE_KEY
        then Some (mkExn "SecurityError" (Some 18%Z))
        else None
    | _ => None
    end.




(** A call that defers its save and finds what it changes: a [saveAnswer]
    for a year entry that is an object, with a section id that is not the
    name of a member of [Object.prototype] and a field id other than
    [__proto__], or a [saveCurrentSection] while the current year is an
    object. *)
Definition deferred_call (d : JSValue) (a : Action) : bool :=
  match a with
  | DoSaveAnswer yearId sectionId fieldId _ =>
      is_object (obj_get yearId (doc_years d)) && plain_ids sectionId fieldId
  | DoSaveCurrentSection _ => is_object (current_year d)
  | _ => false
  end.

(** A first call, further calls each after a pause, then a quiet period. *)
Definition mixed_burst (first : Action) (rest : list (N * Action))
    (quiet : N) : list Action :=
  first :: flat_map (fun ga => [Wait (fst ga); snd ga]) rest ++ [Wait quiet].

(** The keys of an object are pairwise distinct. *)
Definition distinct_keys (ps : Props) : Prop := NoDup (obj_keys ps).

(** A record whose year entry holds a section that is not an object. *)
Definition damaged_record : JSValue :=
  JObj [("currentYear", JStr "2024-2025");
        ("years",
         JObj [("2023-2024", JNum 7);
               ("2024-2025", JObj [("sections", JObj [("x", JStr "oops")])])])].

(** * Properties *)

(** ** Own properties *)

Lemma not_an_object_is_object (r : JSRead) :
  not_an_object r = negb (is_object r).
Proof.
  destruct r as [[ | b | n | s | ps] | ]; unfold not_an_object; simpl;
    rewrite ?orb_true_r; reflexivity.
Qed.

Lemma is_object_props (r : JSRead) :
  is_object r = true -> r = Some (JObj (props_of r)).
Proof. destruct r as [[ | b | n | s | ps] | ]; simpl; congruence. Qed.

Lemma obj_get_In (k : string) (v : JSValue) (ps : Props) :
  obj_get k ps = Some v -> In (k, v) ps.
Proof.
  induction ps as [ | [k' v'] ps IH]; simpl; [discriminate | ].
  destruct (String.eqb_spec k k') as [-> | Hne]; intros H.
  - left. congruence.
  - right. auto.
Qed.

Lemma obj_get_key (k : string) (ps : Props) :
  In k (obj_keys ps) -> exists v, obj_get k ps = Some v.
Proof.
  induction ps as [ | [k' v'] ps IH]; simpl; [tauto | ].
  intros [-> | Hin].
  - rewrite String.eqb_refl. eauto.
  - destruct (String.eqb k k'); eauto.
Qed.

Lemma obj_replace_same (k : string) (v : JSValue) (ps : Props) :
  obj_get k ps = Some v -> obj_replace k v ps = ps.
Proof.
  induction ps as [ | [k' v'] ps IH]; simpl; [reflexivity | ].
  destruct (String.eqb_spec k k') as [-> | Hne]; intros H.
  - congruence.
  - f_equal. auto.
Qed.

(** Writing the value a property already has changes nothing. *)
Lemma obj_set_same (k : string) (v : JSValue) (ps : Props) :
  obj_get k ps = Some v -> obj_set k v ps = ps.
Proof.
  intros H. unfold obj_set. rewrite H. now apply obj_replace_same.
Qed.

Lemma obj_get_replace (k k' : string) (v : JSValue) (ps : Props) :
  obj_get k' (obj_replace k v ps)
  = if String.eqb k' k
    then match obj_get k ps with Some _ => Some v | None => None end
    else obj_get k' ps.
Proof.
  induction ps as [ | [k0 v0] ps IH]; simpl.
  - now destruct (String.eqb k' k).
  - destruct (String.eqb_spec k k0) as [-> | Hne]; simpl.
    + destruct (String.eqb_spec k' k0); reflexivity.
    + destruct (String.eqb_spec k' k0) as [-> | Hne'].
      * destruct (String.eqb_spec k0 k); [congruence | reflexivity].
      * exact IH.
Qed.

Lemma obj_get_insert_index (i : N) (k k' : string) (v : JSValue) (ps : Props) :
  obj_get k ps = None ->
  obj_get k' (obj_insert_index i k v ps)
  = if String.eqb k' k then Some v else obj_get k' ps.
Proof.
  induction ps as [ | [k0 v0] ps IH]; simpl; intros Hk.
  - reflexivity.
  - destruct (String.eqb_spec k k0) as [-> | Hne]; [discriminate | ].
    destruct (array_index k0) as [j | ]; [destruct (j <? i)%N | ]; simpl;
      try reflexivity.
    destruct (String.eqb_spec k' k0) as [-> | Hne'].
    + destruct (String.eqb_spec k0 k); [congruence | reflexivity].
    + now apply IH.
Qed.

Lemma obj_get_app (k : string) (ps qs : Props) :
  obj_get k (ps ++ qs)
  = match obj_get k ps with Some v => Some v | None => obj_get k qs end.
Proof.
  induction ps as [ | [k0 v0] ps IH]; simpl; [reflexivity | ].
  now destruct (String.eqb k k0).
Qed.

(** Reading after writing. *)
Lemma obj_get_set (k k' : string) (v : JSValue) (ps : Props) :
  obj_get k' (obj_set k v ps)
  = if String.eqb k' k then Some v else obj_get k' ps.
Proof.
  unfold obj_set. destruct (obj_get k ps) as [v0 | ] eqn:Hk.
  - rewrite obj_get_replace, Hk. reflexivity.
  - destruct (array_index k) as [i | ].
    + now apply obj_get_insert_index.
    + rewrite obj_get_app. simpl.
      destruct (String.eqb_spec k' k) as [-> | Hne].
      * now rewrite Hk.
      * now destruct (obj_get k' ps).
Qed.

Lemma obj_get_set_eq (k : string) (v : JSValue) (ps : Props) :
  obj_get k (obj_set k v ps) = Some v.
Proof. now rewrite obj_get_set, String.eqb_refl. Qed.

Lemma obj_get_set_ne (k k' : string) (v : JSValue) (ps : Props) :
  k' <> k -> obj_get k' (obj_set k v ps) = obj_get k' ps.
Proof.
  intros Hne. rewrite obj_get_set.
  destruct (String.eqb_spec k' k); [contradiction | reflexivity].
Qed.

Lemma obj_get_delete (k k' : string) (ps : Props) :
  obj_get k' (obj_delete k ps)
  = if String.eqb k' k then None else obj_get k' ps.
Proof.
  unfold obj_delete.
  induction ps as [ | [k0 v0] ps IH]; simpl.
  - now destruct (String.eqb k' k).
  - destruct (String.eqb_spec k k0) as [-> | Hne]; simpl.
    + rewrite IH. now destruct (String.eqb_spec k' k0).
    + rewrite IH. destruct (String.eqb_spec k' k0) as [-> | Hne'].
      * destruct (String.eqb_spec k0 k); [congruence | reflexivity].
      * reflexivity.
Qed.

Lemma forallb_lookup (P : string * JSValue -> bool) (ps : Props)
    (k : string) (v : JSValue) :
  forallb P ps = true -> obj_get k ps = Some v -> P (k, v) = true.
Proof.
  intros Hall Hget. rewrite forallb_forall in Hall.
  apply Hall. now apply obj_get_In.
Qed.

Lemma forallb_keys (P : string * JSValue -> bool) (ps : Props) (k : string) :
  forallb P ps = true -> In k (obj_keys ps) ->
  exists v, obj_get k ps = Some v /\ P (k, v) = true.
Proof.
  intros Hall Hin. destruct (obj_get_key k ps Hin) as [v Hv].
  exists v. split; [exact Hv | ]. now apply forallb_lookup with (ps := ps).
Qed.

(** ** Inherited members *)

Lemma lookup_own (k : string) (v : JSValue) (ps : Props) :
  obj_get k ps = Some v -> lookup k ps = Some (Plain v).
Proof. intros H. unfold lookup. now rewrite H. Qed.

Lemma lookup_absent (k : string) (ps : Props) :
  obj_get k ps = None ->
  lookup k ps = if inherited_name k then Some (Builtin k) else None.
Proof. intros H. unfold lookup. now rewrite H. Qed.

Lemma not_inherited_not_proto (k : string) :
  inherited_name k = false -> k <> "__proto__".
Proof. intros H ->. discriminate H. Qed.

(** Under a name that [Object.prototype] does not have, a read by computed
    key finds what the object itself holds. *)
Lemma lookup_plain (k : string) (ps : Props) :
  inherited_name k = false ->
  lookup k ps = option_map Plain (obj_get k ps).
Proof.
  intros H. unfold lookup. rewrite H. now destruct (obj_get k ps).
Qed.

Lemma plain_lookup (k : string) (ps : Props) :
  plain (lookup k ps) = obj_get k ps.
Proof.
  unfold lookup. destruct (obj_get k ps); [reflexivity | ].
  now destruct (inherited_name k).
Qed.

(** A falsy result of a read by computed key is a falsy property of the
    object itself, or none under a name that is not inherited. *)
Lemma truthy_found_lookup (k : string) (ps : Props) :
  truthy_found (lookup k ps)
  = match obj_get k ps with
    | Some v => truthy v
    | None => inherited_name k
    end.
Proof.
  unfold lookup. destruct (obj_get k ps); [reflexivity | ].
  now destruct (inherited_name k).
Qed.

(** The names the module writes out are not inherited: for them the read
    by name and the read by computed key agree. *)
Lemma module_names_not_inherited :
  forallb (fun k => negb (inherited_name k))
    ["version"; "currentYear"; "settings"; "years"; "id"; "displayName";
     "createdAt"; "lastModified"; "currentSection"; "sections"; "completed";
     "answers"] = true.
Proof. reflexivity. Qed.

Lemma read_key_read_prop (r : JSRead) (k : string) (st : State) :
  inherited_name k = false ->
  read_key r k st
  = match read_prop r k st with
    | (Ok v, st') => (Ok (option_map Plain v), st')
    | (Throw e, st') => (Throw e, st')
    end.
Proof.
  intros H. destruct r as [[ | b | n | s | ps] | ]; try reflexivity.
  unfold read_key. now rewrite (lookup_plain _ _ H).
Qed.

Lemma finds_own_plain (k : string) (ps : Props) :
  inherited_name k = false -> finds_own k ps = true.
Proof.
  intros H. unfold finds_own. rewrite (lookup_plain _ _ H).
  now destruct (obj_get k ps).
Qed.

Lemma finds_own_false (k : string) (ps : Props) :
  finds_own k ps = false -> obj_get k ps = None /\ inherited_name k = true.
Proof.
  unfold finds_own, lookup. destruct (obj_get k ps); [discriminate | ].
  now destruct (inherited_name k).
Qed.

Lemma finds_own_lookup (k : string) (ps : Props) :
  finds_own k ps = true -> lookup k ps = option_map Plain (obj_get k ps).
Proof.
  unfold finds_own, lookup. destruct (obj_get k ps); [reflexivity | ].
  now destruct (inherited_name k).
Qed.

Lemma plain_ids_section (sectionId fieldId : string) (ps : Props) :
  plain_ids sectionId fieldId = true -> finds_own sectionId ps = true.
Proof.
  unfold plain_ids. intros H. apply andb_true_iff in H.
  apply finds_own_plain. now destruct (inherited_name sectionId).
Qed.

Lemma plain_ids_field (sectionId fieldId : string) :
  plain_ids sectionId fieldId = true -> fieldId <> "__proto__".
Proof.
  unfold plain_ids. intros H. apply andb_true_iff in H. destruct H as [_ H].
  intros ->. discriminate H.
Qed.

(** Under a key other than [__proto__] the assignment by computed key is
    the assignment by name. *)
Lemma assigned_plain (k : string) (v : JSValue) (ps : Props) :
  k <> "__proto__" -> assigned k v ps = obj_set k v ps.
Proof.
  intros H. unfold assigned.
  destruct (String.eqb_spec k "__proto__"); [contradiction | ].
  now destruct (obj_get k ps), v.
Qed.

(** So it is for a value that is an object, which the model keeps under
    the key in every case. *)
Lemma assigned_object (k : string) (o ps : Props) :
  assigned k (JObj o) ps = obj_set k (JObj o) ps.
Proof. unfold assigned. now destruct (obj_get k ps). Qed.

Lemma assigned_empty_section (k : string) (ps : Props) :
  assigned k empty_section ps = obj_set k empty_section ps.
Proof. apply assigned_object. Qed.

(** The assignment leaves every other property as it was. *)
Lemma obj_get_assigned_ne (k k' : string) (v : JSValue) (ps : Props) :
  k' <> k -> obj_get k' (assigned k v ps) = obj_get k' ps.
Proof.
  intros H. unfold assigned.
  destruct (obj_get k ps), v; try now apply obj_get_set_ne.
  all: destruct (String.eqb k "__proto__"); [reflexivity | ];
    now apply obj_get_set_ne.
Qed.

Lemma obj_get_assigned_eq (k : string) (v : JSValue) (ps : Props) :
  k <> "__proto__" -> obj_get k (assigned k v ps) = Some v.
Proof. intros H. rewrite assigned_plain by exact H. apply obj_get_set_eq. Qed.

Lemma write_key_write_prop (r : JSRead) (k : string) (v : JSValue) :
  k <> "__proto__" -> write_key r k v = write_prop r k v.
Proof.
  intros H. destruct r as [[ | b | n | s | ps] | ]; try reflexivity.
  unfold write_key, write_prop. now rewrite assigned_plain.
Qed.

(** ** Validation of a document that needs no repair *)

Lemma validate_sections_clean (ids : list string) (sections : Props)
    (rep : bool) :
  (forall id, In id ids ->
     exists v, obj_get id sections = Some v /\ section_entry v = true) ->
  validate_sections ids sections rep = (sections, rep).
Proof.
  induction ids as [ | id ids IH]; intros Hall; simpl; [reflexivity | ].
  destruct (Hall id) as [v [Hv Hsec]]; [now left | ].
  rewrite Hv. destruct v as [ | b | n | s | section]; try discriminate.
  simpl in Hsec. rewrite !not_an_object_is_object. simpl. rewrite Hsec. simpl.
  apply IH. intros id' Hin. apply Hall. now right.
Qed.

Lemma backfill_year_clean (now yearId : string) (year : Props) :
  year_entry yearId (JObj year) = true ->
  backfill_year now yearId year = year.
Proof.
  unfold year_entry. rewrite !andb_true_iff.
  intros [[[[Hid Hname] Hcreated] Hmodified] _].
  unfold backfill_year.
  destruct (obj_get "id" year) as [[ | | | id | ] | ] eqn:Eid; try discriminate.
  apply String.eqb_eq in Hid. subst id.
  replace (if negb (truthy_opt (Some (JStr yearId)))
           then obj_set "id" (JStr yearId) year else year) with year
    by (destruct (negb _); [now rewrite obj_set_same | reflexivity]).
  destruct (obj_get "displayName" year) as [[ | | | label | ] | ] eqn:Ename;
    try discriminate.
  replace (if negb (truthy_opt (Some (JStr label)))
           then obj_set "displayName"
                  (JStr (replace_first "-" " → " yearId)) year
           else year) with year.
  2:{ simpl. destruct (String.eqb_spec label "") as [-> | Hne]; simpl.
      - apply orb_true_iff in Hname. destruct Hname as [Hname | Hname];
          [discriminate | ].
        apply String.eqb_eq in Hname. rewrite <- Hname.
        now rewrite obj_set_same.
      - reflexivity. }
  destruct (obj_get "createdAt" year) as [[ | | | created | ] | ] eqn:Ecreated;
    try discriminate.
  simpl in Hcreated. simpl. rewrite Hcreated. simpl.
  destruct (obj_get "lastModified" year) as [[ | | | modified | ] | ]
    eqn:Emodified; try discriminate.
  simpl in Hmodified. simpl. now rewrite Hmodified.
Qed.

Lemma validate_year_clean (now yearId : string) (year : Props) (rep : bool) :
  year_entry yearId (JObj year) = true ->
  validate_year now yearId year rep = (year, rep).
Proof.
  intros Hentry. unfold validate_year.
  rewrite (backfill_year_clean _ _ _ Hentry).
  unfold year_entry in Hentry. rewrite !andb_true_iff in Hentry.
  destruct Hentry as [_ Hshape]. simpl in Hshape.
  destruct (obj_get "sections" year) as [[ | | | | sections] | ] eqn:Esections;
    try discriminate.
  rewrite not_an_object_is_object. simpl. rewrite Esections. simpl.
  rewrite validate_sections_clean.
  - now rewrite obj_set_same.
  - intros id Hin.
    destruct (forallb_keys _ _ _ Hshape Hin) as [v [Hv Hsec]]. eauto.
Qed.

Lemma validate_years_clean (now : string) (ids : list string) (years : Props)
    (rep : bool) :
  (forall id, In id ids ->
     exists v, obj_get id years = Some v /\ year_entry id v = true) ->
  validate_years now ids years rep = (years, rep).
Proof.
  induction ids as [ | id ids IH]; intros Hall; simpl; [reflexivity | ].
  destruct (Hall id) as [v [Hv Hentry]]; [now left | ].
  rewrite Hv. destruct v as [ | b | n | s | year]; try discriminate.
  rewrite not_an_object_is_object. simpl.
  rewrite (validate_year_clean _ _ _ _ Hentry).
  rewrite (obj_set_same _ _ _ Hv).
  apply IH. intros id' Hin. apply Hall. now right.
Qed.

(** The repair pass leaves a RootDocument as it is and reports no repair. *)
Lemma repair_document_clean (now : string) (props : Props) :
  root_document (JObj props) = true ->
  repair_document now props = (props, false).
Proof.
  unfold root_document. rewrite !andb_true_iff.
  intros [[Hversion Hsettings] Hyears].
  destruct (obj_get "years" props) as [[ | | | | years] | ] eqn:Eyears;
    try discriminate.
  apply andb_true_iff in Hyears. destruct Hyears as [Hentries Hcurrent].
  unfold repair_document, ensure_version, ensure_settings, ensure_years.
  rewrite Hversion. simpl.
  rewrite not_an_object_is_object, Hsettings. simpl.
  rewrite Eyears. simpl.
  assert (Hdone : repair_years now props false = (props, false)).
  { unfold repair_years. rewrite Eyears. simpl.
    rewrite validate_years_clean.
    - now rewrite obj_set_same.
    - intros id Hin.
      destruct (forallb_keys _ _ _ Hentries Hin) as [v [Hv Hentry]]. eauto. }
  unfold repair_currentYear. rewrite Eyears. simpl props_of.
  destruct (obj_get "currentYear" props) as [[ | | | yearId | ] | ];
    try discriminate; try exact Hdone.
  simpl. destruct (String.eqb_spec yearId "") as [-> | Hne]; simpl;
    [exact Hdone | ].
  apply existsb_exists in Hcurrent. destruct Hcurrent as [k [Hin Heq]].
  apply String.eqb_eq in Heq. subst k.
  destruct (forallb_keys _ _ _ Hentries Hin) as [v [Hv Hentry]].
  rewrite (lookup_own _ _ _ Hv). destruct v; try discriminate. simpl.
  exact Hdone.
Qed.

(** ** The backend probe and the write of the document *)

Lemma same_module_refl (st : State) : same_module st st.
Proof. repeat split. Qed.

Lemma same_module_trans (st1 st2 st3 : State) :
  same_module st1 st2 -> same_module st2 st3 -> same_module st1 st3.
Proof.
  unfold same_module. intros H1 H2.
  destruct H1 as (? & ? & ? & ? & ? & ? & ?).
  destruct H2 as (? & ? & ? & ? & ? & ? & ?).
  repeat split; congruence.
Qed.

(** The probe never throws and touches nothing but the backend's items. *)
Lemma isLocalStorageAvailable_frame (st : State) :
  exists b st',
    isLocalStorageAvailable st = (Ok b, st')
    /\ same_module st st'
    /\ delivered st' = delivered st
    /\ console st' = console st
    /\ record_writes st' = record_writes st.
Proof.
  unfold isLocalStorageAvailable, try_catch, bind, ls_setItem, ls_getItem,
    ls_removeItem, ret.
  destruct (ls_fault st (localStorage st) (OpSetItem _ _)) eqn:E1; cbn.
  { exists false, st. repeat split. }
  match goal with
  | |- context [ls_fault st ?m (OpGetItem ?k)] =>
      destruct (ls_fault st m (OpGetItem k)) eqn:E2; cbn
  end.
  { eexists false, _. split; [reflexivity | ]. repeat split.
    unfold record_writes. cbn. rewrite List.filter_app. cbn.
    now rewrite app_nil_r. }
  match goal with
  | |- context [ls_fault st ?m (OpRemoveItem ?k)] =>
      destruct (ls_fault st m (OpRemoveItem k)) eqn:E3; cbn
  end.
  { eexists false, _. split; [reflexivity | ]. repeat split.
    unfold record_writes. cbn. rewrite List.filter_app. cbn.
    now rewrite app_nil_r. }
  eexists _, _. split; [reflexivity | ]. repeat split.
  unfold record_writes. cbn. rewrite List.filter_app. cbn.
  now rewrite app_nil_r.
Qed.

Lemma isLocalStorageAvailable_working (st : State) :
  working st -> isLocalStorageAvailable st = (Ok true, probed st).
Proof.
  intros Hwork.
  unfold isLocalStorageAvailable, try_catch, bind, ls_setItem, ls_getItem,
    ls_removeItem, ret.
  repeat (rewrite Hwork; cbn).
  rewrite lookup_insert_eq. reflexivity.
Qed.

Lemma probed_same_module (st : State) : same_module st (probed st).
Proof. repeat split. Qed.

Lemma probed_lookup (st : State) (k : string) :
  k <> "__yearcompass_test__" ->
  localStorage (probed st) !! k = localStorage st !! k.
Proof.
  intros Hne. cbn. rewrite lookup_delete_ne by congruence.
  now rewrite lookup_insert_ne by congruence.
Qed.

Lemma record_writes_probed (st : State) :
  record_writes (probed st) = record_writes st.
Proof.
  unfold record_writes. cbn. rewrite List.filter_app. cbn.
  now rewrite app_nil_r.
Qed.

Lemma record_writes_stored (text : string) (st : State) :
  record_writes (stored text st) = (record_writes st ++ [text])%list.
Proof.
  unfold record_writes. cbn. rewrite List.filter_app, map_app. reflexivity.
Qed.

Lemma reportStorageError_run (type message : string)
    (originalError : option Exn) (st : State) :
  reportStorageError type message originalError st
  = (Ok tt, reported type message originalError st).
Proof.
  unfold reportStorageError, reported, bind, console_log, modify, gets. cbn.
  destruct (onStorageError st); reflexivity.
Qed.

Lemma reported_same_module (type message : string)
    (originalError : option Exn) (st : State) :
  same_module st (reported type message originalError st).
Proof.
  unfold reported. cbn. destruct (onStorageError st); repeat split.
Qed.

Lemma reported_delivered (type message : string) (originalError : option Exn)
    (st : State) (cb : nat) :
  onStorageError st = Some cb ->
  delivered (reported type message originalError st)
  = (delivered st ++ [mkStorageError type message originalError])%list.
Proof. intros H. unfold reported. cbn. now rewrite H. Qed.

Section StorageProperties.

Variable rt : Runtime.

(** [saveToLocalStorage] over a working backend: the probe, then the write
    of the serialized document. *)
Lemma saveToLocalStorage_working (st : State) :
  working st ->
  saveToLocalStorage rt st
  = (Ok true, stored (JSON_stringify rt (storageData st)) (probed st)).
Proof.
  intros Hwork. unfold saveToLocalStorage, bind.
  rewrite (isLocalStorageAvailable_working st Hwork). cbn.
  unfold try_catch, bind, gets, ls_setItem. cbn.
  rewrite Hwork. reflexivity.
Qed.

(** [saveToLocalStorage] never throws and never touches the module's
    variables, whatever the backend does. *)
Lemma saveToLocalStorage_frame (st : State) :
  exists b st', saveToLocalStorage rt st = (Ok b, st') /\ same_module st st'.
Proof.
  unfold saveToLocalStorage, bind.
  destruct (isLocalStorageAvailable_frame st)
    as (b & st1 & Hprobe & Hsame & _).
  rewrite Hprobe. destruct b; cbn.
  - unfold try_catch, bind, gets, ls_setItem, ret. cbn.
    destruct (ls_fault st1 (localStorage st1) (OpSetItem _ _)) as [e | ] eqn:E.
    + destruct (is_quota_error e); rewrite reportStorageError_run; cbn;
        eexists _, _; (split; [reflexivity | ]);
        eapply same_module_trans; eauto using reported_same_module.
    + eexists _, _. split; [reflexivity | ].
      eapply same_module_trans; [exact Hsame | ]. repeat split.
  - exists false, st1. split; [reflexivity | exact Hsame].
Qed.

(** ** Validation as a command *)

Lemma validateAndRepairData_object (props : Props) (st : State) :
  validateAndRepairData rt (JObj props) st
  = (Ok (mkValidation true
           (snd (repair_document (Date_toISOString rt (clock st)) props))
           (JObj (fst (repair_document (Date_toISOString rt (clock st))
                         props)))),
     if snd (repair_document (Date_toISOString rt (clock st)) props)
     then with_console
            (console st
             ++ [("warn", "Data structure was repaired during validation")])
            st
     else st).
Proof.
  unfold validateAndRepairData, bind, now_iso, gets. cbn.
  destruct (repair_document _ props) as [d [ | ]]; reflexivity.
Qed.

Lemma validateAndRepairData_rejected (d : JSValue) (st : State) :
  not_an_object (Some d) = true ->
  validateAndRepairData rt d st
  = (Ok (mkValidation false false getDefaultData),
     reported "corrupt" MSG_CORRUPT None st).
Proof.
  intros H. unfold validateAndRepairData. rewrite H. unfold bind.
  now rewrite reportStorageError_run.
Qed.

Lemma not_an_object_cases (d : JSValue) :
  (exists props, d = JObj props) \/ not_an_object (Some d) = true.
Proof.
  destruct d as [ | [ | ] | n | s | props]; eauto; right;
    unfold not_an_object; simpl; now rewrite ?orb_true_r.
Qed.

End StorageProperties.

(** ** Repair of damaged records *)

Section Repair.

Variable rt : Runtime.

(** Every object is accepted, everything else rejected. *)
Lemma validateAndRepairData_valid (d : JSValue) (st : State) :
  exists r st',
    validateAndRepairData rt d st = (Ok r, st')
    /\ valid r = negb (not_an_object (Some d)).
Proof.
  destruct (not_an_object_cases d) as [[props ->] | Hrej].
  - rewrite validateAndRepairData_object. eexists _, _.
    split; reflexivity.
  - rewrite validateAndRepairData_rejected by exact Hrej. rewrite Hrej.
    eexists _, _. split; reflexivity.
Qed.

(** C1 at the record [dangling_record], whose [currentYear] names no year
    and whose one year entry is a string.  The repair first points
    [currentYear] at the last key of [years], then drops that entry: the
    returned document has a [currentYear] that is set and names no key of
    its [years]. *)
Theorem repair_leaves_currentYear_dangling (st : State) :
  exists r st',
    validateAndRepairData rt dangling_record st = (Ok r, st')
    /\ valid r = true
    /\ doc_currentYear (data r) = Some (JStr "2024-2025")
    /\ doc_years (data r) = []
    /\ currentYear_resolves (data r) = false.
Proof.
  unfold dangling_record. rewrite validateAndRepairData_object.
  eexists _, _. split; [reflexivity | ]. repeat split.
Qed.

(** C2 at the same record: a second pass over the document the first pass
    returned clears the dangling [currentYear] and reports a repair. *)
Theorem repair_twice_repairs_again (st : State) :
  exists r1 st1 r2 st2,
    validateAndRepairData rt dangling_record st = (Ok r1, st1)
    /\ validateAndRepairData rt (data r1) st1 = (Ok r2, st2)
    /\ repaired r2 = true
    /\ doc_currentYear (data r2) = Some JNull.
Proof.
  unfold dangling_record. rewrite validateAndRepairData_object.
  eexists _, _. eexists. eexists. split; [reflexivity | ].
  cbn [data]. split; [apply validateAndRepairData_object | ].
  split; reflexivity.
Qed.

(** C3 at the record [bare_year_record], whose year entry has [sections]
    only: the pass backfills [id], [displayName], [createdAt] and
    [lastModified], and reports no repair. *)
Theorem backfill_reports_no_repair (st : State) :
  exists r st',
    validateAndRepairData rt bare_year_record st = (Ok r, st')
    /\ valid r = true
    /\ repaired r = false
    /\ obj_get "2024-2025" (doc_years bare_year_record)
       = Some (JObj [("sections", JObj [])])
    /\ obj_get "2024-2025" (doc_years (data r))
       = Some (JObj [("sections", JObj []);
                     ("id", JStr "2024-2025");
                     ("displayName", JStr "2024 → 2025");
                     ("createdAt", JStr (Date_toISOString rt (clock st)));
                     ("lastModified", JStr (Date_toISOString rt (clock st)))]).
Proof.
  unfold bare_year_record. rewrite validateAndRepairData_object.
  eexists _, _. split; [reflexivity | ]. repeat split.
Qed.

End Repair.

(** ** Repair of records whose year entries are objects

    Where no year entry has to be dropped, the repair pass establishes the
    invariants and a second pass finds nothing to repair. *)

Lemma obj_keys_replace (k : string) (v : JSValue) (ps : Props) :
  obj_keys (obj_replace k v ps) = obj_keys ps.
Proof.
  induction ps as [ | [k' v'] ps IH]; simpl; [reflexivity | ].
  destruct (String.eqb_spec k k') as [-> | Hne]; simpl; [reflexivity | ].
  f_equal. exact IH.
Qed.

(** Overwriting a property keeps the enumeration as it is. *)
Lemma obj_keys_set_existing (k : string) (v v0 : JSValue) (ps : Props) :
  obj_get k ps = Some v0 -> obj_keys (obj_set k v ps) = obj_keys ps.
Proof. intros H. unfold obj_set. rewrite H. apply obj_keys_replace. Qed.

Lemma obj_get_Some_key (k : string) (v : JSValue) (ps : Props) :
  obj_get k ps = Some v -> In k (obj_keys ps).
Proof.
  intros H. apply obj_get_In in H. unfold obj_keys.
  apply in_map_iff. now exists (k, v).
Qed.

Lemma validate_sections_sound (ids : list string) :
  forall (sections : Props) (rep : bool),
    (forall id, In id ids -> In id (obj_keys sections)) ->
    obj_keys (fst (validate_sections ids sections rep)) = obj_keys sections
    /\ (forall id, In id ids ->
          is_section (obj_get id (fst (validate_sections ids sections rep)))
          = true)
    /\ (forall id, is_section (obj_get id sections) = true ->
          is_section (obj_get id (fst (validate_sections ids sections rep)))
          = true).
Proof.
  induction ids as [ | id ids IH]; intros sections rep Hkeys.
  - simpl. repeat split; tauto.
  - destruct (obj_get_key id sections) as [v Hv]; [apply Hkeys; now left | ].
    assert (Hstep : forall (v' : JSValue) (rep' : bool),
              section_entry v' = true ->
              let r := validate_sections ids (obj_set id v' sections) rep' in
              obj_keys (fst r) = obj_keys sections
              /\ (forall id', In id' (id :: ids) ->
                    is_section (obj_get id' (fst r)) = true)
              /\ (forall id', is_section (obj_get id' sections) = true ->
                    is_section (obj_get id' (fst r)) = true)).
    { intros v' rep' Hclean.
      destruct (IH (obj_set id v' sections) rep') as (Hk & Hids & Hkeep).
      { intros id' Hin. rewrite (obj_keys_set_existing _ _ _ _ Hv).
        apply Hkeys. now right. }
      assert (Hnew : forall id',
                is_section (obj_get id' sections) = true \/ id' = id ->
                is_section (obj_get id' (obj_set id v' sections)) = true).
      { intros id' Hcase. rewrite obj_get_set.
        destruct (String.eqb_spec id' id) as [-> | Hne]; [exact Hclean | ].
        destruct Hcase; [assumption | contradiction]. }
      cbv zeta. rewrite Hk, (obj_keys_set_existing _ _ _ _ Hv).
      split; [reflexivity | ]. split.
      - intros id' [<- | Hin]; [apply Hkeep, Hnew; now right | now apply Hids].
      - intros id' Hok. apply Hkeep, Hnew. now left. }
    simpl. rewrite Hv.
    destruct (not_an_object (Some v)) eqn:Eobj.
    + apply Hstep. reflexivity.
    + destruct (not_an_object (obj_get "answers" (props_of (Some v))))
        eqn:Eans.
      * apply Hstep. simpl. now rewrite obj_get_set_eq.
      * rewrite not_an_object_is_object in Eobj, Eans.
        apply negb_false_iff in Eobj, Eans.
        destruct v as [ | | | | section]; try discriminate.
        simpl in Eans.
        destruct (IH sections rep) as (Hk & Hids & Hkeep).
        { intros id' Hin. apply Hkeys. now right. }
        split; [exact Hk | ]. split; [ | exact Hkeep].
        intros id' [<- | Hin]; [ | now apply Hids].
        apply Hkeep. rewrite Hv. exact Eans.
Qed.

(** The backfills leave every other property alone. *)
Lemma backfill_year_other (now yearId k : string) (year : Props) :
  k <> "id" -> k <> "displayName" -> k <> "createdAt" ->
  k <> "lastModified" ->
  obj_get k (backfill_year now yearId year) = obj_get k year.
Proof.
  intros H1 H2 H3 H4. unfold backfill_year.
  repeat match goal with
         | |- context [if ?c then _ else _] => destruct c
         | |- context [match ?o with Some _ => _ | None => _ end] =>
             destruct o
         end;
    rewrite ?obj_get_set_ne by assumption; reflexivity.
Qed.

(** After its validation a year entry has sections that need no repair. *)
Lemma validate_year_sound (now yearId : string) (year : Props) (rep : bool) :
  year_repaired (fst (validate_year now yearId year rep)) = true.
Proof.
  unfold validate_year.
  set (year1 := backfill_year now yearId year).
  set (step := if not_an_object (obj_get "sections" year1)
               then (obj_set "sections" (JObj []) year1, true)
               else (year1, rep)).
  assert (Hobj : is_object (obj_get "sections" (fst step)) = true).
  { unfold step. rewrite not_an_object_is_object.
    destruct (is_object (obj_get "sections" year1)) eqn:E; simpl;
      [exact E | now rewrite obj_get_set_eq]. }
  destruct step as [year2 rep2]. simpl in Hobj.
  set (sections := props_of (obj_get "sections" year2)).
  destruct (validate_sections_sound (obj_keys sections) sections rep2)
    as (Hkeys & Hids & _); [tauto | ].
  destruct (validate_sections (obj_keys sections) sections rep2)
    as [sections' rep3]. simpl in Hkeys, Hids. simpl.
  unfold year_repaired. rewrite obj_get_set_eq.
  apply forallb_forall. intros id Hin. apply Hids. now rewrite <- Hkeys.
Qed.

(** The validation of a year entry that needs no repair raises no flag. *)
Lemma validate_year_flag (now yearId : string) (year : Props) (rep : bool) :
  year_repaired year = true ->
  snd (validate_year now yearId year rep) = rep.
Proof.
  unfold year_repaired, validate_year. intros Hyear.
  rewrite (backfill_year_other now yearId "sections") by discriminate.
  destruct (obj_get "sections" year) as [[ | | | | sections] | ] eqn:Esections;
    try discriminate.
  rewrite not_an_object_is_object. simpl.
  rewrite (backfill_year_other now yearId "sections") by discriminate.
  rewrite Esections. simpl props_of.
  rewrite validate_sections_clean; [reflexivity | ].
  intros id Hin. rewrite forallb_forall in Hyear.
  specialize (Hyear id Hin). unfold is_section in Hyear.
  destruct (obj_get id sections) as [v | ]; [eauto | discriminate].
Qed.

Lemma validate_years_sound (now : string) (ids : list string) :
  forall (years : Props) (rep : bool),
    (forall id, In id ids -> is_object (obj_get id years) = true) ->
    obj_keys (fst (validate_years now ids years rep)) = obj_keys years
    /\ (forall id, In id ids ->
          is_repaired_year
            (obj_get id (fst (validate_years now ids years rep))) = true)
    /\ (forall id, is_repaired_year (obj_get id years) = true ->
          is_repaired_year
            (obj_get id (fst (validate_years now ids years rep))) = true)
    /\ (forall id, is_object (obj_get id years) = true ->
          is_object (obj_get id (fst (validate_years now ids years rep)))
          = true).
Proof.
  induction ids as [ | id ids IH]; intros years rep Hobjects.
  - simpl. repeat split; tauto.
  - assert (Hid : is_object (obj_get id years) = true)
      by (apply Hobjects; now left).
    destruct (obj_get id years) as [[ | | | | year] | ] eqn:Eyear;
      try discriminate.
    simpl. rewrite Eyear. rewrite not_an_object_is_object. simpl.
    pose proof (validate_year_sound now id year rep) as Hsound.
    destruct (validate_year now id year rep) as [year' rep'].
    simpl in Hsound.
    assert (Hnew : forall id',
              obj_get id' (obj_set id (JObj year') years)
              = if String.eqb id' id then Some (JObj year')
                else obj_get id' years)
      by (intros; apply obj_get_set).
    destruct (IH (obj_set id (JObj year') years) rep')
      as (Hk & Hids & Hkeep & Hobj).
    { intros id' Hin. rewrite Hnew.
      destruct (String.eqb id' id); [reflexivity | ].
      apply Hobjects. now right. }
    rewrite Hk, (obj_keys_set_existing _ _ _ _ Eyear).
    split; [reflexivity | ]. split; [ | split].
    + intros id' [<- | Hin]; [ | now apply Hids].
      apply Hkeep. rewrite Hnew, String.eqb_refl. exact Hsound.
    + intros id' Hok. apply Hkeep. rewrite Hnew.
      now destruct (String.eqb id' id).
    + intros id' Hok. apply Hobj. rewrite Hnew.
      now destruct (String.eqb id' id).
Qed.

Lemma validate_years_flag (now : string) (ids : list string) :
  forall (years : Props) (rep : bool),
    (forall id, In id ids -> is_repaired_year (obj_get id years) = true) ->
    snd (validate_years now ids years rep) = rep.
Proof.
  induction ids as [ | id ids IH]; intros years rep Hall; [reflexivity | ].
  assert (Hid : is_repaired_year (obj_get id years) = true)
    by (apply Hall; now left).
  destruct (obj_get id years) as [[ | | | | year] | ] eqn:Eyear;
    try discriminate.
  simpl in Hid. simpl. rewrite Eyear. rewrite not_an_object_is_object. simpl.
  pose proof (validate_year_flag now id year rep Hid) as Hflag.
  pose proof (validate_year_sound now id year rep) as Hsound.
  destruct (validate_year now id year rep) as [year' rep'].
  simpl in Hflag, Hsound. subst rep'.
  apply IH. intros id' Hin. rewrite obj_get_set.
  destruct (String.eqb id' id); [exact Hsound | ].
  apply Hall. now right.
Qed.

Lemma ensure_version_spec (data : Props) (rep : bool) :
  String.eqb (typeof (obj_get "version" (fst (ensure_version data rep))))
    "number" = true
  /\ forall k, k <> "version" ->
       obj_get k (fst (ensure_version data rep)) = obj_get k data.
Proof.
  unfold ensure_version.
  destruct (String.eqb (typeof (obj_get "version" data)) "number") eqn:E;
    simpl.
  - split; [exact E | reflexivity].
  - split; [now rewrite obj_get_set_eq | ].
    intros k Hk. now apply obj_get_set_ne.
Qed.

Lemma ensure_settings_spec (data : Props) (rep : bool) :
  is_object (obj_get "settings" (fst (ensure_settings data rep))) = true
  /\ forall k, k <> "settings" ->
       obj_get k (fst (ensure_settings data rep)) = obj_get k data.
Proof.
  unfold ensure_settings. rewrite not_an_object_is_object.
  destruct (is_object (obj_get "settings" data)) eqn:E; simpl.
  - split; [exact E | reflexivity].
  - split; [now rewrite obj_get_set_eq | ].
    intros k Hk. now apply obj_get_set_ne.
Qed.

Lemma ensure_years_spec (data : Props) (rep : bool) :
  is_object (obj_get "years" (fst (ensure_years data rep))) = true
  /\ props_of (obj_get "years" (fst (ensure_years data rep)))
     = props_of (obj_get "years" data)
  /\ forall k, k <> "years" ->
       obj_get k (fst (ensure_years data rep)) = obj_get k data.
Proof.
  unfold ensure_years. rewrite not_an_object_is_object.
  destruct (is_object (obj_get "years" data)) eqn:E; simpl.
  - split; [exact E | ]. split; reflexivity.
  - rewrite obj_get_set_eq. split; [reflexivity | ]. split.
    + now destruct (obj_get "years" data) as [[ | | | | ps] | ].
    + intros k Hk. now apply obj_get_set_ne.
Qed.

Lemma repair_currentYear_spec (data : Props) (rep : bool) :
  (forall id, In id (obj_keys (props_of (obj_get "years" data))) ->
     is_object (obj_get id (props_of (obj_get "years" data))) = true) ->
  currentYear_found (props_of (obj_get "years" data))
    (obj_get "currentYear" (fst (repair_currentYear data rep))) = true
  /\ forall k, k <> "currentYear" ->
       obj_get k (fst (repair_currentYear data rep)) = obj_get k data.
Proof.
  intros Hobjects. unfold repair_currentYear.
  set (years := props_of (obj_get "years" data)) in *.
  destruct (obj_get "currentYear" data) as [currentYear | ] eqn:Ecurrent.
  2:{ simpl. rewrite Ecurrent. split; reflexivity. }
  destruct (truthy currentYear
            && negb (truthy_found (lookup (ToString currentYear) years)))
    eqn:Edangling; simpl.
  - rewrite obj_get_set_eq. split.
    + destruct (last (obj_keys years)) as [yearId | ] eqn:Elast;
        [ | reflexivity].
      simpl. apply last_Some_elem_of, list_elem_of_In in Elast.
      specialize (Hobjects yearId Elast). rewrite truthy_found_lookup.
      destruct (obj_get yearId years) as [[ | | | | year] | ];
        try discriminate.
      simpl. now rewrite orb_true_r.
    + intros k Hk. now apply obj_get_set_ne.
  - rewrite Ecurrent. split; [ | reflexivity]. simpl.
    destruct (truthy currentYear); [ | reflexivity].
    simpl in Edangling |- *. now apply negb_false_iff in Edangling.
Qed.

Lemma repair_years_spec (now : string) (data : Props) (rep : bool)
    (current : JSRead) :
  (forall id, In id (obj_keys (props_of (obj_get "years" data))) ->
     is_object (obj_get id (props_of (obj_get "years" data))) = true) ->
  currentYear_found (props_of (obj_get "years" data)) current = true ->
  exists years,
    obj_get "years" (fst (repair_years now data rep)) = Some (JObj years)
    /\ forallb (fun id => is_repaired_year (obj_get id years))
         (obj_keys years) = true
    /\ currentYear_found years current = true
    /\ forall k, k <> "years" ->
         obj_get k (fst (repair_years now data rep)) = obj_get k data.
Proof.
  intros Hobjects Hcurrent. unfold repair_years.
  set (years := props_of (obj_get "years" data)) in *.
  destruct (validate_years_sound now (obj_keys years) years rep Hobjects)
    as (Hkeys & Hids & _ & Hobj).
  destruct (validate_years now (obj_keys years) years rep)
    as [years' rep'].
  simpl in Hkeys, Hids, Hobj. simpl. exists years'.
  rewrite obj_get_set_eq. split; [reflexivity | ]. split; [ | split].
  - apply forallb_forall. intros id Hin. apply Hids. now rewrite <- Hkeys.
  - destruct current as [currentYear | ]; [ | reflexivity].
    simpl in Hcurrent |- *.
    destruct (truthy currentYear); [ | reflexivity]. simpl in Hcurrent |- *.
    rewrite truthy_found_lookup in Hcurrent |- *.
    destruct (obj_get (ToString currentYear) years) as [v | ] eqn:Ev.
    + pose proof (Hobj _ (Hobjects _ (obj_get_Some_key _ _ _ Ev))) as Hnew.
      now destruct (obj_get (ToString currentYear) years')
        as [[ | | | | year] | ].
    + destruct (obj_get (ToString currentYear) years') as [v | ] eqn:Ev';
        [ | exact Hcurrent].
      apply obj_get_Some_key in Ev'. rewrite Hkeys in Ev'.
      destruct (obj_get_key _ _ Ev') as [v0 Hv0]. congruence.
  - intros k Hk. now apply obj_get_set_ne.
Qed.

(** The first pass: where every year entry is an object, the repaired
    document needs no flagged repair. *)
Lemma repair_document_sound (now : string) (props : Props) :
  year_entries_are_objects (JObj props) = true ->
  needs_no_repair (fst (repair_document now props)) = true.
Proof.
  unfold year_entries_are_objects, doc_years, doc_props. simpl props_of.
  rewrite forallb_forall. intros Hobjects.
  unfold repair_document.
  destruct (ensure_version_spec props false) as (Hv1 & Ho1).
  destruct (ensure_version props false) as [d1 r1]. simpl in Hv1, Ho1.
  destruct (ensure_settings_spec d1 r1) as (Hs2 & Ho2).
  destruct (ensure_settings d1 r1) as [d2 r2]. simpl in Hs2, Ho2.
  destruct (ensure_years_spec d2 r2) as (Hy3 & Hp3 & Ho3).
  destruct (ensure_years d2 r2) as [d3 r3]. simpl in Hy3, Hp3, Ho3.
  assert (Hyears3 : props_of (obj_get "years" d3)
                    = props_of (obj_get "years" props))
    by (rewrite Hp3, Ho2, Ho1 by discriminate; reflexivity).
  destruct (repair_currentYear_spec d3 r3) as (Hc4 & Ho4).
  { rewrite Hyears3. exact Hobjects. }
  destruct (repair_currentYear d3 r3) as [d4 r4]. simpl in Hc4, Ho4.
  assert (Hyears4 : obj_get "years" d4 = obj_get "years" d3)
    by (apply Ho4; discriminate).
  destruct (repair_years_spec now d4 r4 (obj_get "currentYear" d4))
    as (years & Hy5 & Hall5 & Hc5 & Ho5).
  { rewrite Hyears4, Hyears3. exact Hobjects. }
  { rewrite Hyears4. exact Hc4. }
  destruct (repair_years now d4 r4) as [d5 r5]. simpl in Hy5, Ho5. simpl.
  unfold needs_no_repair.
  rewrite Hy5, Hall5, !Ho5, !Ho4, !Ho3, Ho2, Hv1, Hs2, Hc5 by discriminate.
  reflexivity.
Qed.

(** The second pass: a document that needs no flagged repair gets none. *)
Lemma needs_no_repair_flag (now : string) (data : Props) :
  needs_no_repair data = true -> snd (repair_document now data) = false.
Proof.
  unfold needs_no_repair. rewrite !andb_true_iff.
  intros [[Hversion Hsettings] Hyears].
  destruct (obj_get "years" data) as [[ | | | | years] | ] eqn:Eyears;
    try discriminate.
  apply andb_true_iff in Hyears. destruct Hyears as [Hall Hcurrent].
  unfold repair_document, ensure_version, ensure_settings, ensure_years.
  rewrite Hversion. simpl. rewrite not_an_object_is_object, Hsettings. simpl.
  rewrite Eyears. simpl.
  assert (Hsame : repair_currentYear data false = (data, false)).
  { unfold repair_currentYear. rewrite Eyears. simpl props_of.
    destruct (obj_get "currentYear" data) as [currentYear | ];
      [ | reflexivity].
    simpl in Hcurrent. destruct (truthy currentYear); [ | reflexivity].
    simpl in Hcurrent |- *. now rewrite Hcurrent. }
  rewrite Hsame. unfold repair_years. rewrite Eyears. simpl props_of.
  pose proof (validate_years_flag now (obj_keys years) years false) as Hflag.
  destruct (validate_years now (obj_keys years) years false) as [y r].
  simpl in Hflag |- *. apply Hflag.
  intros id Hin. rewrite forallb_forall in Hall. now apply Hall.
Qed.

(** In such a document [currentYear] names a key of [years], unless what
    it finds there is a built-in. *)
Lemma needs_no_repair_resolves (data : Props) :
  needs_no_repair data = true ->
  current_builtin (JObj data) = false ->
  currentYear_resolves (JObj data) = true.
Proof.
  unfold needs_no_repair, currentYear_resolves, current_builtin,
    current_member, doc_currentYear, doc_years, doc_props.
  simpl props_of. rewrite !andb_true_iff.
  intros [_ Hyears].
  destruct (obj_get "years" data) as [[ | | | | years] | ]; try discriminate.
  apply andb_true_iff in Hyears. destruct Hyears as [_ Hcurrent].
  simpl props_of.
  destruct (obj_get "currentYear" data) as [currentYear | ];
    [ | reflexivity].
  simpl in Hcurrent. destruct (truthy currentYear); [ | reflexivity].
  simpl in Hcurrent |- *. unfold lookup in Hcurrent |- *.
  destruct (obj_get (ToString currentYear) years) as [v | ] eqn:Ev.
  - intros _. apply existsb_exists. exists (ToString currentYear).
    split; [now apply obj_get_Some_key with (v := v) | apply String.eqb_refl].
  - destruct (inherited_name (ToString currentYear)); discriminate.
Qed.

(** The repair pass leaves [currentYear] as it is, or points it at a key of
    [years], or clears it: it finds no built-in afterwards unless it names
    one in the record. *)
Lemma repair_document_current (now : string) (props : Props) :
  year_entries_are_objects (JObj props) = true ->
  currentYear_plain (JObj props) = true ->
  current_builtin (JObj (fst (repair_document now props))) = false.
Proof.
  unfold year_entries_are_objects, currentYear_plain, doc_currentYear,
    doc_years, doc_props.
  simpl props_of. rewrite forallb_forall. intros Hobjects Hplain.
  unfold repair_document.
  destruct (ensure_version_spec props false) as (_ & Ho1).
  destruct (ensure_version props false) as [d1 r1]. simpl in Ho1.
  destruct (ensure_settings_spec d1 r1) as (_ & Ho2).
  destruct (ensure_settings d1 r1) as [d2 r2]. simpl in Ho2.
  destruct (ensure_years_spec d2 r2) as (Hy3 & Hp3 & Ho3).
  destruct (ensure_years d2 r2) as [d3 r3]. simpl in Hy3, Hp3, Ho3.
  assert (Hyears3 : props_of (obj_get "years" d3)
                    = props_of (obj_get "years" props))
    by (rewrite Hp3, Ho2, Ho1 by discriminate; reflexivity).
  assert (Hcurrent3 : obj_get "currentYear" d3 = obj_get "currentYear" props)
    by (rewrite Ho3, Ho2, Ho1 by discriminate; reflexivity).
  set (years := props_of (obj_get "years" props)) in *.
  assert (Hstep : exists d4 r4,
            repair_currentYear d3 r3 = (d4, r4)
            /\ obj_get "years" d4 = obj_get "years" d3
            /\ match obj_get "currentYear" d4 with
               | Some currentYear =>
                   truthy currentYear = true ->
                   inherited_name (ToString currentYear) = false
                   \/ In (ToString currentYear) (obj_keys years)
               | None => True
               end).
  { unfold repair_currentYear. rewrite Hyears3, Hcurrent3.
    destruct (obj_get "currentYear" props) as [currentYear | ] eqn:Ecurrent.
    2:{ eexists _, _. split; [reflexivity | ]. split; [reflexivity | ].
        now rewrite Hcurrent3. }
    destruct (truthy currentYear
              && negb (truthy_found (lookup (ToString currentYear) years))).
    - eexists _, _. split; [reflexivity | ].
      split; [now apply obj_get_set_ne | ]. rewrite obj_get_set_eq.
      destruct (last (obj_keys years)) as [yearId | ] eqn:Elast;
        [ | discriminate].
      intros _. right.
      now apply last_Some_elem_of, list_elem_of_In in Elast.
    - eexists _, _. split; [reflexivity | ]. split; [reflexivity | ].
      rewrite Hcurrent3. intros _. left. now apply negb_true_iff. }
  destruct Hstep as (d4 & r4 & -> & Hyears4 & Hcurrent4).
  destruct (repair_years_spec now d4 r4 None)
    as (years' & Hy5 & _ & _ & Ho5).
  { rewrite Hyears4, Hyears3. exact Hobjects. }
  { reflexivity. }
  assert (Hkeys : obj_keys years' = obj_keys years).
  { revert Hy5. unfold repair_years. rewrite Hyears4, Hyears3. fold years.
    destruct (validate_years_sound now (obj_keys years) years r4 Hobjects)
      as (Hkeys & _).
    destruct (validate_years now (obj_keys years) years r4) as [y r].
    simpl in Hkeys |- *. rewrite obj_get_set_eq. congruence. }
  destruct (repair_years now d4 r4) as [d5 r5]. simpl in Hy5, Ho5. simpl.
  unfold current_builtin, current_member, doc_currentYear, doc_years,
    doc_props.
  simpl props_of. rewrite Hy5, Ho5 by discriminate. simpl props_of.
  destruct (obj_get "currentYear" d4) as [currentYear | ]; [ | reflexivity].
  destruct (truthy currentYear); [ | reflexivity].
  unfold lookup.
  destruct (obj_get (ToString currentYear) years') as [v | ] eqn:Ev;
    [reflexivity | ].
  destruct (Hcurrent4 eq_refl) as [-> | Hin]; [reflexivity | ].
  rewrite <- Hkeys in Hin. destruct (obj_get_key _ _ Hin) as [v Hv].
  congruence.
Qed.

Section RepairOfObjects.

Variable rt : Runtime.

(** Where the record is an object whose year entries are all objects, the
    repair is idempotent: a second pass over the returned document reports
    no repair.  It is sound where, besides, the [currentYear] of the record
    is not the name of a member of [Object.prototype]: the returned
    [currentYear] is not set or names a key of the returned [years]. *)
Theorem repair_sound_on_object_entries (props : Props) (st : State) :
  year_entries_are_objects (JObj props) = true ->
  exists r1 st1 r2 st2,
    validateAndRepairData rt (JObj props) st = (Ok r1, st1)
    /\ valid r1 = true
    /\ (currentYear_plain (JObj props) = true ->
        currentYear_resolves (data r1) = true)
    /\ validateAndRepairData rt (data r1) st1 = (Ok r2, st2)
    /\ repaired r2 = false.
Proof.
  intros Hobjects. rewrite validateAndRepairData_object.
  eexists _, _. eexists. eexists. split; [reflexivity | ]. cbn [valid data].
  pose proof (repair_document_sound (Date_toISOString rt (clock st)) props
                Hobjects) as Hsound.
  split; [reflexivity | ].
  split.
  { intros Hplain. apply needs_no_repair_resolves; [exact Hsound | ].
    now apply repair_document_current. }
  split; [apply validateAndRepairData_object | ].
  cbn [repaired]. now apply needs_no_repair_flag.
Qed.

(** A [currentYear] that names a member of [Object.prototype] and no year
    passes the check of line 99 as it is: [years.toString] is a function. *)
Example repair_keeps_inherited_currentYear (st : State) :
  let record :=
    JObj [("version", JNum 1); ("currentYear", JStr "toString");
          ("settings", default_settings); ("years", JObj [])] in
  validateAndRepairData rt record st = (Ok (mkValidation true false record), st).
Proof. reflexivity. Qed.

End RepairOfObjects.

(** ** What the [repaired] flag records

    The flag is raised exactly by the coercions of [version], [settings],
    [years], [currentYear], of the year entries that are not objects, of
    [sections] and of the section entries; the backfills of [id],
    [displayName], [createdAt] and [lastModified] do not raise it. *)

Lemma validate_sections_flag (ids : list string) :
  forall (sections : Props) (rep : bool),
    snd (validate_sections ids sections rep)
    = rep || existsb (fun id => negb (is_section (obj_get id sections))) ids.
Proof.
  assert (Hraised : forall ids sections,
            snd (validate_sections ids sections true) = true).
  { clear ids. induction ids as [ | id ids IH]; intros sections;
      [reflexivity | ].
    simpl. repeat destruct (not_an_object _); apply IH. }
  induction ids as [ | id ids IH]; intros sections rep.
  - simpl. now rewrite orb_false_r.
  - simpl. rewrite !not_an_object_is_object.
    destruct (obj_get id sections) as [[ | | | | section] | ] eqn:Eid;
      simpl; rewrite ?Hraised, ?orb_true_r; try reflexivity.
    destruct (is_object (obj_get "answers" section)); simpl.
    + apply IH.
    + now rewrite Hraised, orb_true_r.
Qed.

Lemma existsb_negb_forallb {A : Type} (f : A -> bool) (l : list A) :
  existsb (fun x => negb (f x)) l = negb (forallb f l).
Proof.
  induction l as [ | x l IH]; simpl; [reflexivity | ].
  rewrite IH. now destruct (f x).
Qed.

Lemma existsb_pointwise {A : Type} (f g : A -> bool) (l : list A) :
  (forall x, f x = g x) -> existsb f l = existsb g l.
Proof.
  intros H. induction l as [ | x l IH]; simpl; [reflexivity | ].
  now rewrite H, IH.
Qed.

Lemma validate_year_flag_iff (now yearId : string) (year : Props)
    (rep : bool) :
  snd (validate_year now yearId year rep) = rep || negb (year_repaired year).
Proof.
  unfold validate_year, year_repaired.
  rewrite (backfill_year_other now yearId "sections") by discriminate.
  rewrite not_an_object_is_object.
  destruct (obj_get "sections" year) as [[ | | | | sections] | ] eqn:Esections;
    simpl;
    try (rewrite obj_get_set_eq; simpl; now rewrite orb_true_r).
  rewrite (backfill_year_other now yearId "sections") by discriminate.
  rewrite Esections. simpl props_of.
  pose proof (validate_sections_flag (obj_keys sections) sections rep) as H.
  destruct (validate_sections (obj_keys sections) sections rep) as [s r].
  simpl in H |- *. now rewrite H, existsb_negb_forallb.
Qed.

Lemma validate_years_flag_iff (now : string) (ids : list string) :
  forall (years : Props) (rep : bool),
    snd (validate_years now ids years rep)
    = rep
      || existsb (fun id => negb (is_repaired_year (obj_get id years))) ids.
Proof.
  assert (Hraised : forall ids years,
            snd (validate_years now ids years true) = true).
  { clear ids. induction ids as [ | id ids IH]; intros years;
      [reflexivity | ].
    simpl. destruct (not_an_object (obj_get id years)); [apply IH | ].
    pose proof (validate_year_flag_iff now id (props_of (obj_get id years))
                  true) as H.
    destruct (validate_year now id (props_of (obj_get id years)) true)
      as [y r].
    simpl in H. subst r. apply IH. }
  induction ids as [ | id ids IH]; intros years rep.
  - simpl. now rewrite orb_false_r.
  - simpl. rewrite not_an_object_is_object.
    destruct (obj_get id years) as [[ | | | | year] | ] eqn:Eid; simpl;
      rewrite ?Hraised, ?orb_true_r; try reflexivity.
    pose proof (validate_year_flag_iff now id year rep) as Hflag.
    pose proof (validate_year_sound now id year rep) as Hsound.
    destruct (validate_year now id year rep) as [year' rep'].
    simpl in Hflag, Hsound. subst rep'.
    destruct (year_repaired year) eqn:Eyear; simpl.
    + rewrite orb_false_r, IH. f_equal.
      apply existsb_pointwise. intros id'. rewrite obj_get_set.
      destruct (String.eqb_spec id' id) as [-> | Hne]; [ | reflexivity].
      rewrite Eid. simpl. now rewrite Hsound, Eyear.
    + rewrite orb_true_r. apply Hraised.
Qed.

Lemma repair_years_raised (now : string) (data : Props) :
  snd (repair_years now data true) = true.
Proof.
  unfold repair_years.
  pose proof (validate_years_flag_iff now
                (obj_keys (props_of (obj_get "years" data)))
                (props_of (obj_get "years" data)) true) as H.
  destruct (validate_years now _ _ true) as [y r]. exact H.
Qed.

Lemma repair_tail_raised (now : string) (data : Props) :
  snd (let '(data, repaired) := repair_currentYear data true in
       repair_years now data repaired) = true.
Proof.
  assert (H : snd (repair_currentYear data true) = true).
  { unfold repair_currentYear.
    destruct (obj_get "currentYear" data) as [currentYear | ];
      [ | reflexivity].
    now destruct (truthy currentYear && _). }
  destruct (repair_currentYear data true) as [d r]. simpl in H. subst r.
  apply repair_years_raised.
Qed.

(** The flag, in terms of the input. *)
Lemma repair_document_flag (now : string) (data : Props) :
  snd (repair_document now data) = negb (needs_no_repair data).
Proof.
  destruct (needs_no_repair data) eqn:Eclean;
    [now apply needs_no_repair_flag | ].
  simpl. unfold needs_no_repair in Eclean.
  unfold repair_document, ensure_version, ensure_settings, ensure_years.
  destruct (String.eqb (typeof (obj_get "version" data)) "number")
    eqn:Eversion; simpl.
  2:{ repeat destruct (not_an_object _); apply repair_tail_raised. }
  rewrite not_an_object_is_object.
  destruct (is_object (obj_get "settings" data)) eqn:Esettings; simpl.
  2:{ destruct (not_an_object _); apply repair_tail_raised. }
  rewrite not_an_object_is_object. simpl in Eclean.
  destruct (obj_get "years" data) as [[ | | | | years] | ] eqn:Eyears;
    simpl; try apply repair_tail_raised.
  unfold repair_currentYear. rewrite Eyears. simpl props_of.
  assert (Hyears : forall rep,
            snd (repair_years now data rep)
            = rep || negb (forallb (fun id => is_repaired_year
                                                (obj_get id years))
                             (obj_keys years))).
  { intros rep. unfold repair_years. rewrite Eyears. simpl props_of.
    pose proof (validate_years_flag_iff now (obj_keys years) years rep) as H.
    destruct (validate_years now (obj_keys years) years rep) as [y r].
    simpl in H |- *. now rewrite H, existsb_negb_forallb. }
  destruct (obj_get "currentYear" data) as [currentYear | ] eqn:Ecurrent.
  - unfold currentYear_found in Eclean.
    destruct (truthy currentYear
              && negb (truthy_found (lookup (ToString currentYear) years)))
      eqn:Edangling.
    + apply repair_years_raised.
    + rewrite Hyears. simpl.
      destruct (forallb _ (obj_keys years)); [ | reflexivity].
      simpl in Eclean. destruct (truthy currentYear); [ | discriminate].
      simpl in Eclean, Edangling. rewrite Eclean in Edangling. discriminate.
  - rewrite Hyears. simpl. simpl in Eclean.
    rewrite andb_true_r in Eclean. now rewrite Eclean.
Qed.

Section RepairedFlag.

Variable rt : Runtime.

(** What [validateAndRepairData] reports for an object: a repair, unless the
    object needs none of the flagged coercions. *)
Lemma validateAndRepairData_repaired (props : Props) (st : State) :
  exists r st',
    validateAndRepairData rt (JObj props) st = (Ok r, st')
    /\ repaired r = negb (needs_no_repair props).
Proof.
  rewrite validateAndRepairData_object. eexists _, _.
  split; [reflexivity | ]. apply repair_document_flag.
Qed.

End RepairedFlag.

(** ** Import *)

Section ImportProperties.

Variable rt : Runtime.


End ImportProperties.


(** ** Export and import *)

Section RoundTrip.

Variable rt : Runtime.

(** C5.  Let the in-memory document be a RootDocument that satisfies the
    invariants of the data model, and let the platform's [JSON.parse] read
    back what [JSON.stringify] wrote for this document.  Then the text that
    [exportData] returns, imported by a module in any state over a backend
    that serves every operation, whatever document that module held, is
    imported with success and leaves it with an in-memory document equal to
    the one exported, [lastModified] fields included. *)
Theorem export_import_roundtrip (st st2 : State) :
  root_document (storageData st) = true ->
  working st2 ->
  JSON_parse rt (JSON_stringify_pretty rt (storageData st))
  = Some (storageData st) ->
  exists text st',
    exportData rt st = (Ok text, st)
    /\ importData rt text st2
       = (Ok (mkImportResult true "Data imported successfully."), st')
    /\ storageData st' = storageData st.
Proof.
  intros Hroot Hwork Hparse.
  exists (JSON_stringify_pretty rt (storageData st)).
  destruct (storageData st) as [ | b | n | s | props] eqn:Hdoc;
    try discriminate.
  eexists. split; [unfold exportData, gets; now rewrite Hdoc | ].
  unfold importData, try_catch, bind, json_parse. rewrite Hparse.
  cbn -[validateAndRepairData]. rewrite validateAndRepairData_object.
  rewrite (repair_document_clean _ _ Hroot).
  cbn -[saveToLocalStorage]. unfold modify.
  rewrite saveToLocalStorage_working by exact Hwork.
  cbn. split; reflexivity.
Qed.

End RoundTrip.

Lemma export_import_roundtrip_witness :
  let st := running_state sample_document no_fault None in
  let st2 := running_state getDefaultData no_fault (Some 7) in
  exists text st',
    exportData Reference.runtime st = (Ok text, st)
    /\ importData Reference.runtime text st2
       = (Ok (mkImportResult true "Data imported successfully."), st')
    /\ storageData st' = storageData st.
Proof.
  apply (export_import_roundtrip Reference.runtime
           (running_state sample_document no_fault None)
           (running_state getDefaultData no_fault (Some 7))).
  - reflexivity.
  - intros items op. reflexivity.
  - vm_compute. reflexivity.
Defined.

(** ** Loading a record that does not parse *)

Section Initialisation.

Variable rt : Runtime.

(** C6, as the code has it.  Over a backend that serves every operation and
    with an error callback registered, let the stored record be a non-empty
    string that [JSON.parse] rejects.  Then [initStorage] hands the callback
    one error, of type [parse], and returns the default document, whose
    [years] is empty and whose [currentYear] is [null]; that document is now
    the in-memory one. *)
Theorem initStorage_unparsable_record (st : State) (text : string) (cb : nat) :
  working st ->
  onStorageError st = Some cb ->
  localStorage st !! STORAGE_KEY = Some text ->
  text <> "" ->
  JSON_parse rt text = None ->
  exists st',
    initStorage rt st = (Ok getDefaultData, st')
    /\ storageData st' = getDefaultData
    /\ delivered st'
       = (delivered st
          ++ [mkStorageError "parse" MSG_PARSE (Some SyntaxError)])%list
    /\ doc_years getDefaultData = []
    /\ doc_currentYear getDefaultData = Some JNull.
Proof.
  intros Hwork Hcb Hrecord Hne Hparse.
  unfold initStorage, bind.
  rewrite (isLocalStorageAvailable_working st Hwork).
  cbn -[saveToLocalStorage probed reportStorageError].
  unfold try_catch, bind, ls_getItem.
  replace (ls_fault (probed st) (localStorage (probed st))
             (OpGetItem STORAGE_KEY)) with (@None Exn)
    by (symmetry; apply Hwork).
  rewrite probed_lookup by discriminate. rewrite Hrecord.
  destruct (String.eqb_spec text "") as [Heq | _]; [contradiction | ].
  cbn -[saveToLocalStorage probed reportStorageError].
  unfold json_parse. rewrite Hparse.
  cbn -[saveToLocalStorage probed reportStorageError].
  rewrite reportStorageError_run. unfold modify.
  rewrite saveToLocalStorage_working.
  2:{ intros items op. cbn. unfold reported. cbn. rewrite Hcb. cbn.
      apply Hwork. }
  cbn. unfold reported. cbn. rewrite Hcb. cbn.
  eexists. split; [reflexivity | ]. cbn. repeat split.
Qed.

End Initialisation.

Lemma initStorage_unparsable_record_witness :
  let st :=
    fresh_state {[ STORAGE_KEY := "{not json" ]} no_fault (Some 7) in
  exists st',
    initStorage Reference.runtime st = (Ok getDefaultData, st')
    /\ storageData st' = getDefaultData
    /\ delivered st'
       = (delivered st
          ++ [mkStorageError "parse" MSG_PARSE (Some SyntaxError)])%list
    /\ doc_years getDefaultData = []
    /\ doc_currentYear getDefaultData = Some JNull.
Proof.
  apply (initStorage_unparsable_record Reference.runtime
           (fresh_state {[ STORAGE_KEY := "{not json" ]} no_fault (Some 7))
           "{not json" 7).
  - intros items op. reflexivity.
  - reflexivity.
  - vm_compute. reflexivity.
  - discriminate.
  - vm_compute. reflexivity.
Defined.

(** C6, as stated, fails for the empty record: the empty string does not
    parse, yet [initStorage] takes it for an absent record, starts from the
    default document and reports nothing to the registered callback. *)
Lemma initStorage_empty_record_reports_nothing :
  let st := fresh_state {[ STORAGE_KEY := "" ]} no_fault (Some 7) in
  JSON_parse Reference.runtime "" = None
  /\ localStorage st !! STORAGE_KEY = Some ""
  /\ exists st',
       initStorage Reference.runtime st = (Ok getDefaultData, st')
       /\ delivered st' = [].
Proof.
  split; [reflexivity | ]. split; [vm_compute; reflexivity | ].
  eexists. split; [vm_compute; reflexivity | reflexivity].
Qed.

(** ** Persisting over a backend that rejects the write *)

Section Quota.

Variable rt : Runtime.

(** C7, as the code has it.  Let the availability probe pass, let the
    backend then throw an error with a quota signature on the write of the
    document, and let an error callback be registered.  Then
    [saveToLocalStorage] returns [false] without throwing, the callback
    receives one error, of type [quota], and the in-memory document is
    unchanged. *)
Theorem saveToLocalStorage_quota (st st1 : State) (error : Exn) (cb : nat) :
  isLocalStorageAvailable st = (Ok true, st1) ->
  ls_fault st1 (localStorage st1)
    (OpSetItem STORAGE_KEY (JSON_stringify rt (storageData st)))
  = Some error ->
  is_quota_error error = true ->
  onStorageError st = Some cb ->
  exists st',
    saveToLocalStorage rt st = (Ok false, st')
    /\ delivered st'
       = (delivered st
          ++ [mkStorageError "quota" MSG_QUOTA (Some error)])%list
    /\ storageData st' = storageData st.
Proof.
  intros Hprobe Hfault Hquota Hcb.
  destruct (isLocalStorageAvailable_frame st)
    as (b & st1' & Hprobe' & Hsame & Hdelivered & _).
  rewrite Hprobe in Hprobe'. injection Hprobe' as <- <-.
  destruct Hsame as (Hdoc & Hcb1 & _).
  unfold saveToLocalStorage, bind. rewrite Hprobe.
  cbn -[reportStorageError]. unfold try_catch, bind, gets, ls_setItem.
  cbn -[reportStorageError]. rewrite Hdoc, Hfault, Hquota.
  rewrite reportStorageError_run. cbn -[reported].
  eexists. split; [reflexivity | ]. split.
  - rewrite (reported_delivered _ _ _ _ cb) by congruence.
    now rewrite Hdelivered.
  - destruct (reported_same_module "quota" MSG_QUOTA (Some error) st1)
      as (-> & _).
    exact Hdoc.
Qed.

(** Where the backend throws on the probe's own write, whatever the error,
    [saveToLocalStorage] returns [false] before it attempts the write of the
    document: the whole state is as it was, and the callback hears
    nothing. *)
Lemma saveToLocalStorage_probe_refused (st : State) (error : Exn) :
  ls_fault st (localStorage st) (OpSetItem "__yearcompass_test__" "test")
  = Some error ->
  saveToLocalStorage rt st = (Ok false, st).
Proof.
  intros Hfault.
  unfold saveToLocalStorage, isLocalStorageAvailable, try_catch, bind,
    ls_setItem.
  now rewrite Hfault.
Qed.

End Quota.

Lemma saveToLocalStorage_quota_witness :
  let st := running_state sample_document record_quota (Some 7) in
  exists st',
    saveToLocalStorage Reference.runtime st = (Ok false, st')
    /\ delivered st'
       = (delivered st
          ++ [mkStorageError "quota" MSG_QUOTA
                (Some QuotaExceededError)])%list
    /\ storageData st' = storageData st.
Proof.
  apply (saveToLocalStorage_quota Reference.runtime
           (running_state sample_document record_quota (Some 7))
           (probed (running_state sample_document record_quota (Some 7)))
           QuotaExceededError 7).
  - vm_compute. reflexivity.
  - reflexivity.
  - reflexivity.
  - reflexivity.
Defined.

(** C7, as stated, fails over a full backend: every [setItem] throws the
    quota error, the probe's included, so [saveToLocalStorage] returns
    [false] before it attempts the write and the registered callback hears
    nothing. *)
Lemma saveToLocalStorage_full_backend_reports_nothing :
  let st := running_state sample_document full_backend (Some 7) in
  (forall k v, ls_fault st (localStorage st) (OpSetItem k v)
               = Some QuotaExceededError)
  /\ is_quota_error QuotaExceededError = true
  /\ exists st',
       saveToLocalStorage Reference.runtime st = (Ok false, st')
       /\ delivered st' = [].
Proof.
  split; [intros k v; reflexivity | ]. split; [reflexivity | ].
  eexists. split; [vm_compute; reflexivity | reflexivity].
Qed.

(** ** The section-started predicate *)

Lemma trim_empty : trim "" = "".
Proof. reflexivity. Qed.

Lemma length_pos_nonempty (s : string) :
  Nat.ltb 0 (String.length s) = true <-> s <> "".
Proof.
  destruct s; simpl; split; intros H; try congruence; try discriminate.
  reflexivity.
Qed.


Lemma plain_current_member (d : JSValue) :
  plain (current_member d) = current_year d.
Proof.
  unfold current_member, current_year.
  destruct (doc_currentYear d) as [currentYear | ]; [ | reflexivity].
  destruct (truthy currentYear); [apply plain_lookup | reflexivity].
Qed.





(** A [currentYear] that names a member of [Object.prototype] and no year:
    the record passes the repair as it is, and [isSectionStarted] throws. *)
Example isSectionStarted_inherited_currentYear :
  let st :=
    running_state
      (JObj [("version", JNum 1); ("currentYear", JStr "toString");
             ("settings", default_settings); ("years", JObj [])])
      no_fault None in
  document_shape (storageData st) = true
  /\ getCurrentYear st = (Ok (Builtin "toString"), st)
  /\ isSectionStarted "x" st = (Throw TypeError, st).
Proof. repeat split. Qed.

(** The two instances the specification names: answers [a] blank and [b]
    filled make the section started; a single blank answer does not. *)
Example isSectionStarted_filled :
  let st := running_state sample_document no_fault None in
  current_answers (storageData st) "x"
  = Some [("a", JStr "  "); ("b", JStr "hello")]
  /\ isSectionStarted "x" st = (Ok true, st).
Proof. split; reflexivity. Qed.

Example isSectionStarted_blank :
  let st := running_state sample_document no_fault None in
  current_answers (storageData st) "y" = Some [("a", JStr "   ")]
  /\ isSectionStarted "y" st = (Ok false, st).
Proof. split; reflexivity. Qed.

(** *** Commands that only read *)

Lemma reads_only_ret {A : Type} (a : A) : reads_only (ret a).
Proof. intros st. reflexivity. Qed.

Lemma reads_only_throw {A : Type} (e : Exn) : reads_only (@throw A e).
Proof. intros st. reflexivity. Qed.

Lemma reads_only_gets {A : Type} (f : State -> A) : reads_only (gets f).
Proof. intros st. reflexivity. Qed.

Lemma reads_only_bind {A B : Type} (c : M A) (k : A -> M B) :
  reads_only c -> (forall a, reads_only (k a)) -> reads_only (bind c k).
Proof.
  intros Hc Hk st. unfold bind. specialize (Hc st).
  destruct (c st) as [[a | e] st1]; simpl in Hc; subst st1;
    [apply Hk | reflexivity].
Qed.

Lemma reads_only_read_prop (r : JSRead) (k : string) :
  reads_only (read_prop r k).
Proof. destruct r as [[ | | | | ps] | ]; intros st; reflexivity. Qed.

Lemma reads_only_read_key (r : JSRead) (k : string) :
  reads_only (read_key r k).
Proof. destruct r as [[ | | | | ps] | ]; intros st; reflexivity. Qed.

Lemma reads_only_member_prop (m : option Member) (k : string) :
  reads_only (member_prop m k).
Proof.
  destruct m as [[v | name] | ]; try (intros st; reflexivity).
  apply reads_only_read_prop.
Qed.

Lemma getCurrentYear_reads_only : reads_only getCurrentYear.
Proof.
  unfold getCurrentYear.
  apply reads_only_bind; [apply reads_only_gets | intros sd].
  destruct (negb (truthy sd)); [apply reads_only_ret | ].
  apply reads_only_bind; [apply reads_only_read_prop | intros currentYear].
  destruct currentYear as [currentYear | ]; [ | apply reads_only_ret].
  destruct (negb (truthy currentYear)); [apply reads_only_ret | ].
  apply reads_only_bind; [apply reads_only_read_prop | intros years].
  apply reads_only_bind; [apply reads_only_read_key | intros year].
  destruct year; apply reads_only_ret.
Qed.

(** [isSectionStarted] writes nothing, on any state and whether it returns
    or throws. *)
Lemma isSectionStarted_reads_only (sectionId : string) :
  reads_only (isSectionStarted sectionId).
Proof.
  unfold isSectionStarted.
  apply reads_only_bind; [apply getCurrentYear_reads_only | intros year].
  apply reads_only_bind.
  - destruct year as [[ | | | | ps] | name]; try apply reads_only_ret;
      (apply reads_only_bind;
       [apply reads_only_member_prop | intros sections]);
      (apply reads_only_bind; [apply reads_only_read_key | intros section]);
      destruct section as [[[ | | | | ps'] | name'] | ];
      try apply reads_only_ret; apply reads_only_member_prop.
  - intros answers. destruct answers as [answers | ];
      [ | apply reads_only_ret].
    destruct (negb (truthy answers)); apply reads_only_ret.
Qed.

(** ** Saving an answer for a year that does not exist *)

Section UnknownYear.

Variable rt : Runtime.

(** When [yearId] is not a key of the [years] mapping, [saveAnswer] leaves
    the whole state as it was: no year entry is created, no answer and no
    [lastModified] changes, no timer is scheduled and nothing reaches the
    error callback.  It returns normally, unless [yearId] is the name of a
    member of [Object.prototype]: line 373 finds the built-in then, the
    guard of line 374 lets it pass, and line 376 throws a [TypeError]. *)
Lemma saveAnswer_unknown_year (st : State) (years : Props)
    (yearId sectionId fieldId : string) (value : JSValue) :
  obj_get "years" (doc_props (storageData st)) = Some (JObj years) ->
  obj_get yearId years = None ->
  saveAnswer rt yearId sectionId fieldId value st
  = (if inherited_name yearId then Throw TypeError else Ok tt, st).
Proof.
  intros Hyears Hyear. unfold saveAnswer, bind, gets.
  destruct (storageData st) as [ | b | n | s | props]; try discriminate.
  cbn in Hyears. cbn. rewrite Hyears. cbn.
  rewrite (lookup_absent _ _ Hyear).
  destruct (inherited_name yearId); reflexivity.
Qed.

(** C10 at the year id [constructor], on a document that holds the year
    2024-2025 only, whatever the rest of the state: the call throws a
    [TypeError] and leaves the state as it was, where the claim has it
    return silently. *)
Theorem saveAnswer_inherited_year_throws (st : State) :
  let st := with_storageData sample_document st in
  obj_keys (doc_years (storageData st)) = ["2024-2025"]
  /\ saveAnswer rt "constructor" "x" "a" (JStr "hello") st
     = (Throw TypeError, st).
Proof. split; reflexivity. Qed.

End UnknownYear.

(** For a year id that is no such name the claim holds. *)
Example saveAnswer_absent_year :
  let st := running_state sample_document no_fault (Some 7) in
  saveAnswer Reference.runtime "1999-2000" "x" "a" (JStr "hello") st
  = (Ok tt, st).
Proof. reflexivity. Qed.

(** ** Edits *)

Lemma forallb_obj_replace (P : string * JSValue -> bool) (k : string)
    (v : JSValue) (ps : Props) :
  forallb P ps = true -> P (k, v) = true ->
  forallb P (obj_replace k v ps) = true.
Proof.
  intros Hall Hkv. induction ps as [ | [k' v'] ps IH]; simpl; [reflexivity | ].
  simpl in Hall. apply andb_true_iff in Hall. destruct Hall as [Hhead Htail].
  destruct (String.eqb k k'); simpl.
  - now rewrite Hkv, Htail.
  - now rewrite Hhead, IH.
Qed.

Lemma forallb_obj_insert_index (P : string * JSValue -> bool) (i : N)
    (k : string) (v : JSValue) (ps : Props) :
  forallb P ps = true -> P (k, v) = true ->
  forallb P (obj_insert_index i k v ps) = true.
Proof.
  intros Hall Hkv. induction ps as [ | [k' v'] ps IH]; simpl.
  - now rewrite Hkv.
  - pose proof Hall as Hall'. simpl in Hall'.
    apply andb_true_iff in Hall'. destruct Hall' as [Hhead Htail].
    destruct (array_index k') as [j | ]; [destruct (j <? i)%N | ]; simpl.
    + now rewrite Hhead, IH.
    + now rewrite Hkv, Hhead, Htail.
    + now rewrite Hkv, Hhead, Htail.
Qed.

(** A property of all entries survives a write of an entry that has it. *)
Lemma forallb_obj_set (P : string * JSValue -> bool) (k : string)
    (v : JSValue) (ps : Props) :
  forallb P ps = true -> P (k, v) = true ->
  forallb P (obj_set k v ps) = true.
Proof.
  intros Hall Hkv. unfold obj_set.
  destruct (obj_get k ps); [now apply forallb_obj_replace | ].
  destruct (array_index k); [now apply forallb_obj_insert_index | ].
  rewrite forallb_app. simpl. now rewrite Hall, Hkv.
Qed.

Lemma doc_years_set (years props : Props) :
  doc_years (JObj (obj_set "years" (JObj years) props)) = years.
Proof.
  unfold doc_years, doc_props. simpl props_of. now rewrite obj_get_set_eq.
Qed.

Lemma doc_years_edit (now yearId sectionId fieldId : string)
    (value d : JSValue) :
  doc_years (edited_document now yearId sectionId fieldId value d)
  = obj_set yearId
      (JObj (edited_year now sectionId fieldId value
               (props_of (obj_get yearId (doc_years d)))))
      (doc_years d).
Proof. unfold edited_document. apply doc_years_set. Qed.

Lemma edited_year_sections (now sectionId fieldId : string) (value : JSValue)
    (year : Props) :
  obj_get "sections" (edited_year now sectionId fieldId value year)
  = Some (JObj (edited_sections sectionId fieldId value
                  (props_of (obj_get "sections" year)))).
Proof.
  unfold edited_year. rewrite obj_get_set_ne by discriminate.
  apply obj_get_set_eq.
Qed.

Lemma edited_sections_answer (sectionId fieldId : string) (value : JSValue)
    (sections : Props) :
  obj_get fieldId
    (props_of (obj_get "answers"
       (props_of (obj_get sectionId
          (edited_sections sectionId fieldId value sections)))))
  = obj_get fieldId
      (assigned fieldId value
         (props_of (obj_get "answers"
            (props_of (obj_get sectionId
               (if truthy_opt (obj_get sectionId sections) then sections
                else obj_set sectionId empty_section sections)))))).
Proof.
  unfold edited_sections. rewrite obj_get_set_eq. simpl props_of.
  rewrite obj_get_set_eq. reflexivity.
Qed.

(** The stored edit can be read back, under a field id other than
    [__proto__]. *)
Lemma edited_document_answer (now yearId sectionId fieldId : string)
    (value d : JSValue) :
  fieldId <> "__proto__" ->
  doc_answer (edited_document now yearId sectionId fieldId value d)
    yearId sectionId fieldId = Some value.
Proof.
  intros Hfield. unfold doc_answer. rewrite doc_years_edit, obj_get_set_eq.
  simpl props_of. rewrite edited_year_sections. simpl props_of.
  rewrite edited_sections_answer. now apply obj_get_assigned_eq.
Qed.

(** Year entries stay year entries. *)
Lemma edited_document_years (now yearId sectionId fieldId : string)
    (value d : JSValue) (yearId' : string) :
  is_object (obj_get yearId' (doc_years d)) = true ->
  is_object
    (obj_get yearId'
       (doc_years (edited_document now yearId sectionId fieldId value d)))
  = true.
Proof.
  intros H. rewrite doc_years_edit, obj_get_set.
  now destruct (String.eqb yearId' yearId).
Qed.

Lemma edited_sections_shape (sectionId fieldId : string) (value : JSValue)
    (sections : Props) :
  forallb (fun p => section_entry (snd p)) sections = true ->
  forallb (fun p => section_entry (snd p))
    (edited_sections sectionId fieldId value sections) = true.
Proof.
  intros H. unfold edited_sections. apply forallb_obj_set.
  - destruct (truthy_opt (obj_get sectionId sections)); [exact H | ].
    now apply forallb_obj_set.
  - simpl. now rewrite obj_get_set_eq.
Qed.

(** The shape of the document survives an edit. *)
Lemma edited_document_shape (now yearId sectionId fieldId : string)
    (value d : JSValue) :
  document_shape d = true ->
  is_object (obj_get yearId (doc_years d)) = true ->
  document_shape (edited_document now yearId sectionId fieldId value d) = true.
Proof.
  intros Hshape Hyear.
  assert (Hyears : forallb (fun p => year_shape (snd p)) (doc_years d) = true).
  { unfold document_shape in Hshape. unfold doc_years.
    now destruct (obj_get "years" (doc_props d)) as [[ | | | | years] | ]. }
  unfold document_shape.
  change (obj_get "years" (doc_props ?x)) with (obj_get "years" (doc_props x)).
  unfold edited_document at 1. unfold doc_props at 1. simpl props_of.
  rewrite obj_get_set_eq.
  apply forallb_obj_set; [exact Hyears | ].
  destruct (obj_get yearId (doc_years d)) as [[ | | | | year] | ] eqn:Eyear;
    try discriminate.
  pose proof (forallb_lookup _ _ _ _ Hyears Eyear) as Hy.
  simpl in Hy. simpl props_of. simpl snd. unfold year_shape.
  rewrite edited_year_sections.
  destruct (obj_get "sections" year) as [[ | | | | sections] | ];
    try discriminate.
  simpl props_of. now apply edited_sections_shape.
Qed.

(** ** Deferred saves *)

Lemma debouncedSave_tracked (st : State) :
  timers_tracked st = true -> debouncedSave st = (Ok tt, armed st).
Proof.
  unfold timers_tracked, debouncedSave, bind, gets, clearTimeout, setTimeout,
    modify, armed.
  destruct (saveTimeout st) as [h | ] eqn:Eh;
    destruct (timers st) as [ | [h' due] [ | t ts]] eqn:Et;
    try discriminate; intros Htracked; cbn; rewrite ?Et; cbn.
  - apply Pos.eqb_eq in Htracked. subst h'. rewrite Pos.eqb_refl. reflexivity.
  - reflexivity.
Qed.

Lemma armed_pending (st : State) : pending (armed st).
Proof. exists (next_timer st). split; reflexivity. Qed.

Section Debounce.

Variable rt : Runtime.

(** [saveAnswer] on a year entry of a document of the expected shape, under
    a section id that finds no built-in: the edit, then the scheduling of
    the deferred save. *)
Lemma saveAnswer_shape (st : State) (yearId sectionId fieldId : string)
    (value : JSValue) :
  document_shape (storageData st) = true ->
  is_object (obj_get yearId (doc_years (storageData st))) = true ->
  finds_own sectionId (doc_sections (storageData st) yearId) = true ->
  saveAnswer rt yearId sectionId fieldId value st
  = debouncedSave
      (with_storageData
         (edited_document (Date_toISOString rt (clock st)) yearId sectionId
            fieldId value (storageData st)) st).
Proof.
  unfold document_shape, doc_sections, doc_years, edited_document, doc_years,
    saveAnswer, bind, gets, now_iso.
  destruct (storageData st) as [ | b | n | s | props]; try discriminate.
  unfold doc_props. simpl props_of.
  destruct (obj_get "years" props) as [[ | | | | years] | ] eqn:Eyears;
    try discriminate.
  simpl props_of. intros Hshape Hyear Hsection.
  destruct (obj_get yearId years) as [[ | | | | year] | ] eqn:Eyear;
    try discriminate.
  pose proof (forallb_lookup _ _ _ _ Hshape Eyear) as Hy. simpl in Hy.
  cbn -[debouncedSave]. rewrite Eyears. cbn -[debouncedSave].
  rewrite (lookup_own _ _ _ Eyear). cbn -[debouncedSave].
  unfold edited_year, edited_sections.
  simpl props_of in Hsection.
  destruct (obj_get "sections" year) as [[ | | | | sections] | ]
    eqn:Esections; try discriminate.
  simpl props_of in Hsection.
  cbn -[debouncedSave]. rewrite (finds_own_lookup _ _ Hsection).
  destruct (obj_get sectionId sections) as [section | ] eqn:Esection.
  - pose proof (forallb_lookup _ _ _ _ Hy Esection) as Hs. simpl in Hs.
    destruct section as [ | | | | section]; try discriminate.
    simpl in Hs.
    destruct (obj_get "answers" section) as [[ | | | | answers] | ]
      eqn:Eanswers; try discriminate.
    cbn -[debouncedSave]. rewrite (lookup_own _ _ _ Esection), Esection.
    cbn -[debouncedSave].
    rewrite Eanswers. cbn -[debouncedSave]. reflexivity.
  - cbn -[debouncedSave obj_set]. rewrite assigned_empty_section.
    rewrite (lookup_own _ empty_section) by apply obj_get_set_eq.
    cbn -[debouncedSave obj_set]. rewrite obj_get_set_eq.
    cbn -[debouncedSave obj_set]. reflexivity.
Qed.

(** Under a section id that names a member of [Object.prototype] and no
    section of the year, line 376 finds the built-in, creates nothing, and
    line 380, which reads its [answers], throws a [TypeError]; the state is
    as it was. *)
Lemma saveAnswer_inherited_section (st : State)
    (yearId sectionId fieldId : string) (value : JSValue)
    (year sections : Props) :
  obj_get yearId (doc_years (storageData st)) = Some (JObj year) ->
  obj_get "sections" year = Some (JObj sections) ->
  obj_get sectionId sections = None ->
  inherited_name sectionId = true ->
  saveAnswer rt yearId sectionId fieldId value st = (Throw TypeError, st).
Proof.
  unfold doc_years, saveAnswer, bind, gets.
  destruct (storageData st) as [ | b | n | s | props]; try discriminate.
  unfold doc_props. simpl props_of.
  destruct (obj_get "years" props) as [[ | | | | years] | ] eqn:Eyears;
    try discriminate.
  simpl props_of. intros Hyear Hsections Hsection Hname.
  cbn. rewrite Eyears. cbn. rewrite (lookup_own _ _ _ Hyear). cbn.
  rewrite Hsections. cbn. rewrite (lookup_absent _ _ Hsection), Hname.
  cbn. rewrite (lookup_absent _ _ Hsection), Hname. reflexivity.
Qed.

End Debounce.

Section Bursts.

Variable rt : Runtime.

(** Time passes, but not enough for the pending timer: nothing fires. *)
Lemma elapse_early (st : State) (h : positive) (due ms : N) :
  timers st = [(h, due)] ->
  (clock st + ms < due)%N ->
  elapse rt ms st = with_clock (clock st + ms)%N st.
Proof.
  intros Htimers Hearly. unfold elapse. cbn. rewrite Htimers. cbn.
  destruct (N.leb_spec due (clock st + ms)); [lia | reflexivity].
Qed.

(** The quiet period ends: the pending timer fires, and over a working
    backend its closure writes the document as it is now. *)
Lemma elapse_fire (st : State) (h : positive) (due ms : N) :
  timers st = [(h, due)] ->
  (due <= clock st + ms)%N ->
  working st ->
  elapse rt ms st
  = with_saveTimeout None
      (stored (JSON_stringify rt (storageData st))
         (probed (with_timers [] (next_timer st)
                    (with_clock (clock st + ms)%N st)))).
Proof.
  intros Htimers Hdue Hwork. unfold elapse. cbn. rewrite Htimers.
  cbn -[fire]. rewrite Htimers. cbn -[fire].
  destruct (N.leb_spec due (clock st + ms)); [ | lia].
  rewrite Pos.eqb_refl. cbn -[fire].
  unfold fire, bind, clearTimeout, modify, deferred_save, bind.
  cbn -[saveToLocalStorage]. rewrite Htimers. cbn -[saveToLocalStorage].
  rewrite Pos.eqb_refl. cbn -[saveToLocalStorage].
  rewrite saveToLocalStorage_working by exact Hwork.
  reflexivity.
Qed.

Lemma last_edit_cons (prev : Edit) (gap : N) (e : Edit)
    (rest : list (N * Edit)) :
  last_edit prev ((gap, e) :: rest) = last_edit e rest.
Proof.
  unfold last_edit. rewrite last_cons. now destruct (last rest).
Qed.

(** After a call of the burst: the remaining calls, then the quiet period. *)
Lemma burst_rest (quiet : N) (rest : list (N * Edit)) :
  (300 <= quiet)%N ->
  forall (st : State) (prev : Edit),
    document_shape (storageData st) = true ->
    working st ->
    pending st ->
    forallb (fun e => is_object (obj_get (edit_year e)
                                   (doc_years (storageData st))))
      (map snd rest) = true ->
    forallb (fun e => plain_ids (edit_section e) (edit_field e))
      (map snd rest) = true ->
    Forall (fun ge => (fst ge < 300)%N) rest ->
    doc_answer (storageData st) (edit_year prev) (edit_section prev)
      (edit_field prev) = Some (edit_value prev) ->
    let st' :=
      run rt
        (flat_map (fun ge => [Elapse (fst ge); call_of (snd ge)]) rest
         ++ [Elapse quiet]) st in
    record_writes st'
    = (record_writes st ++ [JSON_stringify rt (storageData st')])%list
    /\ doc_answer (storageData st') (edit_year (last_edit prev rest))
         (edit_section (last_edit prev rest))
         (edit_field (last_edit prev rest))
       = Some (edit_value (last_edit prev rest))
    /\ timers st' = []
    /\ saveTimeout st' = None.
Proof.
  intros Hquiet.
  induction rest as [ | [gap e] rest IH];
    intros st prev Hshape Hwork (h & Hhandle & Htimers) Hyears Hplain Hgaps
      Hprev.
  - simpl. unfold run. simpl.
    rewrite (elapse_fire st h _ quiet Htimers) by (auto; lia).
    cbn [storageData with_saveTimeout stored probed with_ls_writes
         with_localStorage with_timers with_clock timers saveTimeout].
    repeat split; [ | exact Hprev].
    unfold record_writes. cbn. rewrite !List.filter_app, !map_app. cbn.
    now rewrite app_nil_r.
  - simpl in Hyears. apply andb_true_iff in Hyears.
    destruct Hyears as [Hyear Hyears].
    simpl in Hplain. apply andb_true_iff in Hplain.
    destruct Hplain as [Hplain1 Hplain].
    inversion Hgaps as [ | ? ? Hgap Hgaps']; subst. simpl in Hgap.
    rewrite last_edit_cons.
    cbn [flat_map fst snd]. unfold run. cbn [app fold_left step call_of].
    rewrite (elapse_early st h _ gap Htimers) by lia.
    rewrite saveAnswer_shape
      by (try assumption; exact (plain_ids_section _ _ _ Hplain1)).
    rewrite debouncedSave_tracked
      by (unfold timers_tracked; cbn; rewrite Hhandle, Htimers;
          apply Pos.eqb_refl).
    cbn [snd].
    match goal with
    | |- context [fold_left (step rt) _ ?s] =>
        specialize (IH s e); fold (run rt) in IH
    end.
    cbn [storageData armed with_saveTimeout with_timers with_storageData
         with_clock] in IH.
    destruct IH as (Hwrites & Hanswer & Hqueue & Hhandle').
    + now apply edited_document_shape.
    + intros items op. apply Hwork.
    + apply armed_pending.
    + rewrite forallb_forall in Hyears |- *. intros x Hx.
      apply edited_document_years. now apply Hyears.
    + exact Hplain.
    + exact Hgaps'.
    + apply edited_document_answer. exact (plain_ids_field _ _ Hplain1).
    + repeat split; assumption.
Qed.

End Bursts.

Section Coalescing.

Variable rt : Runtime.

(** C8, as the code has it.  Take a document of the shape the data model
    prescribes, a backend that serves every operation and a timer queue that
    holds at most the deferred save.  Let a burst of [saveAnswer] calls, each
    for a year entry of the document, with a section id that is not the name
    of a member of [Object.prototype] and a field id other than
    [__proto__], and each less than 300 ms after the one before, be followed
    by a quiet period of 300 ms or more.  Then exactly one write of the
    document reaches the backend; it is the serialization of the in-memory
    document as it is when the timer fires, which holds the value of the
    last call; and no timer is left pending. *)
Theorem debounce_coalesces (st : State) (first : Edit)
    (rest : list (N * Edit)) (quiet : N) :
  document_shape (storageData st) = true ->
  edits_address_years (storageData st) first rest = true ->
  edits_plain first rest = true ->
  working st ->
  timers_tracked st = true ->
  Forall (fun ge => (fst ge < 300)%N) rest ->
  (300 <= quiet)%N ->
  let st' := run rt (burst_events first rest quiet) st in
  record_writes st'
  = (record_writes st ++ [JSON_stringify rt (storageData st')])%list
  /\ doc_answer (storageData st') (edit_year (last_edit first rest))
       (edit_section (last_edit first rest))
       (edit_field (last_edit first rest))
     = Some (edit_value (last_edit first rest))
  /\ timers st' = []
  /\ saveTimeout st' = None.
Proof.
  intros Hshape Hyears Hplain Hwork Htracked Hgaps Hquiet.
  unfold edits_address_years in Hyears. simpl in Hyears.
  apply andb_true_iff in Hyears. destruct Hyears as [Hyear Hyears].
  unfold edits_plain in Hplain. simpl in Hplain.
  apply andb_true_iff in Hplain. destruct Hplain as [Hplain1 Hplain].
  unfold burst_events, run. cbn [fold_left step call_of].
  rewrite saveAnswer_shape
    by (try assumption; exact (plain_ids_section _ _ _ Hplain1)).
  rewrite debouncedSave_tracked by exact Htracked.
  cbn [snd].
  match goal with
  | |- context [fold_left (step rt) _ ?s] =>
      pose proof (burst_rest rt quiet rest Hquiet s first) as Hrest;
      fold (run rt) in Hrest
  end.
  cbn [storageData armed with_saveTimeout with_timers with_storageData]
    in Hrest.
  apply Hrest.
  - now apply edited_document_shape.
  - intros items op. apply Hwork.
  - apply armed_pending.
  - rewrite forallb_forall in Hyears |- *. intros x Hx.
    apply edited_document_years. now apply Hyears.
  - exact Hplain.
  - exact Hgaps.
  - apply edited_document_answer. exact (plain_ids_field _ _ Hplain1).
Qed.

End Coalescing.

Lemma debounce_coalesces_witness :
  let st := running_state sample_document no_fault None in
  let first := mkEdit "2024-2025" "x" "a" (JStr "o") in
  let rest :=
    [(100%N, mkEdit "2024-2025" "x" "a" (JStr "on"));
     (250%N, mkEdit "2024-2025" "x" "a" (JStr "one"))] in
  let st' := run Reference.runtime (burst_events first rest 300) st in
  record_writes st'
  = (record_writes st
     ++ [JSON_stringify Reference.runtime (storageData st')])%list
  /\ doc_answer (storageData st') (edit_year (last_edit first rest))
       (edit_section (last_edit first rest))
       (edit_field (last_edit first rest))
     = Some (edit_value (last_edit first rest))
  /\ timers st' = []
  /\ saveTimeout st' = None.
Proof.
  apply (debounce_coalesces Reference.runtime
           (running_state sample_document no_fault None)
           (mkEdit "2024-2025" "x" "a" (JStr "o"))
           [(100%N, mkEdit "2024-2025" "x" "a" (JStr "on"));
            (250%N, mkEdit "2024-2025" "x" "a" (JStr "one"))]
           300%N).
  - reflexivity.
  - reflexivity.
  - reflexivity.
  - intros items op. reflexivity.
  - reflexivity.
  - repeat constructor.
  - reflexivity.
Defined.

(** C8, as stated, fails for a burst that addresses a year the document does
    not have: each call returns at once, no deferred save is scheduled and
    no write reaches the backend. *)
Lemma debounce_unknown_year_writes_nothing :
  let st := running_state sample_document no_fault None in
  let e := mkEdit "1999-2000" "x" "a" (JStr "one") in
  let st' :=
    run Reference.runtime (burst_events e [(100%N, e); (100%N, e)] 300) st in
  obj_get "1999-2000" (doc_years (storageData st)) = None
  /\ record_writes st' = []
  /\ ls_writes st' = [].
Proof. repeat split. Qed.

(** ** The damaged records, through the public operations *)

(** Importing the record with the dangling [currentYear] succeeds and
    leaves the module with a [currentYear] that names no year:
    [getCurrentYear] finds none. *)
Example import_dangling_record :
  let st := fresh_state ∅ no_fault None in
  exists st',
    importData Reference.runtime (Reference.stringify dangling_record) st
    = (Ok (mkImportResult true "Data imported successfully."), st')
    /\ doc_currentYear (storageData st') = Some (JStr "2024-2025")
    /\ doc_years (storageData st') = []
    /\ getCurrentYear st' = (Ok JNull, st').
Proof.
  eexists. split; [vm_compute; reflexivity | ]. repeat split.
Qed.

(** Loading the record with the bare year entry backfills the entry in
    memory and, as no repair is reported, leaves the stored record as it was:
    the backfilled [createdAt] is the time of this load. *)
Example load_bare_year_record :
  let text := Reference.stringify bare_year_record in
  let st :=
    with_clock 1700000000000
      (fresh_state {[ STORAGE_KEY := text ]} no_fault None) in
  exists d st',
    initStorage Reference.runtime st = (Ok d, st')
    /\ obj_get "createdAt"
         (props_of (obj_get "2024-2025" (doc_years (storageData st'))))
       = Some (JStr "2023-11-14T22:13:20.000Z")
    /\ localStorage st' !! STORAGE_KEY = Some text
    /\ record_writes st' = [].
Proof.
  eexists _, _. split; [vm_compute; reflexivity | ].
  split; [reflexivity | ]. split; [vm_compute; reflexivity | reflexivity].
Qed.

(** ** The platform model on small inputs *)

Example trim_examples :
  trim "  hello " = "hello" /\ trim "   " = "" /\ trim "a b" = "a b".
Proof. repeat split. Qed.

Example replace_first_example :
  replace_first "-" " → " "2024-2025" = "2024 → 2025"
  /\ replace_first "-" " → " "a-b-c" = "a → b-c".
Proof. split; reflexivity. Qed.

(** Array-index keys come first, in ascending order, whenever created. *)
Example obj_set_order :
  obj_keys (obj_set "2" JNull (obj_set "b" JNull
             (obj_set "10" JNull (obj_set "a" JNull []))))
  = ["2"; "10"; "a"; "b"].
Proof. reflexivity. Qed.

Example reference_parse_examples :
  Reference.parse "{not json" = None
  /\ Reference.parse "" = None
  /\ Reference.parse " {} " = Some (JObj [])
  /\ Reference.parse "null" = Some JNull
  /\ Reference.parse "-12" = Some (JNum (-12)).
Proof. repeat split. Qed.

Example reference_roundtrip :
  Reference.parse (Reference.stringify sample_document) = Some sample_document
  /\ Reference.parse (Reference.stringify_indent 0 sample_document)
     = Some sample_document.
Proof. split; vm_compute; reflexivity. Qed.

Example reference_toISOString :
  Reference.toISOString 0 = "1970-01-01T00:00:00.000Z"
  /\ Reference.toISOString 951782400000 = "2000-02-29T00:00:00.000Z"
  /\ Reference.toISOString 1709251199999 = "2024-02-29T23:59:59.999Z".
Proof. repeat split. Qed.
(** * The rest of the module

    Loading, the operations on years, settings and the current section,
    and what a session of calls keeps. *)

(** ** What the repair pass always restores *)

Lemma is_repaired_year_object (r : JSRead) :
  is_repaired_year r = true -> is_object r = true.
Proof. now destruct r as [[ | | | | year] | ]. Qed.

(** The loop over the year entries, on arbitrary entries: no key is added,
    an entry that is well formed stays so, and every entry visited is
    dropped or well formed afterwards. *)
Lemma validate_years_repairs (now : string) (ids : list string) :
  forall (years : Props) (rep : bool),
    (forall id, obj_get id years = None ->
       obj_get id (fst (validate_years now ids years rep)) = None)
    /\ (forall id, is_repaired_year (obj_get id years) = true ->
          is_repaired_year
            (obj_get id (fst (validate_years now ids years rep))) = true)
    /\ (forall id, In id ids ->
          obj_get id (fst (validate_years now ids years rep)) = None
          \/ is_repaired_year
               (obj_get id (fst (validate_years now ids years rep))) = true).
Proof.
  induction ids as [ | id0 ids IH]; intros years rep.
  - simpl. split; [auto | split; [auto | intros id []]].
  - simpl. rewrite not_an_object_is_object.
    destruct (is_object (obj_get id0 years)) eqn:Eobject; simpl.
    + destruct (obj_get id0 years) as [[ | | | | year] | ] eqn:Eyear;
        try discriminate.
      simpl props_of.
      pose proof (validate_year_sound now id0 year rep) as Hsound.
      destruct (validate_year now id0 year rep) as [year' rep'].
      simpl in Hsound.
      destruct (IH (obj_set id0 (JObj year') years) rep')
        as (Hnone & Hkeep & Hids).
      split; [ | split].
      * intros id Hid. apply Hnone. rewrite obj_get_set.
        destruct (String.eqb_spec id id0) as [-> | _]; [congruence | exact Hid].
      * intros id Hid. apply Hkeep. rewrite obj_get_set.
        now destruct (String.eqb id id0).
      * intros id [<- | Hin]; [ | now apply Hids].
        right. apply Hkeep. now rewrite obj_get_set_eq.
    + destruct (IH (obj_delete id0 years) true) as (Hnone & Hkeep & Hids).
      split; [ | split].
      * intros id Hid. apply Hnone. rewrite obj_get_delete.
        now destruct (String.eqb id id0).
      * intros id Hid. apply Hkeep. rewrite obj_get_delete.
        destruct (String.eqb_spec id id0) as [-> | _]; [ | exact Hid].
        apply is_repaired_year_object in Hid. congruence.
      * intros id [<- | Hin]; [ | now apply Hids].
        left. apply Hnone. rewrite obj_get_delete.
        now rewrite String.eqb_refl.
Qed.

(** The repair pass restores invariants 1, 2, 4 and 5 of the data model on
    every object. *)
Lemma repair_document_shape (now : string) (props : Props) :
  repaired_shape (JObj (fst (repair_document now props))) = true.
Proof.
  unfold repair_document.
  destruct (ensure_version_spec props false) as (Hv1 & Ho1).
  destruct (ensure_version props false) as [d1 r1]. simpl in Hv1, Ho1.
  destruct (ensure_settings_spec d1 r1) as (Hs2 & Ho2).
  destruct (ensure_settings d1 r1) as [d2 r2]. simpl in Hs2, Ho2.
  destruct (ensure_years_spec d2 r2) as (Hy3 & Hp3 & Ho3).
  destruct (ensure_years d2 r2) as [d3 r3]. simpl in Hy3, Hp3, Ho3.
  assert (Ho4 : forall k, k <> "currentYear" ->
            obj_get k (fst (repair_currentYear d3 r3)) = obj_get k d3).
  { intros k Hk. unfold repair_currentYear.
    destruct (obj_get "currentYear" d3) as [currentYear | ]; [ | reflexivity].
    destruct (truthy currentYear && _); [ | reflexivity].
    simpl. now apply obj_get_set_ne. }
  destruct (repair_currentYear d3 r3) as [d4 r4]. simpl in Ho4.
  unfold repair_years.
  set (years := props_of (obj_get "years" d4)).
  destruct (validate_years_repairs now (obj_keys years) years r4)
    as (Hnone & _ & Hids).
  destruct (validate_years now (obj_keys years) years r4) as [years' r5].
  simpl in Hnone, Hids. simpl fst.
  unfold repaired_shape, doc_props. simpl props_of.
  rewrite obj_get_set_eq, !obj_get_set_ne by discriminate.
  rewrite Ho4, Ho3, Ho2 by discriminate. rewrite Hv1. simpl andb.
  rewrite Ho4, Ho3 by discriminate. rewrite Hs2. simpl andb.
  apply forallb_forall. intros id Hin.
  destruct (obj_get id years) as [v | ] eqn:Eid.
  - destruct (Hids id) as [Hgone | Hok];
      [now apply obj_get_Some_key with (v := v) | | exact Hok].
    destruct (obj_get_key id years' Hin) as [v' Hv']. congruence.
  - destruct (obj_get_key id years' Hin) as [v' Hv'].
    rewrite (Hnone id Eid) in Hv'. discriminate.
Qed.

Section Restored.

Variable rt : Runtime.


(** X8.  Validation of a valid document.  On a RootDocument that satisfies the
    invariants of the data model [validateAndRepairData] changes nothing:
    it returns the document as it is, valid and not repaired, logs nothing
    and calls no callback. *)
Theorem validateAndRepairData_root_document (d : JSValue) (st : State) :
  root_document d = true ->
  validateAndRepairData rt d st = (Ok (mkValidation true false d), st).
Proof.
  intros Hroot. destruct d as [ | b | n | s | props]; try discriminate.
  rewrite validateAndRepairData_object.
  now rewrite (repair_document_clean _ _ Hroot).
Qed.

End Restored.

Lemma validateAndRepairData_root_document_witness :
  let st := running_state JNull no_fault (Some 7) in
  validateAndRepairData Reference.runtime sample_document st
  = (Ok (mkValidation true false sample_document), st).
Proof.
  apply (validateAndRepairData_root_document Reference.runtime sample_document
           (running_state JNull no_fault (Some 7))).
  reflexivity.
Defined.

(** ** A second repair pass *)











Section SecondPass.

Variable rt : Runtime.


End SecondPass.


(** ** Loading the stored record *)

Section Loading.

Variable rt : Runtime.

Lemma working_probed (st : State) : working st -> working (probed st).
Proof. intros H items op. apply H. Qed.

Lemma working_same_module (st st' : State) :
  same_module st st' -> working st -> working st'.
Proof.
  intros (_ & _ & _ & Hfault & _) H items op. rewrite Hfault. apply H.
Qed.

Lemma record_writes_probed_twice (st : State) (d : JSValue) :
  record_writes (probed (with_storageData d (probed st))) = record_writes st.
Proof.
  unfold record_writes. cbn. rewrite !List.filter_app. cbn.
  now rewrite !app_nil_r.
Qed.

Ltac init_read Hwork Hrecord :=
  unfold initStorage, bind;
  rewrite (isLocalStorageAvailable_working _ Hwork);
  cbn -[saveToLocalStorage probed reportStorageError validateAndRepairData];
  unfold try_catch, bind, ls_getItem;
  match goal with
  | |- context [ls_fault (probed ?st) (localStorage (probed ?st))
                  (OpGetItem STORAGE_KEY)] =>
      replace (ls_fault (probed st) (localStorage (probed st))
                 (OpGetItem STORAGE_KEY)) with (@None Exn)
        by (symmetry; apply Hwork)
  end;
  rewrite probed_lookup by discriminate; rewrite Hrecord;
  cbn -[saveToLocalStorage probed reportStorageError validateAndRepairData].

(** X2.  The first run.  Over a backend that serves every operation and holds no
    record, or an empty one, [initStorage] returns the default document,
    keeps it in memory and stores its serialization; the error callback is
    not called. *)
Theorem initStorage_first_run (st : State) :
  working st ->
  localStorage st !! STORAGE_KEY = None
  \/ localStorage st !! STORAGE_KEY = Some "" ->
  exists st',
    initStorage rt st = (Ok getDefaultData, st')
    /\ storageData st' = getDefaultData
    /\ localStorage st' !! STORAGE_KEY
       = Some (JSON_stringify rt getDefaultData)
    /\ record_writes st'
       = (record_writes st ++ [JSON_stringify rt getDefaultData])%list
    /\ delivered st' = delivered st.
Proof.
  intros Hwork [Hrecord | Hrecord]; init_read Hwork Hrecord;
    unfold modify;
    rewrite saveToLocalStorage_working by (intros items op; apply Hwork);
    (eexists; split; [reflexivity | ]);
    (split; [reflexivity | ]);
    (split; [cbn; now rewrite lookup_insert_eq | ]);
    (split; [ | reflexivity]);
    rewrite record_writes_stored; f_equal; apply record_writes_probed_twice.
Qed.

(** X3.  A backend that fails the availability probe.  [initStorage] reports one
    error of type [unavailable], returns the default document and keeps it
    in memory; nothing is written under the storage key. *)
Theorem initStorage_unavailable (st st1 : State) :
  isLocalStorageAvailable st = (Ok false, st1) ->
  exists st',
    initStorage rt st = (Ok getDefaultData, st')
    /\ storageData st' = getDefaultData
    /\ delivered st'
       = (delivered st
          ++ match onStorageError st with
             | Some _ => [mkStorageError "unavailable" MSG_UNAVAILABLE None]
             | None => []
             end)%list
    /\ record_writes st' = record_writes st.
Proof.
  intros Hprobe.
  destruct (isLocalStorageAvailable_frame st)
    as (b & st1' & Hprobe' & Hsame & Hdelivered & _ & Hwrites).
  rewrite Hprobe in Hprobe'. injection Hprobe' as <- <-.
  destruct Hsame as (_ & Hcb & _).
  unfold initStorage, bind. rewrite Hprobe.
  cbn -[reportStorageError]. rewrite reportStorageError_run.
  cbn -[reported]. eexists. split; [reflexivity | ].
  split; [reflexivity | ]. unfold reported. cbn. rewrite Hcb.
  destruct (onStorageError st); cbn; rewrite Hdelivered, ?app_nil_r; auto.
Qed.

(** [initStorage] over a working backend whose record parses to an
    object. *)
Lemma initStorage_object_run (st : State) (text : string) (props : Props) :
  working st ->
  localStorage st !! STORAGE_KEY = Some text ->
  text <> "" ->
  JSON_parse rt text = Some (JObj props) ->
  initStorage rt st
  = (Ok (JObj (fst (repair_document (Date_toISOString rt (clock st)) props))),
     if snd (repair_document (Date_toISOString rt (clock st)) props)
     then
       stored
         (JSON_stringify rt
            (JObj (fst (repair_document (Date_toISOString rt (clock st))
                          props))))
         (probed
            (with_storageData
               (JObj (fst (repair_document (Date_toISOString rt (clock st))
                             props)))
               (with_console
                  (console st
                   ++ [("warn",
                        "Data structure was repaired during validation")])
                  (probed st))))
     else
       with_storageData
         (JObj (fst (repair_document (Date_toISOString rt (clock st)) props)))
         (probed st)).
Proof.
  intros Hwork Hrecord Hne Hparse. init_read Hwork Hrecord.
  destruct (String.eqb_spec text "") as [Heq | _]; [contradiction | ].
  cbn -[saveToLocalStorage probed reportStorageError validateAndRepairData].
  unfold json_parse. rewrite Hparse.
  cbn -[saveToLocalStorage probed reportStorageError validateAndRepairData].
  rewrite validateAndRepairData_object.
  change (clock (probed st)) with (clock st).
  destruct (repair_document _ props) as [d [ | ]];
    cbn -[saveToLocalStorage probed reportStorageError validateAndRepairData].
  - unfold modify.
    rewrite saveToLocalStorage_working by (intros items op; apply Hwork).
    reflexivity.
  - reflexivity.
Qed.


(** X6.  What was saved is what is loaded.  Let the in-memory document be a
    RootDocument that the platform's [JSON.parse] reads back from its
    serialization, and let [saveToLocalStorage] run over a working backend.
    A module that then starts over the items the save left behind loads that
    very document: [initStorage] returns it without repairing, without
    writing and without calling the error callback. *)
Theorem save_then_reload (st st2 : State) :
  working st ->
  root_document (storageData st) = true ->
  JSON_parse rt (JSON_stringify rt (storageData st)) = Some (storageData st) ->
  JSON_stringify rt (storageData st) <> "" ->
  working st2 ->
  localStorage st2 = localStorage (snd (saveToLocalStorage rt st)) ->
  exists st',
    initStorage rt st2 = (Ok (storageData st), st')
    /\ storageData st' = storageData st
    /\ record_writes st' = record_writes st2
    /\ delivered st' = delivered st2.
Proof.
  intros Hwork Hroot Hparse Hne Hwork2 Hitems.
  rewrite saveToLocalStorage_working in Hitems by exact Hwork.
  destruct (storageData st) as [ | b | n | s | props] eqn:Hdoc;
    try discriminate.
  assert (Hrecord : localStorage st2 !! STORAGE_KEY
                    = Some (JSON_stringify rt (JObj props))).
  { rewrite Hitems. cbn. now rewrite lookup_insert_eq. }
  rewrite (initStorage_object_run st2 _ props Hwork2 Hrecord Hne Hparse).
  rewrite (repair_document_clean _ _ Hroot). cbn -[probed].
  eexists. split; [reflexivity | ]. split; [reflexivity | ].
  split; [apply record_writes_probed | reflexivity].
Qed.

(** X5.  A record that parses, but not to an object.  [initStorage] reports one
    error of type [corrupt], returns the default document and keeps it in
    memory; unlike after a parse failure, nothing is written: the record
    stays in the backend as it is. *)
Theorem initStorage_non_object_record (st : State) (text : string)
    (v : JSValue) (cb : nat) :
  working st ->
  onStorageError st = Some cb ->
  localStorage st !! STORAGE_KEY = Some text ->
  text <> "" ->
  JSON_parse rt text = Some v ->
  not_an_object (Some v) = true ->
  exists st',
    initStorage rt st = (Ok getDefaultData, st')
    /\ storageData st' = getDefaultData
    /\ delivered st'
       = (delivered st ++ [mkStorageError "corrupt" MSG_CORRUPT None])%list
    /\ record_writes st' = record_writes st
    /\ localStorage st' !! STORAGE_KEY = Some text.
Proof.
  intros Hwork Hcb Hrecord Hne Hparse Hv. init_read Hwork Hrecord.
  destruct (String.eqb_spec text "") as [Heq | _]; [contradiction | ].
  cbn -[saveToLocalStorage probed reportStorageError validateAndRepairData].
  unfold json_parse. rewrite Hparse.
  cbn -[saveToLocalStorage probed reportStorageError validateAndRepairData].
  rewrite validateAndRepairData_rejected by exact Hv.
  cbn -[probed reported].
  eexists. split; [reflexivity | ]. split; [reflexivity | ].
  unfold reported. cbn -[probed].
  change (onStorageError (probed st)) with (onStorageError st). rewrite Hcb.
  split; [reflexivity | ]. split.
  - unfold record_writes. cbn. rewrite !List.filter_app. cbn.
    now rewrite !app_nil_r.
  - cbn -[probed]. rewrite probed_lookup by discriminate. exact Hrecord.
Qed.

End Loading.

Lemma initStorage_first_run_witness :
  let st := fresh_state ∅ no_fault (Some 7) in
  exists st',
    initStorage Reference.runtime st = (Ok getDefaultData, st')
    /\ storageData st' = getDefaultData
    /\ localStorage st' !! STORAGE_KEY
       = Some (JSON_stringify Reference.runtime getDefaultData)
    /\ record_writes st'
       = (record_writes st
          ++ [JSON_stringify Reference.runtime getDefaultData])%list
    /\ delivered st' = delivered st.
Proof.
  apply (initStorage_first_run Reference.runtime
           (fresh_state ∅ no_fault (Some 7))).
  - intros items op. reflexivity.
  - left. reflexivity.
Defined.

Lemma initStorage_unavailable_witness :
  let st := fresh_state ∅ full_backend (Some 7) in
  exists st',
    initStorage Reference.runtime st = (Ok getDefaultData, st')
    /\ storageData st' = getDefaultData
    /\ delivered st'
       = (delivered st
          ++ match onStorageError st with
             | Some _ => [mkStorageError "unavailable" MSG_UNAVAILABLE None]
             | None => []
             end)%list
    /\ record_writes st' = record_writes st.
Proof.
  apply (initStorage_unavailable Reference.runtime
           (fresh_state ∅ full_backend (Some 7))
           (fresh_state ∅ full_backend (Some 7))).
  reflexivity.
Defined.


Lemma initStorage_non_object_record_witness :
  let st := fresh_state {[ STORAGE_KEY := "42" ]} no_fault (Some 7) in
  exists st',
    initStorage Reference.runtime st = (Ok getDefaultData, st')
    /\ storageData st' = getDefaultData
    /\ delivered st'
       = (delivered st ++ [mkStorageError "corrupt" MSG_CORRUPT None])%list
    /\ record_writes st' = record_writes st
    /\ localStorage st' !! STORAGE_KEY = Some "42".
Proof.
  apply (initStorage_non_object_record Reference.runtime
           (fresh_state {[ STORAGE_KEY := "42" ]} no_fault (Some 7))
           "42" (JNum 42) 7).
  - intros items op. reflexivity.
  - reflexivity.
  - reflexivity.
  - discriminate.
  - reflexivity.
  - reflexivity.
Defined.

Lemma save_then_reload_witness :
  let st := running_state sample_document no_fault None in
  let st2 :=
    fresh_state (localStorage (snd (saveToLocalStorage Reference.runtime st)))
      no_fault (Some 7) in
  exists st',
    initStorage Reference.runtime st2 = (Ok (storageData st), st')
    /\ storageData st' = storageData st
    /\ record_writes st' = record_writes st2
    /\ delivered st' = delivered st2.
Proof.
  apply (save_then_reload Reference.runtime
           (running_state sample_document no_fault None)
           (fresh_state
              (localStorage
                 (snd (saveToLocalStorage Reference.runtime
                         (running_state sample_document no_fault None))))
              no_fault (Some 7))).
  - intros items op. reflexivity.
  - reflexivity.
  - vm_compute. reflexivity.
  - intros H. vm_compute in H. discriminate H.
  - intros items op. reflexivity.
  - reflexivity.
Defined.

Section LoadingAlways.

Variable rt : Runtime.

Lemma validateAndRepairData_frame (v : JSValue) (st : State) :
  exists r st',
    validateAndRepairData rt v st = (Ok r, st')
    /\ same_module st st'
    /\ repaired_shape (data r) = true.
Proof.
  destruct (not_an_object_cases v) as [[props ->] | Hv].
  - rewrite validateAndRepairData_object.
    eexists _, _. split; [reflexivity | ].
    split; [ | apply repair_document_shape].
    destruct (snd (repair_document _ props)); repeat split.
  - rewrite validateAndRepairData_rejected by exact Hv.
    eexists _, _. split; [reflexivity | ].
    split; [apply reported_same_module | reflexivity].
Qed.

(** X1.  [initStorage] always returns a usable document.  Whatever the backend
    holds and whichever of its operations throw, no exception leaves the
    call; the result is the in-memory document from then on, and it has
    invariants 1, 2, 4 and 5 of the data model: [version] is a number,
    [settings] an object, and every entry of [years] an object whose
    sections are objects with an [answers] object. *)
Theorem initStorage_returns_document (st : State) :
  exists d st',
    initStorage rt st = (Ok d, st')
    /\ storageData st' = d
    /\ repaired_shape d = true.
Proof.
  unfold initStorage, bind.
  destruct (isLocalStorageAvailable_frame st) as (b & st1 & Hprobe & _).
  rewrite Hprobe. destruct b; cbn -[reportStorageError saveToLocalStorage
                                     validateAndRepairData].
  2:{ rewrite reportStorageError_run. cbn -[reported].
      eexists _, _. repeat split. }
  unfold try_catch, bind, ls_getItem.
  destruct (ls_fault st1 (localStorage st1) (OpGetItem STORAGE_KEY)).
  { rewrite reportStorageError_run. cbn -[reported].
    eexists _, _. repeat split. }
  destruct (localStorage st1 !! STORAGE_KEY) as [text | ];
    [destruct (negb (String.eqb text "")) | ].
  2, 3: unfold modify;
    destruct (saveToLocalStorage_frame rt (with_storageData getDefaultData st1))
      as (b & st3 & Hsave & Hsame & _);
    rewrite Hsave; cbn; unfold gets; rewrite Hsame; cbn;
    eexists _, st3; (split; [reflexivity | ]); (split; [exact Hsame | ]);
    reflexivity.
  unfold json_parse. destruct (JSON_parse rt text) as [v | ];
    cbn -[reportStorageError saveToLocalStorage validateAndRepairData].
  - destruct (validateAndRepairData_frame v st1)
      as (r & st2 & Hvalid & _ & Hshape).
    rewrite Hvalid. unfold modify.
    destruct (repaired r).
    + destruct (saveToLocalStorage_frame rt (with_storageData (data r) st2))
        as (b & st3 & Hsave & Hsame & _).
      rewrite Hsave. cbn. unfold gets. rewrite Hsame. cbn.
      eexists _, st3. split; [reflexivity | ]. split; assumption.
    + cbn. eexists _, _. split; [reflexivity | ]. split; [reflexivity | ].
      exact Hshape.
  - rewrite reportStorageError_run. unfold modify.
    destruct (saveToLocalStorage_frame rt
                (with_storageData getDefaultData
                   (reported "parse" MSG_PARSE (Some SyntaxError) st1)))
      as (b & st3 & Hsave & Hsame & _).
    rewrite Hsave. cbn. unfold gets. rewrite Hsame. cbn.
    eexists _, st3. split; [reflexivity | ]. split; [exact Hsame | ].
    reflexivity.
Qed.

End LoadingAlways.

(** ** What a load does to a record it cannot read *)

Section Overwrite.

Variable rt : Runtime.

(** X29.  A record that does not parse is overwritten.  Over a working backend,
    when the stored record is a non-empty text that [JSON.parse] rejects,
    [initStorage] replaces it: after the call the backend holds the
    serialization of the default document under the storage key, and the
    text that was there is gone. *)
Theorem initStorage_unparsable_overwrites (st : State) (text : string) :
  working st ->
  localStorage st !! STORAGE_KEY = Some text ->
  text <> "" ->
  JSON_parse rt text = None ->
  exists st',
    initStorage rt st = (Ok getDefaultData, st')
    /\ localStorage st' !! STORAGE_KEY
       = Some (JSON_stringify rt getDefaultData)
    /\ record_writes st'
       = (record_writes st ++ [JSON_stringify rt getDefaultData])%list.
Proof.
  intros Hwork Hrecord Hne Hparse.
  unfold initStorage, bind.
  rewrite (isLocalStorageAvailable_working st Hwork).
  cbn -[saveToLocalStorage probed reportStorageError].
  unfold try_catch, bind, ls_getItem.
  replace (ls_fault (probed st) (localStorage (probed st))
             (OpGetItem STORAGE_KEY)) with (@None Exn)
    by (symmetry; apply Hwork).
  rewrite probed_lookup by discriminate. rewrite Hrecord.
  destruct (String.eqb_spec text "") as [Heq | _]; [contradiction | ].
  cbn -[saveToLocalStorage probed reportStorageError].
  unfold json_parse. rewrite Hparse.
  cbn -[saveToLocalStorage probed reportStorageError].
  rewrite reportStorageError_run. unfold modify.
  rewrite saveToLocalStorage_working.
  2:{ intros items op. cbn. unfold reported. cbn.
      destruct (onStorageError st); apply Hwork. }
  cbn -[stored probed reported].
  eexists. split; [reflexivity | ]. split.
  - cbn. now rewrite lookup_insert_eq.
  - rewrite record_writes_stored. f_equal.
    unfold record_writes, reported. cbn.
    destruct (onStorageError st); cbn; rewrite !List.filter_app; cbn;
      now rewrite !app_nil_r.
Qed.

End Overwrite.

Lemma initStorage_unparsable_overwrites_witness :
  let st := fresh_state {[ STORAGE_KEY := "{not json" ]} no_fault None in
  exists st',
    initStorage Reference.runtime st = (Ok getDefaultData, st')
    /\ localStorage st' !! STORAGE_KEY
       = Some (JSON_stringify Reference.runtime getDefaultData)
    /\ record_writes st'
       = (record_writes st
          ++ [JSON_stringify Reference.runtime getDefaultData])%list.
Proof.
  apply (initStorage_unparsable_overwrites Reference.runtime
           (fresh_state {[ STORAGE_KEY := "{not json" ]} no_fault None)
           "{not json").
  - intros items op. reflexivity.
  - reflexivity.
  - discriminate.
  - reflexivity.
Defined.

(** ** The probe, the write and the import, once more *)

(** X10.  The availability probe touches no item but its own.  Whatever the
    backend does, [isLocalStorageAvailable] returns without throwing, every
    item under another key is as it was, the module's variables are as they
    were, and no callback is called; when it returns [true] its own key
    holds nothing afterwards. *)
Theorem isLocalStorageAvailable_keeps_items (st : State) :
  exists b st',
    isLocalStorageAvailable st = (Ok b, st')
    /\ (forall k,
          k <> "__yearcompass_test__" ->
          localStorage st' !! k = localStorage st !! k)
    /\ (b = true -> localStorage st' !! "__yearcompass_test__" = None)
    /\ storageData st' = storageData st
    /\ delivered st' = delivered st.
Proof.
  unfold isLocalStorageAvailable, try_catch, bind, ls_setItem, ls_getItem,
    ls_removeItem, ret.
  destruct (ls_fault st (localStorage st) (OpSetItem _ _)) eqn:E1; cbn.
  { exists false, st. repeat split. discriminate. }
  match goal with
  | |- context [ls_fault st ?m (OpGetItem ?k)] =>
      destruct (ls_fault st m (OpGetItem k)) eqn:E2; cbn
  end.
  { eexists false, _. split; [reflexivity | ]. repeat split; try discriminate.
    intros k Hk. cbn. now rewrite lookup_insert_ne by congruence. }
  match goal with
  | |- context [ls_fault st ?m (OpRemoveItem ?k)] =>
      destruct (ls_fault st m (OpRemoveItem k)) eqn:E3; cbn
  end.
  { eexists false, _. split; [reflexivity | ]. repeat split; try discriminate.
    intros k Hk. cbn. now rewrite lookup_insert_ne by congruence. }
  eexists _, _. split; [reflexivity | ]. repeat split.
  - intros k Hk. cbn. rewrite lookup_delete_ne by congruence.
    now rewrite lookup_insert_ne by congruence.
  - intros _. cbn. apply lookup_delete_eq.
Qed.

Section WriteErrors.

Variable rt : Runtime.

(** X11.  A write that fails for another reason than space.  Let the
    availability probe pass, let the backend then throw, on the write of the
    document, an error without a quota signature, and let an error callback
    be registered.  Then [saveToLocalStorage] returns [false] without
    throwing, the callback receives one error, of type [save], that carries
    the error thrown, the in-memory document is unchanged and nothing is
    written under the storage key. *)
Theorem saveToLocalStorage_other_error (st st1 : State) (error : Exn)
    (cb : nat) :
  isLocalStorageAvailable st = (Ok true, st1) ->
  ls_fault st1 (localStorage st1)
    (OpSetItem STORAGE_KEY (JSON_stringify rt (storageData st)))
  = Some error ->
  is_quota_error error = false ->
  onStorageError st = Some cb ->
  exists st',
    saveToLocalStorage rt st = (Ok false, st')
    /\ delivered st'
       = (delivered st ++ [mkStorageError "save" MSG_SAVE (Some error)])%list
    /\ storageData st' = storageData st
    /\ record_writes st' = record_writes st.
Proof.
  intros Hprobe Hfault Hother Hcb.
  destruct (isLocalStorageAvailable_frame st)
    as (b & st1' & Hprobe' & Hsame & Hdelivered & _ & Hwrites).
  rewrite Hprobe in Hprobe'. injection Hprobe' as <- <-.
  destruct Hsame as (Hdoc & Hcb1 & _).
  unfold saveToLocalStorage, bind. rewrite Hprobe.
  cbn -[reportStorageError]. unfold try_catch, bind, gets, ls_setItem.
  cbn -[reportStorageError]. rewrite Hdoc, Hfault, Hother.
  rewrite reportStorageError_run. cbn -[reported].
  eexists. split; [reflexivity | ]. split; [ | split].
  - rewrite (reported_delivered _ _ _ _ cb) by congruence.
    now rewrite Hdelivered.
  - destruct (reported_same_module "save" MSG_SAVE (Some error) st1)
      as (-> & _).
    exact Hdoc.
  - rewrite <- Hwrites. unfold reported. cbn.
    now destruct (onStorageError st1).
Qed.


(** X13.  An import that is refused.  A text that does not parse leaves the whole
    state as it was.  A text that parses to something that is not an object
    leaves the document and the backend as they were, and is reported to
    the registered callback as an error of type [corrupt], as a damaged
    stored record is. *)
Theorem importData_refused (st : State) (jsonString : string) (cb : nat) :
  onStorageError st = Some cb ->
  match JSON_parse rt jsonString with
  | None =>
      importData rt jsonString st
      = (Ok (mkImportResult false "The file is not valid JSON data."), st)
  | Some parsed =>
      not_an_object (Some parsed) = true ->
      exists st',
        importData rt jsonString st
        = (Ok (mkImportResult false
                 "The imported data is not valid YearCompass data."), st')
        /\ delivered st'
           = (delivered st
              ++ [mkStorageError "corrupt" MSG_CORRUPT None])%list
        /\ storageData st' = storageData st
        /\ localStorage st' = localStorage st
        /\ ls_writes st' = ls_writes st
  end.
Proof.
  intros Hcb. unfold importData, try_catch, bind, json_parse.
  destruct (JSON_parse rt jsonString) as [parsed | ]; [ | reflexivity].
  intros Hrejected. cbn -[validateAndRepairData].
  rewrite validateAndRepairData_rejected by exact Hrejected.
  cbn -[reported]. eexists. split; [reflexivity | ].
  unfold reported. cbn. rewrite Hcb. repeat split.
Qed.

End WriteErrors.

Lemma saveToLocalStorage_other_error_witness :
  let st := running_state sample_document record_refused (Some 7) in
  exists st',
    saveToLocalStorage Reference.runtime st = (Ok false, st')
    /\ delivered st'
       = (delivered st
          ++ [mkStorageError "save" MSG_SAVE
                (Some (mkExn "SecurityError" (Some 18%Z)))])%list
    /\ storageData st' = storageData st
    /\ record_writes st' = record_writes st.
Proof.
  apply (saveToLocalStorage_other_error Reference.runtime
           (running_state sample_document record_refused (Some 7))
           (probed (running_state sample_document record_refused (Some 7)))
           (mkExn "SecurityError" (Some 18%Z)) 7).
  - vm_compute. reflexivity.
  - reflexivity.
  - reflexivity.
  - reflexivity.
Defined.


Lemma importData_refused_witness :
  let st := running_state sample_document no_fault (Some 7) in
  exists st',
    importData Reference.runtime "42" st
    = (Ok (mkImportResult false
             "The imported data is not valid YearCompass data."), st')
    /\ delivered st'
       = (delivered st ++ [mkStorageError "corrupt" MSG_CORRUPT None])%list
    /\ storageData st' = storageData st
    /\ localStorage st' = localStorage st
    /\ ls_writes st' = ls_writes st.
Proof.
  apply (importData_refused Reference.runtime
           (running_state sample_document no_fault (Some 7)) "42" 7).
  - reflexivity.
  - reflexivity.
Defined.

(** ** Years *)

Lemma has_years_props (d : JSValue) :
  has_years d = true ->
  exists props years,
    d = JObj props /\ obj_get "years" props = Some (JObj years)
    /\ doc_years d = years /\ doc_props d = props.
Proof.
  unfold has_years, doc_years, doc_props.
  destruct d as [ | b | n | s | props]; try discriminate. simpl props_of.
  destruct (obj_get "years" props) as [[ | | | | years] | ] eqn:E;
    try discriminate.
  intros _. exists props, years. rewrite E. auto.
Qed.

Section Years.

Variable rt : Runtime.

Lemma saved_at_once_working (d : JSValue) (st : State) :
  working st ->
  saveToLocalStorage rt (with_storageData d st)
  = (Ok true, saved_at_once rt d st).
Proof.
  intros Hwork. rewrite saveToLocalStorage_working by exact Hwork.
  reflexivity.
Qed.

Lemma createNewYear_run (st : State) (yearId : string) :
  working st ->
  has_years (storageData st) = true ->
  createNewYear rt yearId st
  = (Ok (Some (Plain (new_year_entry (Date_toISOString rt (clock st))
                        yearId))),
     saved_at_once rt
       (created_document (Date_toISOString rt (clock st)) yearId
          (storageData st)) st).
Proof.
  intros Hwork Hyears.
  destruct (has_years_props _ Hyears) as (props & years & Hd & Hy & Hdy & Hdp).
  unfold createNewYear, created_document, bind, now_iso, gets.
  rewrite Hdy, Hdp, Hd.
  cbn -[saveToLocalStorage obj_set new_year_entry]. rewrite Hy.
  unfold write_key, new_year_entry at 1. rewrite assigned_object.
  fold (new_year_entry (Date_toISOString rt (clock st)) yearId).
  cbn -[saveToLocalStorage obj_set new_year_entry]. unfold modify.
  rewrite saved_at_once_working by exact Hwork.
  cbn -[obj_set new_year_entry saved_at_once].
  change (storageData (saved_at_once rt ?d st)) with d.
  cbn -[obj_set new_year_entry saved_at_once].
  rewrite obj_get_set_ne by discriminate. rewrite obj_get_set_eq.
  cbn -[obj_set new_year_entry saved_at_once].
  now rewrite (lookup_own _ _ _ (obj_get_set_eq _ _ _)).
Qed.


Lemma createNewYear_no_years (st : State) (yearId : string) :
  has_years (storageData st) = false ->
  createNewYear rt yearId st = (Throw TypeError, st).
Proof.
  unfold has_years, doc_props, createNewYear, bind, now_iso, gets.
  destruct (storageData st) as [ | b | n | s | props]; try reflexivity.
  simpl props_of. cbn.
  destruct (obj_get "years" props) as [[ | | | | years] | ]; try reflexivity.
  discriminate.
Qed.

Lemma setCurrentYear_run (st : State) (yearId : string) :
  working st ->
  has_years (storageData st) = true ->
  setCurrentYear rt yearId st
  = if truthy_found (lookup yearId (doc_years (storageData st)))
    then (Ok tt,
          saved_at_once rt (switched_document yearId (storageData st)) st)
    else (Ok tt, st).
Proof.
  intros Hwork Hyears.
  destruct (has_years_props _ Hyears) as (props & years & Hd & Hy & Hdy & Hdp).
  unfold setCurrentYear, switched_document, bind, gets.
  rewrite Hdy, Hdp, Hd. cbn -[saveToLocalStorage obj_set]. rewrite Hy.
  cbn -[saveToLocalStorage obj_set].
  destruct (truthy_found (lookup yearId years)); [ | reflexivity].
  cbn -[saveToLocalStorage obj_set]. unfold modify.
  now rewrite saved_at_once_working by exact Hwork.
Qed.

Lemma setCurrentYear_no_years (st : State) (yearId : string) :
  has_years (storageData st) = false ->
  exists r, setCurrentYear rt yearId st = (r, st).
Proof.
  unfold has_years, doc_props, setCurrentYear, bind, gets.
  destruct (storageData st) as [ | b | n | s | props]; try (eexists; reflexivity).
  simpl props_of. cbn.
  destruct (obj_get "years" props) as [[ | | | | years] | ];
    try (eexists; reflexivity).
  discriminate.
Qed.

Lemma saveYear_run (st : State) (yearId : string) (data : Props) :
  working st ->
  has_years (storageData st) = true ->
  saveYear rt yearId (JObj data) st
  = (Ok tt,
     saved_at_once rt
       (saved_year_document (Date_toISOString rt (clock st)) yearId data
          (storageData st)) st).
Proof.
  intros Hwork Hyears.
  destruct (has_years_props _ Hyears) as (props & years & Hd & Hy & Hdy & Hdp).
  unfold saveYear, saved_year_document, bind, now_iso, gets.
  rewrite Hdy, Hdp. cbn -[saveToLocalStorage obj_set]. rewrite Hd.
  cbn -[saveToLocalStorage obj_set]. rewrite Hy.
  unfold write_key. rewrite assigned_object.
  cbn -[saveToLocalStorage obj_set]. unfold modify.
  now rewrite saved_at_once_working by exact Hwork.
Qed.

Lemma saveYear_throws (st : State) (yearId : string) (data : JSValue) :
  is_object (Some data) = false \/ has_years (storageData st) = false ->
  saveYear rt yearId data st = (Throw TypeError, st).
Proof.
  unfold has_years, doc_props, saveYear, bind, now_iso, gets.
  intros [Hdata | Hyears].
  - destruct data; try reflexivity. discriminate.
  - destruct data as [ | b | n | s | data]; try reflexivity. cbn.
    destruct (storageData st) as [ | b | n | s | props]; try reflexivity.
    simpl props_of in Hyears. cbn.
    destruct (obj_get "years" props) as [[ | | | | years] | ]; try reflexivity.
    discriminate.
Qed.

Lemma saveSettings_run (st : State) (settings : JSValue) (props : Props) :
  working st ->
  storageData st = JObj props ->
  saveSettings rt settings st
  = (Ok tt, saved_at_once rt (settings_document settings (storageData st)) st).
Proof.
  intros Hwork Hd.
  unfold saveSettings, settings_document, merged_settings, doc_props, bind,
    gets.
  rewrite Hd. cbn -[saveToLocalStorage obj_set define_all spread_of].
  unfold modify. now rewrite saved_at_once_working by exact Hwork.
Qed.

Lemma saveSettings_throws (st : State) (settings : JSValue) :
  is_object (Some (storageData st)) = false ->
  saveSettings rt settings st = (Throw TypeError, st).
Proof.
  unfold saveSettings, bind, gets.
  destruct (storageData st) as [ | b | n | s | props]; try reflexivity.
  discriminate.
Qed.

End Years.

(** ** Reading a loaded document *)

Lemma getCurrentYear_has_years (st : State) :
  has_years (storageData st) = true ->
  getCurrentYear st
  = (Ok match current_member (storageData st) with
        | Some year => if truthy_member year then year else Plain JNull
        | None => Plain JNull
        end, st).
Proof.
  intros Hyears.
  destruct (has_years_props _ Hyears) as (props & years & Hd & Hy & Hdy & Hdp).
  unfold getCurrentYear, current_member, doc_currentYear, bind, gets.
  rewrite Hdy, Hdp, Hd. cbn.
  destruct (obj_get "currentYear" props) as [currentYear | ]; [ | reflexivity].
  destruct (truthy currentYear); [ | reflexivity].
  cbn. rewrite Hy. cbn.
  now destruct (lookup (ToString currentYear) years).
Qed.

(** So, when [currentYear] names an entry of [years]. *)
Lemma getCurrentYear_entry (st : State) (year : JSValue) :
  has_years (storageData st) = true ->
  current_year (storageData st) = Some year ->
  getCurrentYear st = (Ok (if truthy year then year else JNull), st).
Proof.
  intros Hyears Hyear. rewrite getCurrentYear_has_years by exact Hyears.
  revert Hyear. unfold current_year, current_member.
  destruct (doc_currentYear (storageData st)) as [currentYear | ];
    [ | discriminate].
  destruct (truthy currentYear); [ | discriminate].
  intros Hyear. rewrite (lookup_own _ _ _ Hyear). simpl.
  now destruct (truthy year).
Qed.

Lemma loadYear_has_years (st : State) (yearId : string) :
  has_years (storageData st) = true ->
  loadYear yearId st
  = (Ok match lookup yearId (doc_years (storageData st)) with
        | Some year => if truthy_member year then year else Plain JNull
        | None => Plain JNull
        end, st).
Proof.
  intros Hyears.
  destruct (has_years_props _ Hyears) as (props & years & Hd & Hy & Hdy & Hdp).
  unfold loadYear, bind, gets. rewrite Hdy, Hd. cbn. rewrite Hy. cbn.
  now destruct (lookup yearId years).
Qed.

Lemma getAllYears_has_years (st : State) :
  has_years (storageData st) = true ->
  getAllYears st = (Ok (obj_keys (doc_years (storageData st))), st).
Proof.
  intros Hyears.
  destruct (has_years_props _ Hyears) as (props & years & Hd & Hy & Hdy & Hdp).
  unfold getAllYears, bind, gets. rewrite Hdy, Hd. cbn. now rewrite Hy.
Qed.

Lemma obj_keys_lookup (k : string) (ps : Props) :
  In k (obj_keys ps) <-> obj_get k ps <> None.
Proof.
  split.
  - intros Hin. destruct (obj_get_key k ps Hin) as [v ->]. discriminate.
  - destruct (obj_get k ps) as [v | ] eqn:E; [ | congruence].
    intros _. now apply obj_get_Some_key with (v := v).
Qed.

(** The keys after a write: the key written and the keys there were. *)
Lemma obj_keys_set (k k' : string) (v : JSValue) (ps : Props) :
  In k' (obj_keys (obj_set k v ps)) <-> k' = k \/ In k' (obj_keys ps).
Proof.
  rewrite !obj_keys_lookup, obj_get_set.
  destruct (String.eqb_spec k' k) as [-> | Hne].
  - split; [now left | discriminate].
  - split; [now right | ]. intros [Heq | H]; [contradiction | exact H].
Qed.

(** ** The document after [createNewYear] *)

Lemma created_document_years (now yearId : string) (d : JSValue) :
  doc_years (created_document now yearId d)
  = obj_set yearId (new_year_entry now yearId) (doc_years d).
Proof.
  unfold created_document, doc_years at 1, doc_props at 1. simpl props_of.
  rewrite obj_get_set_ne by discriminate. now rewrite obj_get_set_eq.
Qed.

Lemma created_document_currentYear (now yearId : string) (d : JSValue) :
  doc_currentYear (created_document now yearId d) = Some (JStr yearId).
Proof.
  unfold created_document, doc_currentYear, doc_props. simpl props_of.
  apply obj_get_set_eq.
Qed.

Lemma created_document_has_years (now yearId : string) (d : JSValue) :
  has_years (created_document now yearId d) = true.
Proof.
  unfold has_years, created_document, doc_props. simpl props_of.
  rewrite obj_get_set_ne by discriminate. now rewrite obj_get_set_eq.
Qed.

Section NewYear.

Variable rt : Runtime.

(** X14.  [createNewYear] makes the year it creates the current one.  On a loaded
    document and over a working backend, for a year id that is neither
    empty nor [__proto__]: the entry returned is the one [getCurrentYear]
    and [loadYear] return afterwards, its id is among [getAllYears], and the
    document as it is after the call is written at once, not through the
    deferred save. *)
Theorem createNewYear_is_current (st : State) (yearId : string) :
  working st ->
  has_years (storageData st) = true ->
  yearId <> "" ->
  yearId <> "__proto__" ->
  exists entry st',
    createNewYear rt yearId st = (Ok (Some entry), st')
    /\ entry = new_year_entry (Date_toISOString rt (clock st)) yearId
    /\ getCurrentYear st' = (Ok entry, st')
    /\ loadYear yearId st' = (Ok entry, st')
    /\ (exists ids, getAllYears st' = (Ok ids, st') /\ In yearId ids)
    /\ record_writes st'
       = (record_writes st ++ [JSON_stringify rt (storageData st')])%list
    /\ timers st' = timers st
    /\ saveTimeout st' = saveTimeout st.
Proof.
  intros Hwork Hyears Hne _.
  rewrite createNewYear_run by assumption.
  set (now := Date_toISOString rt (clock st)).
  set (d' := created_document now yearId (storageData st)).
  assert (Hd' : storageData (saved_at_once rt d' st) = d') by reflexivity.
  assert (Hyears' : has_years (storageData (saved_at_once rt d' st)) = true)
    by (rewrite Hd'; apply created_document_has_years).
  eexists _, _. split; [reflexivity | ]. split; [reflexivity | ].
  split.
  { rewrite getCurrentYear_has_years by exact Hyears'. rewrite Hd'.
    unfold current_member, d'.
    rewrite created_document_currentYear, created_document_years.
    simpl truthy. destruct (String.eqb_spec yearId "") as [-> | _];
      [contradiction | ].
    simpl. now rewrite (lookup_own _ _ _ (obj_get_set_eq _ _ _)). }
  split.
  { rewrite loadYear_has_years by exact Hyears'. rewrite Hd'. unfold d'.
    rewrite created_document_years.
    now rewrite (lookup_own _ _ _ (obj_get_set_eq _ _ _)). }
  split.
  { eexists. split; [now apply getAllYears_has_years | ].
    rewrite Hd'. unfold d'. rewrite created_document_years.
    apply obj_keys_set. now left. }
  split; [ | split; reflexivity].
  unfold saved_at_once. rewrite record_writes_stored, record_writes_probed.
  reflexivity.
Qed.


(** X15.  [createNewYear] keeps a RootDocument a RootDocument, for every year id
    but [__proto__], provided the platform's time stamp is not empty: the
    new entry is a YearEntry under its key and [currentYear] names it. *)
Theorem createNewYear_root_document (st : State) (yearId : string) :
  working st ->
  root_document (storageData st) = true ->
  Date_toISOString rt (clock st) <> "" ->
  yearId <> "__proto__" ->
  exists entry st',
    createNewYear rt yearId st = (Ok entry, st')
    /\ root_document (storageData st') = true.
Proof.
  intros Hwork Hroot Hnow _.
  assert (Hyears : has_years (storageData st) = true).
  { unfold has_years, doc_props. unfold root_document in Hroot.
    destruct (storageData st) as [ | b | n | s | props]; try discriminate.
    simpl props_of.
    destruct (obj_get "years" props) as [[ | | | | years] | ];
      try reflexivity; now rewrite !andb_false_r in Hroot. }
  rewrite createNewYear_run by assumption.
  eexists _, _. split; [reflexivity | ].
  change (storageData (saved_at_once rt ?d st)) with d.
  destruct (has_years_props _ Hyears) as (props & years & Hd & Hy & Hdy & Hdp).
  unfold created_document. rewrite Hdy, Hdp.
  rewrite Hd in Hroot. unfold root_document in Hroot |- *.
  rewrite Hy in Hroot. rewrite !andb_true_iff in Hroot.
  destruct Hroot as [[Hversion Hsettings] [Hentries _]].
  rewrite !(obj_get_set_ne "currentYear") by discriminate.
  rewrite !(obj_get_set_ne "years") by discriminate.
  rewrite Hversion, Hsettings, obj_get_set_eq, obj_get_set_eq. simpl andb.
  apply andb_true_iff. split.
  - apply forallb_obj_set; [exact Hentries | ].
    unfold new_year_entry, year_entry. cbn -[replace_first].
    rewrite !String.eqb_refl, orb_true_r.
    destruct (String.eqb_spec (Date_toISOString rt (clock st)) "");
      [contradiction | reflexivity].
  - apply existsb_exists. exists yearId. split; [ | apply String.eqb_refl].
    apply obj_keys_set. now left.
Qed.

(** X16.  [createNewYear] replaces what is stored under the year id.  If the year
    exists already, its answers are gone afterwards, whatever they were;
    the entries of the other years are as they were. *)
Theorem createNewYear_replaces_entry (st : State) (yearId : string) :
  working st ->
  has_years (storageData st) = true ->
  exists entry st',
    createNewYear rt yearId st = (Ok entry, st')
    /\ (forall sectionId fieldId,
          doc_answer (storageData st') yearId sectionId fieldId = None)
    /\ (forall other,
          other <> yearId ->
          obj_get other (doc_years (storageData st'))
          = obj_get other (doc_years (storageData st))).
Proof.
  intros Hwork Hyears. rewrite createNewYear_run by assumption.
  eexists _, _. split; [reflexivity | ].
  change (storageData (saved_at_once rt ?d st)) with d.
  split.
  - intros sectionId fieldId. unfold doc_answer.
    rewrite created_document_years, obj_get_set_eq. reflexivity.
  - intros other Hother. rewrite created_document_years.
    now apply obj_get_set_ne.
Qed.

End NewYear.

(** The id matters: an entry created under the empty id is stored, but
    [currentYear] is then the empty string, which counts as not set. *)
Example createNewYear_empty_id :
  let st := running_state getDefaultData no_fault None in
  exists entry st',
    createNewYear Reference.runtime "" st = (Ok (Some entry), st')
    /\ getAllYears st' = (Ok [""], st')
    /\ getCurrentYear st' = (Ok JNull, st').
Proof. eexists _, _. split; [vm_compute; reflexivity | ]. split; reflexivity. Qed.

Lemma createNewYear_is_current_witness :
  let st := running_state sample_document no_fault None in
  exists entry st',
    createNewYear Reference.runtime "2025-2026" st = (Ok (Some entry), st')
    /\ entry
       = new_year_entry (Date_toISOString Reference.runtime (clock st))
           "2025-2026"
    /\ getCurrentYear st' = (Ok entry, st')
    /\ loadYear "2025-2026" st' = (Ok entry, st')
    /\ (exists ids, getAllYears st' = (Ok ids, st') /\ In "2025-2026" ids)
    /\ record_writes st'
       = (record_writes st
          ++ [JSON_stringify Reference.runtime (storageData st')])%list
    /\ timers st' = timers st
    /\ saveTimeout st' = saveTimeout st.
Proof.
  apply (createNewYear_is_current Reference.runtime
           (running_state sample_document no_fault None) "2025-2026").
  - intros items op. reflexivity.
  - reflexivity.
  - discriminate.
  - discriminate.
Defined.

Lemma createNewYear_root_document_witness :
  let st := running_state sample_document no_fault None in
  exists entry st',
    createNewYear Reference.runtime "2025-2026" st = (Ok entry, st')
    /\ root_document (storageData st') = true.
Proof.
  apply (createNewYear_root_document Reference.runtime
           (running_state sample_document no_fault None) "2025-2026").
  - intros items op. reflexivity.
  - reflexivity.
  - discriminate.
  - discriminate.
Defined.

Lemma createNewYear_replaces_entry_witness :
  let st := running_state sample_document no_fault None in
  doc_answer (storageData st) "2024-2025" "x" "b" = Some (JStr "hello")
  /\ exists entry st',
       createNewYear Reference.runtime "2024-2025" st = (Ok entry, st')
       /\ (forall sectionId fieldId,
             doc_answer (storageData st') "2024-2025" sectionId fieldId = None)
       /\ (forall other,
             other <> "2024-2025" ->
             obj_get other (doc_years (storageData st'))
             = obj_get other (doc_years (storageData st))).
Proof.
  split; [reflexivity | ].
  apply (createNewYear_replaces_entry Reference.runtime
           (running_state sample_document no_fault None) "2024-2025").
  - intros items op. reflexivity.
  - reflexivity.
Defined.

(** ** Switching years *)

Lemma switched_document_years (yearId : string) (d : JSValue) :
  doc_years (switched_document yearId d) = doc_years d.
Proof.
  unfold switched_document, doc_years at 1, doc_props at 1. simpl props_of.
  now rewrite obj_get_set_ne by discriminate.
Qed.

Section SwitchYear.

Variable rt : Runtime.

(** X17.  [setCurrentYear] switches to a year that exists and ignores one that
    does not.  On a loaded document and over a working backend, for an id
    that is not empty: the call returns normally; if [years] holds an entry
    under the id, that entry is what [getCurrentYear] returns afterwards, no
    year entry changes and the document is written at once; if [years] holds
    nothing under the id and the id is not the name of a member of
    [Object.prototype], the whole state is as it was; if it is such a name,
    the test of line 314 finds the built-in, and [currentYear] becomes the
    id although no year has it. *)
Theorem setCurrentYear_switches (st : State) (yearId : string) :
  working st ->
  has_years (storageData st) = true ->
  yearId <> "" ->
  exists st',
    setCurrentYear rt yearId st = (Ok tt, st')
    /\ (forall year,
          obj_get yearId (doc_years (storageData st)) = Some (JObj year) ->
          getCurrentYear st' = (Ok (JObj year), st')
          /\ doc_years (storageData st') = doc_years (storageData st)
          /\ record_writes st'
             = (record_writes st
                ++ [JSON_stringify rt (storageData st')])%list
          /\ timers st' = timers st)
    /\ (obj_get yearId (doc_years (storageData st)) = None ->
        if inherited_name yearId
        then doc_currentYear (storageData st') = Some (JStr yearId)
             /\ doc_years (storageData st') = doc_years (storageData st)
             /\ getCurrentYear st' = (Ok (Builtin yearId), st')
        else st' = st).
Proof.
  intros Hwork Hyears Hne. rewrite setCurrentYear_run by assumption.
  set (d' := switched_document yearId (storageData st)).
  assert (Hd' : storageData (saved_at_once rt d' st) = d') by reflexivity.
  assert (Hyears' : has_years (storageData (saved_at_once rt d' st)) = true).
  { rewrite Hd'. unfold has_years, d', switched_document, doc_props.
    simpl props_of. rewrite obj_get_set_ne by discriminate. exact Hyears. }
  assert (Hcurrent : current_member d'
                     = lookup yearId (doc_years (storageData st))).
  { unfold current_member, d'. rewrite switched_document_years.
    unfold doc_currentYear, switched_document, doc_props. simpl props_of.
    rewrite obj_get_set_eq. simpl truthy.
    now destruct (String.eqb_spec yearId "") as [-> | _]. }
  unfold lookup in *.
  destruct (obj_get yearId (doc_years (storageData st))) as [v | ] eqn:Ev.
  - simpl truthy_found. destruct (truthy v) eqn:Etruthy.
    + eexists. split; [reflexivity | ]. split; [ | discriminate].
      intros year Eyear. injection Eyear as ->.
      split; [ | split; [ | split; [ | reflexivity]]].
      * rewrite getCurrentYear_has_years by exact Hyears'.
        now rewrite Hd', Hcurrent.
      * rewrite Hd'. apply switched_document_years.
      * unfold saved_at_once.
        now rewrite record_writes_stored, record_writes_probed.
    + exists st. split; [reflexivity | ]. split; [ | discriminate].
      intros year Eyear. injection Eyear as ->. discriminate.
  - destruct (inherited_name yearId) eqn:Ename; simpl truthy_found.
    + eexists. split; [reflexivity | ]. split; [discriminate | ].
      intros _. split; [ | split].
      * rewrite Hd'. unfold d', doc_currentYear, switched_document, doc_props.
        simpl props_of. apply obj_get_set_eq.
      * rewrite Hd'. apply switched_document_years.
      * rewrite getCurrentYear_has_years by exact Hyears'.
        now rewrite Hd', Hcurrent.
    + exists st. split; [reflexivity | ]. split; [discriminate | reflexivity].
Qed.

End SwitchYear.

Lemma setCurrentYear_switches_witness :
  let st :=
    running_state
      (created_document "2025-01-01T00:00:00.000Z" "2025-2026" sample_document)
      no_fault None in
  exists st',
    setCurrentYear Reference.runtime "2024-2025" st = (Ok tt, st')
    /\ (forall year,
          obj_get "2024-2025" (doc_years (storageData st))
          = Some (JObj year) ->
          getCurrentYear st' = (Ok (JObj year), st')
          /\ doc_years (storageData st') = doc_years (storageData st)
          /\ record_writes st'
             = (record_writes st
                ++ [JSON_stringify Reference.runtime (storageData st')])%list
          /\ timers st' = timers st)
    /\ (obj_get "2024-2025" (doc_years (storageData st)) = None ->
        if inherited_name "2024-2025"
        then doc_currentYear (storageData st') = Some (JStr "2024-2025")
             /\ doc_years (storageData st') = doc_years (storageData st)
             /\ getCurrentYear st' = (Ok (Builtin "2024-2025"), st')
        else st' = st).
Proof.
  apply (setCurrentYear_switches Reference.runtime
           (running_state
              (created_document "2025-01-01T00:00:00.000Z" "2025-2026"
                 sample_document) no_fault None)
           "2024-2025").
  - intros items op. reflexivity.
  - reflexivity.
  - discriminate.
Defined.

(** The year [constructor] that no document has: [setCurrentYear] takes it
    for one, and what [getCurrentYear] returns afterwards is no year. *)
Example setCurrentYear_inherited_id :
  let st := running_state sample_document no_fault None in
  exists st',
    setCurrentYear Reference.runtime "constructor" st = (Ok tt, st')
    /\ getAllYears st' = (Ok ["2024-2025"], st')
    /\ doc_currentYear (storageData st') = Some (JStr "constructor")
    /\ getCurrentYear st' = (Ok (Builtin "constructor"), st').
Proof. eexists. split; [vm_compute; reflexivity | ]. repeat split. Qed.

(** ** Saving and loading a year *)

Section SaveYear.

Variable rt : Runtime.

(** X18.  [saveYear] and [loadYear].  On a loaded document and over a working
    backend, a year saved can be loaded: [loadYear] returns the data with
    [lastModified] set to the time of the save, [currentYear] is as it was,
    and the document is written at once.  Data that is not an object makes
    [saveYear] throw a [TypeError] and leaves the state as it was. *)
Theorem saveYear_then_loadYear (st : State) (yearId : string)
    (data : JSValue) :
  working st ->
  has_years (storageData st) = true ->
  (forall props,
     data = JObj props ->
     exists st',
       saveYear rt yearId data st = (Ok tt, st')
       /\ loadYear yearId st'
          = (Ok (JObj (obj_set "lastModified"
                         (JStr (Date_toISOString rt (clock st))) props)), st')
       /\ doc_currentYear (storageData st') = doc_currentYear (storageData st)
       /\ record_writes st'
          = (record_writes st ++ [JSON_stringify rt (storageData st')])%list)
  /\ (is_object (Some data) = false ->
      saveYear rt yearId data st = (Throw TypeError, st)).
Proof.
  intros Hwork Hyears. split.
  - intros props ->. rewrite saveYear_run by assumption.
    set (now := Date_toISOString rt (clock st)).
    set (d' := saved_year_document now yearId props (storageData st)).
    assert (Hd' : storageData (saved_at_once rt d' st) = d') by reflexivity.
    eexists. split; [reflexivity | ]. split; [ | split].
    + rewrite loadYear_has_years.
      2:{ rewrite Hd'. unfold has_years, d', saved_year_document, doc_props.
          simpl props_of. now rewrite obj_get_set_eq. }
      rewrite Hd'. unfold d', saved_year_document.
      rewrite doc_years_set.
      now rewrite (lookup_own _ _ _ (obj_get_set_eq _ _ _)).
    + rewrite Hd'. unfold d', saved_year_document, doc_currentYear.
      unfold doc_props at 1. simpl props_of.
      now rewrite obj_get_set_ne by discriminate.
    + unfold saved_at_once.
      now rewrite record_writes_stored, record_writes_probed.
  - intros Hdata. apply saveYear_throws. now left.
Qed.

End SaveYear.

Lemma saveYear_then_loadYear_witness :
  let st := running_state sample_document no_fault None in
  (forall props,
     sample_year = JObj props ->
     exists st',
       saveYear Reference.runtime "2023-2024" sample_year st = (Ok tt, st')
       /\ loadYear "2023-2024" st'
          = (Ok (JObj (obj_set "lastModified"
                         (JStr (Date_toISOString Reference.runtime (clock st)))
                         props)), st')
       /\ doc_currentYear (storageData st') = doc_currentYear (storageData st)
       /\ record_writes st'
          = (record_writes st
             ++ [JSON_stringify Reference.runtime (storageData st')])%list)
  /\ (is_object (Some sample_year) = false ->
      saveYear Reference.runtime "2023-2024" sample_year st
      = (Throw TypeError, st)).
Proof.
  apply (saveYear_then_loadYear Reference.runtime
           (running_state sample_document no_fault None) "2023-2024"
           sample_year).
  - intros items op. reflexivity.
  - reflexivity.
Defined.

(** ** Settings *)

Lemma define_all_lookup (k : string) (source : Props) :
  forall target,
    distinct_keys source ->
    obj_get k (define_all source target)
    = match obj_get k source with
      | Some v => Some v
      | None => obj_get k target
      end.
Proof.
  unfold distinct_keys, define_all.
  induction source as [ | [k0 v0] source IH]; intros target Hdistinct;
    [reflexivity | ].
  simpl in Hdistinct. apply NoDup_cons in Hdistinct.
  destruct Hdistinct as [Hfresh Hdistinct].
  simpl. rewrite IH by exact Hdistinct. rewrite obj_get_set.
  destruct (String.eqb_spec k k0) as [-> | Hne]; [ | reflexivity].
  destruct (obj_get k0 source) as [v | ] eqn:E; [ | reflexivity].
  exfalso. apply Hfresh. apply list_elem_of_In.
  now apply obj_get_Some_key with (v := v).
Qed.

Section Settings.

Variable rt : Runtime.

(** X19.  [saveSettings] merges.  On a document whose [settings] is an object,
    over a working backend, after [saveSettings] of an object
    [getSettings] returns an object in which every key of the argument has
    the argument's value and every other key the value it had; the document
    is written at once. *)
Theorem saveSettings_merges (st : State) (props current settings : Props) :
  working st ->
  storageData st = JObj props ->
  obj_get "settings" props = Some (JObj current) ->
  distinct_keys current ->
  distinct_keys settings ->
  exists merged st',
    saveSettings rt (JObj settings) st = (Ok tt, st')
    /\ getSettings st' = (Ok (JObj merged), st')
    /\ (forall k,
          obj_get k merged
          = match obj_get k settings with
            | Some v => Some v
            | None => obj_get k current
            end)
    /\ record_writes st'
       = (record_writes st ++ [JSON_stringify rt (storageData st')])%list.
Proof.
  intros Hwork Hd Hsettings Hcurrent Hnew.
  rewrite (saveSettings_run rt st (JObj settings) props Hwork Hd).
  eexists _, _. split; [reflexivity | ].
  unfold getSettings, bind, gets.
  change (storageData (saved_at_once rt ?d st)) with d.
  unfold settings_document. rewrite Hd. unfold doc_props. simpl props_of.
  rewrite Hsettings. cbn -[obj_set merged_settings saved_at_once].
  rewrite obj_get_set_eq. cbn -[obj_set merged_settings saved_at_once].
  split; [reflexivity | ]. split.
  - intros k. unfold merged_settings. simpl spread_of.
    rewrite define_all_lookup by exact Hnew.
    rewrite define_all_lookup by exact Hcurrent.
    simpl. now destruct (obj_get k current).
  - unfold saved_at_once.
    now rewrite record_writes_stored, record_writes_probed.
Qed.

End Settings.

Lemma saveSettings_merges_witness :
  let st := running_state sample_document no_fault None in
  let settings := [("theme", JStr "dark"); ("language", JStr "en")] in
  exists merged st',
    saveSettings Reference.runtime (JObj settings) st = (Ok tt, st')
    /\ getSettings st' = (Ok (JObj merged), st')
    /\ (forall k,
          obj_get k merged
          = match obj_get k settings with
            | Some v => Some v
            | None => obj_get k (props_of (Some default_settings))
            end)
    /\ record_writes st'
       = (record_writes st
          ++ [JSON_stringify Reference.runtime (storageData st')])%list.
Proof.
  apply (saveSettings_merges Reference.runtime
           (running_state sample_document no_fault None)
           (props_of (Some sample_document))
           (props_of (Some default_settings))
           [("theme", JStr "dark"); ("language", JStr "en")]).
  - intros items op. reflexivity.
  - reflexivity.
  - reflexivity.
  - unfold distinct_keys. compute_done.
  - unfold distinct_keys. compute_done.
Defined.

(** ** The current section *)

Lemma current_year_key (d : JSValue) (year : JSValue) :
  current_year d = Some year ->
  exists currentYear,
    doc_currentYear d = Some currentYear
    /\ truthy currentYear = true
    /\ obj_get (ToString currentYear) (doc_years d) = Some year.
Proof.
  unfold current_year.
  destruct (doc_currentYear d) as [currentYear | ]; [ | discriminate].
  destruct (truthy currentYear) eqn:E; [ | discriminate]. eauto.
Qed.

Section CurrentSection.

Variable rt : Runtime.

Lemma saveCurrentSection_run (st : State) (sectionId : string)
    (currentYear : JSValue) (year : Props) :
  timers_tracked st = true ->
  has_years (storageData st) = true ->
  doc_currentYear (storageData st) = Some currentYear ->
  truthy currentYear = true ->
  obj_get (ToString currentYear) (doc_years (storageData st))
  = Some (JObj year) ->
  saveCurrentSection rt sectionId st
  = (Ok tt,
     armed (with_storageData
              (section_document (Date_toISOString rt (clock st)) sectionId
                 (ToString currentYear) year (storageData st)) st)).
Proof.
  intros Htracked Hyears Hcurrent Htruthy Hyear.
  unfold saveCurrentSection, bind.
  rewrite getCurrentYear_has_years by exact Hyears.
  unfold current_member. rewrite Hcurrent, Htruthy, (lookup_own _ _ _ Hyear).
  destruct (has_years_props _ Hyears) as (props & years & Hd & Hy & Hdy & Hdp).
  unfold section_document. rewrite Hdy, Hdp.
  unfold doc_currentYear in Hcurrent. rewrite Hdp in Hcurrent.
  unfold now_iso, gets. cbn -[debouncedSave obj_set]. rewrite Hd.
  cbn -[debouncedSave obj_set]. rewrite Hcurrent, Hy.
  cbn -[debouncedSave obj_set]. unfold modify.
  now rewrite debouncedSave_tracked by exact Htracked.
Qed.

(** X20.  [saveCurrentSection] and [getCurrentSection].  On a loaded document
    whose current year is an object, a section id saved (not empty) is the
    one [getCurrentSection] returns afterwards; no answer changes; and
    nothing is written yet: the save is deferred. *)
Theorem saveCurrentSection_then_getCurrentSection (st : State)
    (sectionId : string) (year : Props) :
  timers_tracked st = true ->
  has_years (storageData st) = true ->
  current_year (storageData st) = Some (JObj year) ->
  sectionId <> "" ->
  exists st',
    saveCurrentSection rt sectionId st = (Ok tt, st')
    /\ getCurrentSection st' = (Ok (JStr sectionId), st')
    /\ (forall yearId section fieldId,
          doc_answer (storageData st') yearId section fieldId
          = doc_answer (storageData st) yearId section fieldId)
    /\ pending st'
    /\ ls_writes st' = ls_writes st.
Proof.
  intros Htracked Hyears Hyear Hne.
  destruct (current_year_key _ _ Hyear) as (cy & Hcurrent & Htruthy & Hentry).
  rewrite (saveCurrentSection_run st sectionId cy year) by assumption.
  set (now := Date_toISOString rt (clock st)).
  set (d' := section_document now sectionId (ToString cy) year (storageData st)).
  eexists. split; [reflexivity | ].
  assert (Hyears' : doc_years d'
                    = obj_set (ToString cy)
                        (JObj (obj_set "lastModified" (JStr now)
                                 (obj_set "currentSection" (JStr sectionId)
                                    year)))
                        (doc_years (storageData st)))
    by apply doc_years_set.
  assert (Hcurrent' : doc_currentYear d' = Some cy).
  { unfold d', section_document, doc_currentYear. unfold doc_props at 1.
    simpl props_of. now rewrite obj_get_set_ne by discriminate. }
  split; [ | split; [ | split; [apply armed_pending | reflexivity]]].
  - unfold getCurrentSection, bind.
    rewrite getCurrentYear_has_years.
    2:{ change (storageData (armed (with_storageData ?d st))) with d.
        unfold has_years, d', section_document, doc_props. simpl props_of.
        now rewrite obj_get_set_eq. }
    change (storageData (armed (with_storageData ?d st))) with d.
    unfold current_member. rewrite Hcurrent', Htruthy, Hyears'.
    rewrite (lookup_own _ _ _ (obj_get_set_eq _ _ _)).
    cbn -[obj_set armed]. rewrite obj_get_set_ne by discriminate.
    rewrite obj_get_set_eq. cbn -[armed].
    destruct (String.eqb_spec sectionId "") as [-> | _];
      [contradiction | reflexivity].
  - intros yearId section fieldId.
    change (storageData (armed (with_storageData ?d st))) with d.
    unfold doc_answer. rewrite Hyears', obj_get_set.
    destruct (String.eqb_spec yearId (ToString cy)) as [-> | _];
      [ | reflexivity].
    rewrite Hentry. simpl props_of.
    now rewrite !obj_get_set_ne by discriminate.
Qed.

(** X21.  No current year.  On a loaded document whose [currentYear] is not set,
    or names neither an entry of [years] nor a member of
    [Object.prototype], [getCurrentYear] returns [null], [getCurrentSection]
    the section [intro], [isSectionStarted] [false], and
    [saveCurrentSection] returns without changing anything. *)
Theorem no_current_year (st : State) (sectionId : string) :
  has_years (storageData st) = true ->
  current_member (storageData st) = None ->
  getCurrentYear st = (Ok JNull, st)
  /\ getCurrentSection st = (Ok (JStr "intro"), st)
  /\ isSectionStarted sectionId st = (Ok false, st)
  /\ saveCurrentSection rt sectionId st = (Ok tt, st).
Proof.
  intros Hyears Hnone.
  assert (Hrun : getCurrentYear st = (Ok JNull, st))
    by (rewrite getCurrentYear_has_years by exact Hyears; now rewrite Hnone).
  split; [exact Hrun | ].
  unfold getCurrentSection, isSectionStarted, saveCurrentSection, bind.
  rewrite Hrun. repeat split.
Qed.

(** When [currentYear] names no entry of [years] but a member of
    [Object.prototype], the current year is that built-in:
    [getCurrentYear] returns it, [getCurrentSection] answers [intro],
    [isSectionStarted] throws a [TypeError] on its [sections], and
    [saveCurrentSection] sets its two properties on the built-in, leaves
    the document as it is and schedules the deferred save. *)
Lemma builtin_current_year (st : State) (sectionId name : string) :
  timers_tracked st = true ->
  has_years (storageData st) = true ->
  current_member (storageData st) = Some (Builtin name) ->
  getCurrentYear st = (Ok (Builtin name), st)
  /\ getCurrentSection st = (Ok (JStr "intro"), st)
  /\ isSectionStarted sectionId st = (Throw TypeError, st)
  /\ saveCurrentSection rt sectionId st = (Ok tt, armed st).
Proof.
  intros Htracked Hyears Hbuiltin.
  assert (Hrun : getCurrentYear st = (Ok (Builtin name), st))
    by (rewrite getCurrentYear_has_years by exact Hyears;
        now rewrite Hbuiltin).
  split; [exact Hrun | ].
  unfold getCurrentSection, isSectionStarted, saveCurrentSection, bind.
  rewrite Hrun. cbn -[debouncedSave].
  rewrite debouncedSave_tracked by exact Htracked. repeat split.
Qed.

End CurrentSection.

Lemma saveCurrentSection_then_getCurrentSection_witness :
  let st := running_state sample_document no_fault None in
  exists st',
    saveCurrentSection Reference.runtime "past-year" st = (Ok tt, st')
    /\ getCurrentSection st' = (Ok (JStr "past-year"), st')
    /\ (forall yearId section fieldId,
          doc_answer (storageData st') yearId section fieldId
          = doc_answer (storageData st) yearId section fieldId)
    /\ pending st'
    /\ ls_writes st' = ls_writes st.
Proof.
  apply (saveCurrentSection_then_getCurrentSection Reference.runtime
           (running_state sample_document no_fault None) "past-year"
           (props_of (Some sample_year))).
  - reflexivity.
  - reflexivity.
  - reflexivity.
  - discriminate.
Defined.

Lemma no_current_year_witness :
  let st := running_state getDefaultData no_fault None in
  getCurrentYear st = (Ok JNull, st)
  /\ getCurrentSection st = (Ok (JStr "intro"), st)
  /\ isSectionStarted "x" st = (Ok false, st)
  /\ saveCurrentSection Reference.runtime "x" st = (Ok tt, st).
Proof.
  apply (no_current_year Reference.runtime
           (running_state getDefaultData no_fault None) "x").
  - reflexivity.
  - reflexivity.
Defined.

(** ** Saving an answer *)

Lemma edited_sections_other (sectionId fieldId : string) (value : JSValue)
    (sections : Props) (sectionId' fieldId' : string) :
  sectionId' <> sectionId \/ fieldId' <> fieldId ->
  obj_get fieldId'
    (props_of (obj_get "answers"
       (props_of (obj_get sectionId'
          (edited_sections sectionId fieldId value sections)))))
  = obj_get fieldId'
      (props_of (obj_get "answers" (props_of (obj_get sectionId' sections)))).
Proof.
  intros Hother. unfold edited_sections.
  destruct (String.eqb_spec sectionId' sectionId) as [-> | Hne].
  - destruct Hother as [Hs | Hf]; [contradiction | ].
    rewrite obj_get_set_eq. simpl props_of. rewrite obj_get_set_eq.
    simpl props_of. rewrite obj_get_assigned_ne by exact Hf.
    destruct (truthy_opt (obj_get sectionId sections)) eqn:Etruthy;
      [reflexivity | ].
    rewrite obj_get_set_eq. simpl.
    now destruct (obj_get sectionId sections) as [[ | [ | ] | n | s | ps] | ].
  - rewrite obj_get_set_ne by exact Hne.
    destruct (truthy_opt (obj_get sectionId sections)); [reflexivity | ].
    now rewrite obj_get_set_ne by exact Hne.
Qed.

(** An edit leaves every other answer as it was. *)
Lemma edited_document_other (now yearId sectionId fieldId : string)
    (value d : JSValue) (yearId' sectionId' fieldId' : string) :
  yearId' <> yearId \/ sectionId' <> sectionId \/ fieldId' <> fieldId ->
  doc_answer (edited_document now yearId sectionId fieldId value d)
    yearId' sectionId' fieldId'
  = doc_answer d yearId' sectionId' fieldId'.
Proof.
  intros Hother. unfold doc_answer. rewrite doc_years_edit, obj_get_set.
  destruct (String.eqb_spec yearId' yearId) as [-> | Hne]; [ | reflexivity].
  simpl props_of. rewrite edited_year_sections. simpl props_of.
  apply edited_sections_other.
  destruct Hother as [Hy | Hother]; [contradiction | exact Hother].
Qed.

Section SaveAnswer.

Variable rt : Runtime.

(** X22.  [saveAnswer] changes the answer it is given and no other.  On a
    document of the data model's shape, for a year entry that exists, a
    section id that is not the name of a member of [Object.prototype] and a
    field id other than [__proto__]: the call returns normally, the answer
    can be read back, every other answer of every year is as it was,
    [currentYear] is as it was, and nothing is written yet: a deferred save
    is pending. *)
Theorem saveAnswer_changes_one_answer (st : State)
    (yearId sectionId fieldId : string) (value : JSValue) :
  document_shape (storageData st) = true ->
  is_object (obj_get yearId (doc_years (storageData st))) = true ->
  plain_ids sectionId fieldId = true ->
  timers_tracked st = true ->
  exists st',
    saveAnswer rt yearId sectionId fieldId value st = (Ok tt, st')
    /\ doc_answer (storageData st') yearId sectionId fieldId = Some value
    /\ (forall yearId' sectionId' fieldId',
          yearId' <> yearId \/ sectionId' <> sectionId
          \/ fieldId' <> fieldId ->
          doc_answer (storageData st') yearId' sectionId' fieldId'
          = doc_answer (storageData st) yearId' sectionId' fieldId')
    /\ doc_currentYear (storageData st') = doc_currentYear (storageData st)
    /\ pending st'
    /\ ls_writes st' = ls_writes st.
Proof.
  intros Hshape Hyear Hplain Htracked.
  rewrite saveAnswer_shape
    by (try assumption; exact (plain_ids_section _ _ _ Hplain)).
  rewrite debouncedSave_tracked by exact Htracked.
  eexists. split; [reflexivity | ].
  change (storageData (armed (with_storageData ?d st))) with d.
  split; [apply edited_document_answer, (plain_ids_field _ _ Hplain) | ].
  split; [intros y s f Hother; now apply edited_document_other | ].
  split; [ | split; [apply armed_pending | reflexivity]].
  unfold edited_document, doc_currentYear. unfold doc_props at 1.
  simpl props_of. now rewrite obj_get_set_ne by discriminate.
Qed.

(** X24.  Before [initStorage] has run the in-memory document is [null].  The
    operations that read answer with their defaults; the operations that
    write throw a [TypeError] and leave the whole state as it was. *)
Theorem before_initStorage (st : State) (yearId sectionId fieldId : string)
    (value : JSValue) (data : Props) :
  storageData st = JNull ->
  getAllYears st = (Ok [], st)
  /\ loadYear yearId st = (Ok JNull, st)
  /\ getCurrentYear st = (Ok JNull, st)
  /\ getSettings st = (Ok default_settings, st)
  /\ getCurrentSection st = (Ok (JStr "intro"), st)
  /\ isSectionStarted sectionId st = (Ok false, st)
  /\ saveCurrentSection rt sectionId st = (Ok tt, st)
  /\ createNewYear rt yearId st = (Throw TypeError, st)
  /\ setCurrentYear rt yearId st = (Throw TypeError, st)
  /\ saveYear rt yearId (JObj data) st = (Throw TypeError, st)
  /\ saveAnswer rt yearId sectionId fieldId value st = (Throw TypeError, st)
  /\ saveSettings rt value st = (Throw TypeError, st).
Proof.
  intros Hnull.
  unfold getAllYears, loadYear, getCurrentSection, isSectionStarted,
    saveCurrentSection, getCurrentYear, getSettings, createNewYear,
    setCurrentYear, saveYear, saveAnswer, saveSettings, now_iso, bind, gets.
  cbn. rewrite Hnull. cbn. repeat split.
Qed.

End SaveAnswer.

Lemma saveAnswer_changes_one_answer_witness :
  let st := running_state sample_document no_fault None in
  exists st',
    saveAnswer Reference.runtime "2024-2025" "y" "b" (JStr "new") st
    = (Ok tt, st')
    /\ doc_answer (storageData st') "2024-2025" "y" "b" = Some (JStr "new")
    /\ (forall yearId' sectionId' fieldId',
          yearId' <> "2024-2025" \/ sectionId' <> "y" \/ fieldId' <> "b" ->
          doc_answer (storageData st') yearId' sectionId' fieldId'
          = doc_answer (storageData st) yearId' sectionId' fieldId')
    /\ doc_currentYear (storageData st') = doc_currentYear (storageData st)
    /\ pending st'
    /\ ls_writes st' = ls_writes st.
Proof.
  apply (saveAnswer_changes_one_answer Reference.runtime
           (running_state sample_document no_fault None)
           "2024-2025" "y" "b" (JStr "new")).
  - reflexivity.
  - reflexivity.
  - reflexivity.
  - reflexivity.
Defined.

Lemma before_initStorage_witness :
  let st := fresh_state ∅ no_fault None in
  getAllYears st = (Ok [], st)
  /\ loadYear "2024-2025" st = (Ok JNull, st)
  /\ getCurrentYear st = (Ok JNull, st)
  /\ getSettings st = (Ok default_settings, st)
  /\ getCurrentSection st = (Ok (JStr "intro"), st)
  /\ isSectionStarted "x" st = (Ok false, st)
  /\ saveCurrentSection Reference.runtime "x" st = (Ok tt, st)
  /\ createNewYear Reference.runtime "2024-2025" st = (Throw TypeError, st)
  /\ setCurrentYear Reference.runtime "2024-2025" st = (Throw TypeError, st)
  /\ saveYear Reference.runtime "2024-2025" (JObj []) st
     = (Throw TypeError, st)
  /\ saveAnswer Reference.runtime "2024-2025" "x" "a" (JStr "v") st
     = (Throw TypeError, st)
  /\ saveSettings Reference.runtime (JStr "v") st = (Throw TypeError, st).
Proof.
  apply (before_initStorage Reference.runtime (fresh_state ∅ no_fault None)
           "2024-2025" "x" "a" (JStr "v") []).
  reflexivity.
Defined.

(** ** An answer saved and the section-started predicate *)

Lemma obj_values_set (k : string) (v : JSValue) (ps : Props) :
  In v (obj_values (obj_set k v ps)).
Proof.
  unfold obj_values. apply in_map_iff. exists (k, v). split; [reflexivity | ].
  apply obj_get_In. apply obj_get_set_eq.
Qed.

Section Started.

Variable rt : Runtime.

(** X23.  A filled answer starts its section.  On a document of the data model's
    shape, after [saveAnswer] stored, for the current year, under a section
    id that is not the name of a member of [Object.prototype] and a field id
    other than [__proto__], a string whose trimmed value is not empty,
    [isSectionStarted] returns [true] for that section, before the deferred
    save has even run. *)
Theorem saveAnswer_starts_section (st : State)
    (yearId sectionId fieldId text : string) :
  document_shape (storageData st) = true ->
  is_object (obj_get yearId (doc_years (storageData st))) = true ->
  plain_ids sectionId fieldId = true ->
  timers_tracked st = true ->
  doc_currentYear (storageData st) = Some (JStr yearId) ->
  yearId <> "" ->
  trim text <> "" ->
  exists st',
    saveAnswer rt yearId sectionId fieldId (JStr text) st = (Ok tt, st')
    /\ isSectionStarted sectionId st' = (Ok true, st').
Proof.
  intros Hshape Hyear Hplain Htracked Hcurrent Hid Htext.
  rewrite saveAnswer_shape
    by (try assumption; exact (plain_ids_section _ _ _ Hplain)).
  rewrite debouncedSave_tracked by exact Htracked.
  eexists. split; [reflexivity | ].
  set (d' := edited_document (Date_toISOString rt (clock st)) yearId
               sectionId fieldId (JStr text) (storageData st)).
  set (st' := armed (with_storageData d' st)).
  assert (Hyears' : has_years (storageData st') = true).
  { unfold st', d', edited_document, has_years, doc_props. cbn -[obj_set].
    now rewrite obj_get_set_eq. }
  assert (Hcurrent' : doc_currentYear d' = Some (JStr yearId)).
  { unfold d', edited_document, doc_currentYear. unfold doc_props at 1.
    simpl props_of. now rewrite obj_get_set_ne by discriminate. }
  unfold isSectionStarted, bind.
  rewrite getCurrentYear_has_years by exact Hyears'.
  change (storageData st') with d'.
  assert (Htruthy : truthy (JStr yearId) = true)
    by (simpl; now destruct (String.eqb_spec yearId "")).
  unfold current_member. rewrite Hcurrent', Htruthy. simpl ToString.
  unfold d'. rewrite doc_years_edit.
  rewrite (lookup_own _ _ _ (obj_get_set_eq _ _ _)).
  cbn -[edited_year existsb values_of trim].
  rewrite edited_year_sections.
  cbn -[edited_sections existsb values_of trim].
  unfold edited_sections.
  rewrite (assigned_plain _ _ _ (plain_ids_field _ _ Hplain)).
  rewrite (lookup_own _ _ _ (obj_get_set_eq _ _ _)).
  cbn -[obj_set existsb values_of trim]. rewrite obj_get_set_eq.
  cbn -[obj_set existsb trim]. unfold ret. f_equal. f_equal.
  apply existsb_exists. exists (JStr text).
  split; [apply obj_values_set | ].
  assert (Hfilled : is_filled (JStr text) = true).
  { unfold is_filled, string_of.
    rewrite (proj2 (length_pos_nonempty (trim text)) Htext).
    destruct text; [now rewrite trim_empty in Htext | reflexivity]. }
  exact Hfilled.
Qed.

End Started.

Lemma saveAnswer_starts_section_witness :
  let st := running_state sample_document no_fault None in
  exists st',
    saveAnswer Reference.runtime "2024-2025" "y" "a" (JStr " done ") st
    = (Ok tt, st')
    /\ isSectionStarted "y" st' = (Ok true, st').
Proof.
  apply (saveAnswer_starts_section Reference.runtime
           (running_state sample_document no_fault None)
           "2024-2025" "y" "a" " done ").
  - reflexivity.
  - reflexivity.
  - reflexivity.
  - reflexivity.
  - reflexivity.
  - discriminate.
  - intros H. vm_compute in H. discriminate H.
Defined.

(** ** How a call leaves the module *)

Lemma reads_only_write_prop (r : JSRead) (k : string) (v : JSValue) :
  reads_only (write_prop r k v).
Proof. destruct r as [[ | | | | ps] | ]; intros st; reflexivity. Qed.

(** A command that only reads, followed by another: it throws with the
    state as it was, or the other command runs from that state. *)
Lemma bind_reads_only {A B : Type} (c : M A) (k : A -> M B) (st : State) :
  reads_only c ->
  (exists e, bind c k st = (Throw e, st)) \/ (exists a, bind c k st = k a st).
Proof.
  intros Hc. specialize (Hc st). unfold bind.
  destruct (c st) as [[a | e] st1]; simpl in Hc; subst st1; eauto.
Qed.

Lemma bind_bind {A B C : Type} (c : M A) (k : A -> M B) (h : B -> M C)
    (st : State) :
  bind (bind c k) h st = bind c (fun a => bind (k a) h) st.
Proof. unfold bind. now destruct (c st) as [[a | e] st1]. Qed.

Lemma reads_only_write_key (r : JSRead) (k : string) (v : JSValue) :
  reads_only (write_key r k v).
Proof. destruct r as [[ | | | | ps] | ]; intros st; reflexivity. Qed.

Lemma reads_only_member_set (m : Member) (k : string) (v : JSValue) :
  reads_only (member_set m k v).
Proof.
  destruct m as [o | name]; [ | apply reads_only_ret].
  apply reads_only_bind; [apply reads_only_write_prop | intros o'].
  apply reads_only_ret.
Qed.

Ltac solve_reads_only :=
  unfold now_iso;
  repeat first
    [ apply reads_only_ret | apply reads_only_throw | apply reads_only_gets
    | apply reads_only_read_prop | apply reads_only_write_prop
    | apply reads_only_read_key | apply reads_only_write_key
    | apply reads_only_member_prop | apply reads_only_member_set
    | apply getCurrentYear_reads_only
    | apply reads_only_bind; [ | intros ?]
    | match goal with
      | |- reads_only (if ?b then _ else _) => destruct b
      | |- reads_only (match ?x with _ => _ end) => destruct x
      end ].

Ltac pure_step st :=
  match goal with
  | |- context [bind ?c ?k st] =>
      let H := fresh "H" in
      assert (H : reads_only c) by solve_reads_only;
      let e := fresh "e" in
      let a := fresh "a" in
      destruct (bind_reads_only c k st H) as [[e ->] | [a ->]]; clear H;
      [left; eexists; reflexivity | cbv beta]
  end.

Section Outcomes.

Variable rt : Runtime.

Lemma saveAnswer_outcome (st : State) (yearId sectionId fieldId : string)
    (value : JSValue) :
  (exists r, saveAnswer rt yearId sectionId fieldId value st = (r, st))
  \/ (exists d,
        saveAnswer rt yearId sectionId fieldId value st
        = debouncedSave (with_storageData d st)).
Proof.
  unfold saveAnswer.
  repeat pure_step st.
  match goal with
  | |- context [(if ?b then _ else _) st] => destruct b
  end; [left; eexists; reflexivity | ].
  repeat pure_step st.
  right. eexists. reflexivity.
Qed.

Lemma saveCurrentSection_outcome (st : State) (sectionId : string) :
  (exists r, saveCurrentSection rt sectionId st = (r, st))
  \/ (exists d,
        saveCurrentSection rt sectionId st
        = debouncedSave (with_storageData d st))
  \/ saveCurrentSection rt sectionId st = debouncedSave st.
Proof.
  unfold saveCurrentSection.
  pure_step st.
  match goal with
  | |- context [(if ?b then _ else _) st] => destruct b
  end; [ | left; eexists; reflexivity].
  do 3 pure_step st.
  match goal with
  | |- context [match ?m with Plain _ => _ | Builtin _ => _ end] =>
      destruct m as [year | name]
  end.
  - repeat (rewrite bind_bind; pure_step st).
    right. left. eexists. reflexivity.
  - right. right. reflexivity.
Qed.


Lemma kept_refl (st : State) : kept st st.
Proof. split; [apply same_module_refl | reflexivity]. Qed.

Lemma saved_at_once_flushed (d : JSValue) (st : State) :
  flushed rt st (saved_at_once rt d st).
Proof.
  repeat split. unfold in_sync. cbn. now rewrite lookup_insert_eq.
Qed.

Lemma armed_scheduled (d : JSValue) (st : State) :
  scheduled st (armed (with_storageData d st)).
Proof. repeat split. exists (next_timer st). split; reflexivity. Qed.

Lemma armed_scheduled_same (st : State) : scheduled st (armed st).
Proof. repeat split. exists (next_timer st). split; reflexivity. Qed.

(** Every call of the module's writing operations, over a working backend
    and with the timer queue tracked, leaves the module in one of the three
    ways. *)
Lemma perform_outcome (st : State) (a : Action) :
  working st ->
  timers_tracked st = true ->
  match a with
  | Wait _ => True
  | _ =>
      kept st (perform rt st a) \/ flushed rt st (perform rt st a)
      \/ scheduled st (perform rt st a)
  end.
Proof.
  intros Hwork Htracked. destruct a as [y s f v | s | y | y | y data | v | text | ms];
    [ | | | | | | | exact I]; unfold perform.
  - destruct (saveAnswer_outcome st y s f v) as [[r ->] | [d ->]].
    + left. apply kept_refl.
    + rewrite debouncedSave_tracked by exact Htracked.
      right. right. apply armed_scheduled.
  - destruct (saveCurrentSection_outcome st s) as [[r ->] | [[d ->] | ->]].
    + left. apply kept_refl.
    + rewrite debouncedSave_tracked by exact Htracked.
      right. right. apply armed_scheduled.
    + rewrite debouncedSave_tracked by exact Htracked.
      right. right. apply armed_scheduled_same.
  - destruct (has_years (storageData st)) eqn:Hyears.
    + rewrite createNewYear_run by assumption.
      right. left. apply saved_at_once_flushed.
    + rewrite createNewYear_no_years by assumption. left. apply kept_refl.
  - destruct (has_years (storageData st)) eqn:Hyears.
    + rewrite setCurrentYear_run by assumption.
      destruct (truthy_found _).
      * right. left. apply saved_at_once_flushed.
      * left. apply kept_refl.
    + destruct (setCurrentYear_no_years rt st y Hyears) as [r ->].
      left. apply kept_refl.
  - destruct (is_object (Some data)) eqn:Hdata;
      [destruct (has_years (storageData st)) eqn:Hyears | ].
    + destruct data as [ | | | | props]; try discriminate.
      rewrite saveYear_run by assumption.
      right. left. apply saved_at_once_flushed.
    + rewrite saveYear_throws by (now right). left. apply kept_refl.
    + rewrite saveYear_throws by (now left). left. apply kept_refl.
  - destruct (storageData st) as [ | b | n | s | props] eqn:Hd.
    5:{ rewrite (saveSettings_run rt st v props Hwork Hd).
        right. left. apply saved_at_once_flushed. }
    all: rewrite saveSettings_throws by (now rewrite Hd);
      left; apply kept_refl.
  - unfold importData, try_catch, bind, json_parse.
    destruct (JSON_parse rt text) as [parsed | ]; [ | left; apply kept_refl].
    cbn -[validateAndRepairData saveToLocalStorage].
    destruct (not_an_object_cases parsed) as [[props ->] | Hrejected].
    + rewrite validateAndRepairData_object.
      cbn -[saveToLocalStorage]. unfold modify.
      rewrite saveToLocalStorage_working
        by (intros items op; destruct (snd (repair_document _ props));
            apply Hwork).
      right. left. cbn -[stored probed].
      destruct (snd (repair_document _ props)); repeat split;
        unfold in_sync; cbn; now rewrite lookup_insert_eq.
    + rewrite validateAndRepairData_rejected by exact Hrejected.
      left. cbn -[reported]. split; [apply reported_same_module | ].
      unfold reported. cbn. now destruct (onStorageError st).
Qed.

Lemma settled_outcome (st st' : State) :
  settled rt st ->
  kept st st' \/ flushed rt st st' \/ scheduled st st' ->
  settled rt st'.
Proof.
  intros (Hwork & Htracked & Hdue & Hsync) [Hkept | [Hflushed | Hscheduled]].
  - destruct Hkept as [(Hd & _ & Ht & Hf & Hq & _ & Hc) Hitems].
    unfold settled, working, timers_tracked, in_sync in *.
    rewrite Hd, Ht, Hf, Hq, Hc, Hitems. auto.
  - destruct Hflushed as (Ht & Hf & Hq & Hc & Hs).
    unfold settled, working, timers_tracked in *.
    rewrite Ht, Hf, Hq, Hc. auto.
  - destruct Hscheduled as (Hf & Hc & h & Ht & Hq).
    unfold settled, working, timers_tracked in *.
    rewrite Ht, Hf, Hq, Hc. repeat split.
    + exact Hwork.
    + apply Pos.eqb_refl.
    + intros h' due Heq. injection Heq as _ <-. lia.
    + discriminate.
Qed.

Lemma settled_elapse (st : State) (ms : N) :
  settled rt st ->
  settled rt (elapse rt ms st)
  /\ ((300 <= ms)%N ->
      timers (elapse rt ms st) = []
      /\ saveTimeout (elapse rt ms st) = None
      /\ in_sync rt (elapse rt ms st)).
Proof.
  intros (Hwork & Htracked & Hdue & Hsync).
  unfold timers_tracked in Htracked.
  destruct (saveTimeout st) as [h | ] eqn:Eh;
    destruct (timers st) as [ | [h' due] [ | t ts]] eqn:Et;
    try discriminate.
  - specialize (Hdue h' due eq_refl).
    destruct (N.le_gt_cases due (clock st + ms)) as [Hfire | Hearly].
    + rewrite (elapse_fire rt st h' due ms Et Hfire Hwork).
      assert (Hs : in_sync rt
                     (with_saveTimeout None
                        (stored (JSON_stringify rt (storageData st))
                           (probed (with_timers [] (next_timer st)
                                      (with_clock (clock st + ms)%N st))))))
        by (unfold in_sync; cbn; now rewrite lookup_insert_eq).
      split; [ | auto].
      repeat split; [exact Hwork | discriminate | exact (fun _ => Hs)].
    + rewrite (elapse_early rt st h' due ms Et) by lia.
      split; [ | intros Hquiet; lia].
      unfold settled, working, timers_tracked. cbn. rewrite Eh, Et.
      repeat split; [exact Hwork | exact Htracked | | discriminate].
      intros h0 due0 Heq. injection Heq as _ <-. lia.
  - assert (Hrun : elapse rt ms st = with_clock (clock st + ms)%N st)
      by (unfold elapse; cbn; now rewrite Et).
    rewrite Hrun. unfold settled, working, timers_tracked, in_sync. cbn.
    rewrite Eh, Et. specialize (Hsync eq_refl).
    split; [ | auto]. repeat split; [exact Hwork | discriminate | auto].
Qed.

Lemma settled_perform (st : State) (a : Action) :
  settled rt st -> settled rt (perform rt st a).
Proof.
  intros Hsettled.
  pose proof Hsettled as (Hwork & Htracked & _).
  pose proof (perform_outcome st a Hwork Htracked) as Houtcome.
  destruct a; try (now apply (settled_outcome st)).
  now apply settled_elapse.
Qed.

Lemma settled_perform_all (actions : list Action) :
  forall st, settled rt st -> settled rt (perform_all rt actions st).
Proof.
  unfold perform_all.
  induction actions as [ | a actions IH]; intros st Hsettled; [exact Hsettled | ].
  simpl. apply IH. now apply settled_perform.
Qed.

(** X25.  No stale record.  Start where the backend serves every operation, the
    timer queue holds at most the deferred save and the stored record is up
    to date unless that save is pending.  After any sequence of calls of
    [saveAnswer], [saveCurrentSection], [createNewYear], [setCurrentYear],
    [saveYear], [saveSettings] and [importData], with any arguments and any
    pauses between them, and then 300 ms or more without a call, the stored
    record is the serialization of the in-memory document and no timer is
    pending: a deferred save never leaves an older document behind a newer
    one. *)
Theorem no_stale_record (st : State) (actions : list Action) (quiet : N) :
  settled rt st ->
  (300 <= quiet)%N ->
  let st' := perform_all rt (actions ++ [Wait quiet])%list st in
  in_sync rt st' /\ timers st' = [] /\ saveTimeout st' = None.
Proof.
  intros Hsettled Hquiet. unfold perform_all. rewrite fold_left_app. simpl.
  pose proof (settled_perform_all actions st Hsettled) as Hafter.
  unfold perform_all in Hafter.
  destruct (settled_elapse _ quiet Hafter) as [_ Hdone].
  destruct (Hdone Hquiet) as (Hq & Ht & Hs). auto.
Qed.

End Outcomes.

Lemma no_stale_record_witness :
  let st :=
    snd (initStorage Reference.runtime (fresh_state ∅ no_fault None)) in
  let actions :=
    [DoCreateNewYear "2024-2025";
     DoSaveAnswer "2024-2025" "x" "a" (JStr "one");
     Wait 100;
     DoSaveCurrentSection "x";
     DoSaveSettings (JObj [("theme", JStr "dark")]);
     Wait 250;
     DoSaveAnswer "2024-2025" "x" "a" (JStr "two");
     DoSetCurrentYear "1999-2000";
     DoSaveYear "2023-2024" (JObj []);
     DoImportData "{not json"] in
  let st' :=
    perform_all Reference.runtime (actions ++ [Wait 300])%list st in
  in_sync Reference.runtime st' /\ timers st' = [] /\ saveTimeout st' = None.
Proof.
  apply (no_stale_record Reference.runtime
           (snd (initStorage Reference.runtime (fresh_state ∅ no_fault None)))
           [DoCreateNewYear "2024-2025";
            DoSaveAnswer "2024-2025" "x" "a" (JStr "one");
            Wait 100;
            DoSaveCurrentSection "x";
            DoSaveSettings (JObj [("theme", JStr "dark")]);
            Wait 250;
            DoSaveAnswer "2024-2025" "x" "a" (JStr "two");
            DoSetCurrentYear "1999-2000";
            DoSaveYear "2023-2024" (JObj []);
            DoImportData "{not json"]
           300%N).
  - split; [intros items op; reflexivity | ].
    split; [reflexivity | ].
    split; [intros h due H; discriminate H | ].
    intros _. vm_compute. reflexivity.
  - reflexivity.
Defined.

(** ** The shape of the document through a session *)

Lemma repaired_shape_has_years (d : JSValue) :
  repaired_shape d = true -> has_years d = true.
Proof.
  unfold repaired_shape, has_years. rewrite !andb_true_iff.
  intros [_ Hyears].
  now destruct (obj_get "years" (doc_props d)) as [[ | | | | years] | ].
Qed.

Lemma repaired_shape_years (d : JSValue) :
  repaired_shape d = true ->
  forall id v,
    obj_get id (doc_years d) = Some v -> is_repaired_year (Some v) = true.
Proof.
  unfold repaired_shape, doc_years. rewrite !andb_true_iff.
  intros [_ Hyears] id v Hid.
  destruct (obj_get "years" (doc_props d)) as [[ | | | | years] | ];
    try discriminate.
  simpl in Hid. rewrite forallb_forall in Hyears. rewrite <- Hid.
  apply Hyears. now apply obj_get_Some_key with (v := v).
Qed.

(** The shape of a document by its parts. *)
Lemma repaired_shape_parts (props years : Props) :
  String.eqb (typeof (obj_get "version" props)) "number" = true ->
  is_object (obj_get "settings" props) = true ->
  obj_get "years" props = Some (JObj years) ->
  (forall id v, obj_get id years = Some v -> is_repaired_year (Some v) = true) ->
  repaired_shape (JObj props) = true.
Proof.
  intros Hversion Hsettings Hyears Hall. unfold repaired_shape, doc_props.
  simpl props_of. rewrite Hversion, Hsettings, Hyears. simpl.
  apply forallb_forall. intros id Hin.
  destruct (obj_get_key id years Hin) as [v Hv]. rewrite Hv. eauto.
Qed.

Lemma repaired_shape_inv (d : JSValue) :
  repaired_shape d = true ->
  exists props years,
    d = JObj props
    /\ String.eqb (typeof (obj_get "version" props)) "number" = true
    /\ is_object (obj_get "settings" props) = true
    /\ obj_get "years" props = Some (JObj years)
    /\ doc_years d = years /\ doc_props d = props.
Proof.
  intros Hshape.
  destruct (has_years_props d (repaired_shape_has_years d Hshape))
    as (props & years & -> & Hy & Hdy & Hdp).
  unfold repaired_shape, doc_props in Hshape. simpl props_of in Hshape.
  rewrite !andb_true_iff in Hshape. destruct Hshape as [[Hv Hs] _].
  exists props, years. repeat split; assumption.
Qed.

(** A document of that shape with another entry written to [years]. *)
Lemma repaired_shape_set_year (d : JSValue) (yearId : string) (v : JSValue) :
  repaired_shape d = true ->
  is_repaired_year (Some v) = true ->
  repaired_shape
    (JObj (obj_set "years" (JObj (obj_set yearId v (doc_years d)))
             (doc_props d))) = true.
Proof.
  intros Hshape Hv.
  pose proof (repaired_shape_years d Hshape) as Hall.
  destruct (repaired_shape_inv d Hshape)
    as (props & years & -> & Hversion & Hsettings & Hy & Hdy & Hdp).
  rewrite Hdy, Hdp in *.
  apply repaired_shape_parts with (years := obj_set yearId v years).
  - now rewrite obj_get_set_ne by discriminate.
  - now rewrite obj_get_set_ne by discriminate.
  - apply obj_get_set_eq.
  - intros id v' Hid. rewrite obj_get_set in Hid.
    destruct (String.eqb id yearId); [congruence | eauto].
Qed.

Lemma repaired_shape_set_other (d : JSValue) (k : string) (v : JSValue) :
  repaired_shape d = true ->
  k <> "version" -> k <> "settings" -> k <> "years" ->
  repaired_shape (JObj (obj_set k v (doc_props d))) = true.
Proof.
  intros Hshape H1 H2 H3.
  pose proof (repaired_shape_years d Hshape) as Hall.
  destruct (repaired_shape_inv d Hshape)
    as (props & years & -> & Hversion & Hsettings & Hy & Hdy & Hdp).
  rewrite Hdy, Hdp in *.
  apply repaired_shape_parts with (years := years);
    rewrite ?obj_get_set_ne by congruence; auto.
Qed.

Lemma edited_sections_repaired (sectionId fieldId : string) (value : JSValue)
    (sections : Props) :
  (forall id v, obj_get id sections = Some v -> section_entry v = true) ->
  forall id v,
    obj_get id (edited_sections sectionId fieldId value sections) = Some v ->
    section_entry v = true.
Proof.
  intros Hall id v. unfold edited_sections. rewrite obj_get_set.
  destruct (String.eqb id sectionId).
  - intros Hv. injection Hv as <-. simpl. now rewrite obj_get_set_eq.
  - destruct (truthy_opt (obj_get sectionId sections)); [apply Hall | ].
    rewrite obj_get_set. destruct (String.eqb id sectionId); [ | apply Hall].
    intros Hv. now injection Hv as <-.
Qed.

Lemma year_repaired_sections (year sections : Props) :
  obj_get "sections" year = Some (JObj sections) ->
  year_repaired year = true <->
  (forall id v, obj_get id sections = Some v -> section_entry v = true).
Proof.
  intros Hsections. unfold year_repaired. rewrite Hsections.
  rewrite forallb_forall. split.
  - intros Hall id v Hid.
    specialize (Hall id (obj_get_Some_key _ _ _ Hid)). now rewrite Hid in Hall.
  - intros Hall id Hin. destruct (obj_get_key id sections Hin) as [v Hv].
    rewrite Hv. simpl. eauto.
Qed.

Lemma edited_year_repaired (now sectionId fieldId : string) (value : JSValue)
    (year : Props) :
  year_repaired year = true ->
  year_repaired (edited_year now sectionId fieldId value year) = true.
Proof.
  intros Hyear.
  destruct (obj_get "sections" year) as [[ | | | | sections] | ] eqn:Esections;
    try (unfold year_repaired in Hyear; rewrite Esections in Hyear;
         discriminate).
  apply (year_repaired_sections _ _ (edited_year_sections _ _ _ _ _)).
  rewrite Esections. simpl props_of. apply edited_sections_repaired.
  now apply (year_repaired_sections year sections Esections).
Qed.

(** What the repair pass leaves in [currentYear] is what the record has
    there, a key of its [years], or [null]. *)
Lemma repair_document_plain (now : string) (props : Props) :
  currentYear_plain (JObj props) = true ->
  forallb (fun id => negb (inherited_name id))
    (obj_keys (doc_years (JObj props))) = true ->
  currentYear_plain (JObj (fst (repair_document now props))) = true.
Proof.
  unfold currentYear_plain, doc_currentYear, doc_years, doc_props.
  simpl props_of. intros Hplain Hkeys. rewrite forallb_forall in Hkeys.
  unfold repair_document.
  destruct (ensure_version_spec props false) as (_ & Ho1).
  destruct (ensure_version props false) as [d1 r1]. simpl in Ho1.
  destruct (ensure_settings_spec d1 r1) as (_ & Ho2).
  destruct (ensure_settings d1 r1) as [d2 r2]. simpl in Ho2.
  destruct (ensure_years_spec d2 r2) as (Hy3 & Hp3 & Ho3).
  destruct (ensure_years d2 r2) as [d3 r3]. simpl in Hy3, Hp3, Ho3.
  assert (Hyears3 : props_of (obj_get "years" d3)
                    = props_of (obj_get "years" props))
    by (rewrite Hp3, Ho2, Ho1 by discriminate; reflexivity).
  assert (Hcurrent3 : obj_get "currentYear" d3 = obj_get "currentYear" props)
    by (rewrite Ho3, Ho2, Ho1 by discriminate; reflexivity).
  assert (Hstep : match obj_get "currentYear" (fst (repair_currentYear d3 r3))
                  with
                  | Some currentYear =>
                      negb (inherited_name (ToString currentYear))
                  | None => true
                  end = true).
  { unfold repair_currentYear. rewrite Hyears3, Hcurrent3.
    destruct (obj_get "currentYear" props) as [currentYear | ] eqn:Ecurrent.
    2:{ simpl. now rewrite Hcurrent3. }
    destruct (truthy currentYear
              && negb (truthy_found
                         (lookup (ToString currentYear)
                            (props_of (obj_get "years" props))))); simpl.
    - rewrite obj_get_set_eq.
      destruct (last (obj_keys (props_of (obj_get "years" props))))
        as [yearId | ] eqn:Elast; [ | reflexivity].
      simpl. apply Hkeys.
      now apply last_Some_elem_of, list_elem_of_In in Elast.
    - now rewrite Hcurrent3. }
  destruct (repair_currentYear d3 r3) as [d4 r4]. simpl in Hstep.
  unfold repair_years.
  destruct (validate_years now (obj_keys (props_of (obj_get "years" d4)))
              (props_of (obj_get "years" d4)) r4) as [years' r5].
  simpl. now rewrite obj_get_set_ne by discriminate.
Qed.

(** [currentYear] is read from the property of that name. *)
Lemma currentYear_plain_set (d : JSValue) (k : string) (v : JSValue) :
  k <> "currentYear" ->
  currentYear_plain (JObj (obj_set k v (doc_props d))) = currentYear_plain d.
Proof.
  intros Hk. unfold currentYear_plain, doc_currentYear. unfold doc_props at 1.
  simpl props_of. now rewrite obj_get_set_ne by congruence.
Qed.

Lemma currentYear_plain_named (yearId : string) (ps : Props) :
  inherited_name yearId = false ->
  currentYear_plain (JObj (obj_set "currentYear" (JStr yearId) ps)) = true.
Proof.
  intros H. unfold currentYear_plain, doc_currentYear, doc_props.
  simpl props_of. rewrite obj_get_set_eq. simpl. now rewrite H.
Qed.

(** Where [currentYear] is no such name, the current year is no built-in. *)
Lemma currentYear_plain_member (d : JSValue) :
  currentYear_plain d = true -> current_builtin d = false.
Proof.
  unfold currentYear_plain, current_builtin, current_member.
  destruct (doc_currentYear d) as [currentYear | ]; [ | reflexivity].
  intros H. apply negb_true_iff in H.
  destruct (truthy currentYear); [ | reflexivity].
  rewrite (lookup_plain _ _ H).
  now destruct (obj_get (ToString currentYear) (doc_years d)).
Qed.

Section Session.

Variable rt : Runtime.

(** [saveAnswer] on a year entry that is well formed, under a section id
    that finds no built-in. *)
Lemma saveAnswer_repaired (st : State) (yearId sectionId fieldId : string)
    (value : JSValue) (year : Props) :
  has_years (storageData st) = true ->
  obj_get yearId (doc_years (storageData st)) = Some (JObj year) ->
  year_repaired year = true ->
  finds_own sectionId (props_of (obj_get "sections" year)) = true ->
  saveAnswer rt yearId sectionId fieldId value st
  = debouncedSave
      (with_storageData
         (edited_document (Date_toISOString rt (clock st)) yearId sectionId
            fieldId value (storageData st)) st).
Proof.
  intros Hyears Eyear Hyear Hfinds.
  destruct (has_years_props _ Hyears) as (props & years & Hd & Hy & Hdy & Hdp).
  unfold edited_document. rewrite Hdy, Hdp. rewrite Hdy in Eyear.
  unfold saveAnswer, bind, gets, now_iso. rewrite Hd.
  cbn -[debouncedSave]. rewrite Hy. cbn -[debouncedSave].
  rewrite (lookup_own _ _ _ Eyear), Eyear. cbn -[debouncedSave].
  unfold edited_year, edited_sections.
  destruct (obj_get "sections" year) as [[ | | | | sections] | ]
    eqn:Esections;
    try (unfold year_repaired in Hyear; rewrite Esections in Hyear;
         discriminate).
  pose proof (proj1 (year_repaired_sections year sections Esections) Hyear)
    as Hall.
  simpl props_of in Hfinds.
  cbn -[debouncedSave]. rewrite (finds_own_lookup _ _ Hfinds).
  destruct (obj_get sectionId sections) as [section | ] eqn:Esection.
  - pose proof (Hall _ _ Esection) as Hs.
    destruct section as [ | | | | section]; try discriminate.
    simpl in Hs.
    destruct (obj_get "answers" section) as [[ | | | | answers] | ]
      eqn:Eanswers; try discriminate.
    cbn -[debouncedSave]. rewrite (lookup_own _ _ _ Esection), Esection.
    cbn -[debouncedSave].
    rewrite Eanswers. cbn -[debouncedSave]. reflexivity.
  - cbn -[debouncedSave obj_set]. rewrite assigned_empty_section.
    rewrite (lookup_own _ empty_section) by apply obj_get_set_eq.
    cbn -[debouncedSave obj_set]. rewrite obj_get_set_eq.
    cbn -[debouncedSave obj_set]. reflexivity.
Qed.

(** Over a working backend and with the timer queue tracked, every call
    that keeps the shape leaves the in-memory document in that shape; and a
    call that leaves the prototypes alone leaves [currentYear] no name of a
    member of [Object.prototype], where it was none. *)
Lemma perform_keeps_shape (st : State) (a : Action) :
  working st ->
  timers_tracked st = true ->
  repaired_shape (storageData st) = true ->
  keeps_shape a = true ->
  match a with
  | Wait _ => True
  | _ =>
      repaired_shape (storageData (perform rt st a)) = true
      /\ (currentYear_plain (storageData st) = true ->
          spares_prototypes rt a = true ->
          currentYear_plain (storageData (perform rt st a)) = true)
  end.
Proof.
  intros Hwork Htracked Hshape Hkeeps.
  pose proof (repaired_shape_has_years _ Hshape) as Hyears.
  pose proof (repaired_shape_years _ Hshape) as Hall.
  destruct a as [y s f v | s | y | y | y data | v | text | ms];
    [ | | | | | | | exact I]; unfold perform.
  - destruct (obj_get y (doc_years (storageData st))) as [year | ] eqn:Eyear.
    + pose proof (Hall _ _ Eyear) as Hyear.
      destruct year as [ | | | | year]; try discriminate. simpl in Hyear.
      destruct (finds_own s (props_of (obj_get "sections" year))) eqn:Efinds.
      * rewrite (saveAnswer_repaired st y s f v year) by assumption.
        rewrite debouncedSave_tracked by exact Htracked.
        change (storageData (snd (Ok tt, armed (with_storageData ?d st))))
          with d.
        unfold edited_document. split.
        -- apply repaired_shape_set_year; [exact Hshape | ].
           rewrite Eyear. simpl. now apply edited_year_repaired.
        -- intros Hplain _. now rewrite currentYear_plain_set by discriminate.
      * destruct (finds_own_false _ _ Efinds) as [Hnone Hname].
        unfold year_repaired in Hyear.
        destruct (obj_get "sections" year) as [[ | | | | sections] | ]
          eqn:Esections; try discriminate.
        rewrite (saveAnswer_inherited_section rt st y s f v year sections)
          by assumption.
        split; [exact Hshape | auto].
    + destruct (has_years_props _ Hyears)
        as (props & years & Hd & Hy & Hdy & Hdp).
      rewrite (saveAnswer_unknown_year rt st years)
        by (rewrite ?Hdp; congruence).
      split; [exact Hshape | auto].
  - destruct (current_year (storageData st)) as [year | ] eqn:Ecurrent.
    + destruct (current_year_key _ _ Ecurrent)
        as (cy & Hcurrent & Htruthy & Hentry).
      pose proof (Hall _ _ Hentry) as Hyear.
      destruct year as [ | | | | year]; try discriminate. simpl in Hyear.
      rewrite (saveCurrentSection_run rt st s cy year) by assumption.
      change (storageData (snd (Ok tt, armed (with_storageData ?d st))))
        with d.
      unfold section_document. split.
      * apply repaired_shape_set_year; [exact Hshape | ].
        simpl. unfold year_repaired in *.
        now rewrite !obj_get_set_ne by discriminate.
      * intros Hplain _. now rewrite currentYear_plain_set by discriminate.
    + pose proof (plain_current_member (storageData st)) as Hmember.
      rewrite Ecurrent in Hmember.
      destruct (current_member (storageData st)) as [[year | name] | ]
        eqn:Emember; [discriminate Hmember | | ].
      * destruct (builtin_current_year rt st s name Htracked Hyears Emember)
          as (_ & _ & _ & ->).
        split; [exact Hshape | auto].
      * unfold saveCurrentSection, bind.
        rewrite getCurrentYear_has_years by exact Hyears.
        rewrite Emember. split; [exact Hshape | auto].
  - rewrite createNewYear_run by assumption.
    change (storageData (snd (?r, saved_at_once rt ?d st))) with d.
    unfold created_document. split.
    + apply (repaired_shape_set_other
               (JObj (obj_set "years"
                        (JObj (obj_set y (new_year_entry _ y)
                                 (doc_years (storageData st))))
                        (doc_props (storageData st))))); try discriminate.
      now apply repaired_shape_set_year.
    + intros _ Hspares. apply currentYear_plain_named.
      now apply negb_true_iff.
  - rewrite setCurrentYear_run by assumption.
    destruct (truthy_found _); [ | split; [exact Hshape | auto]].
    change (storageData (snd (?r, saved_at_once rt ?d st))) with d.
    unfold switched_document. split.
    + apply repaired_shape_set_other; [exact Hshape | discriminate ..].
    + intros _ Hspares. apply currentYear_plain_named.
      now apply negb_true_iff.
  - destruct data as [ | b | n | s | data];
      try (rewrite saveYear_throws by (now left); split;
           [exact Hshape | auto]).
    rewrite saveYear_run by assumption.
    change (storageData (snd (?r, saved_at_once rt ?d st))) with d.
    unfold saved_year_document. split.
    + apply repaired_shape_set_year; [exact Hshape | ].
      simpl in Hkeeps |- *. unfold year_repaired in *.
      now rewrite obj_get_set_ne by discriminate.
    + intros Hplain _. now rewrite currentYear_plain_set by discriminate.
  - destruct (repaired_shape_inv _ Hshape)
      as (props & years & Hd & Hversion & Hsettings & Hy & Hdy & Hdp).
    rewrite (saveSettings_run rt st v props Hwork Hd).
    change (storageData (snd (?r, saved_at_once rt ?d st))) with d.
    unfold settings_document. split.
    + rewrite Hdp. apply repaired_shape_parts with (years := years).
      * now rewrite obj_get_set_ne by discriminate.
      * now rewrite obj_get_set_eq.
      * now rewrite obj_get_set_ne by discriminate.
      * intros id v' Hid. apply (Hall id). now rewrite Hdy.
    + intros Hplain _. now rewrite currentYear_plain_set by discriminate.
  - unfold importData, try_catch, bind, json_parse. simpl spares_prototypes.
    destruct (JSON_parse rt text) as [parsed | ];
      [ | split; [exact Hshape | auto]].
    cbn -[validateAndRepairData saveToLocalStorage].
    destruct (not_an_object_cases parsed) as [[props ->] | Hrejected].
    + rewrite validateAndRepairData_object.
      cbn -[saveToLocalStorage]. unfold modify.
      rewrite saveToLocalStorage_working
        by (intros items op; destruct (snd (repair_document _ props));
            apply Hwork).
      cbn -[stored probed repair_document]. split.
      * destruct (snd (repair_document _ props)); apply repair_document_shape.
      * intros _ Hspares. apply andb_true_iff in Hspares.
        destruct Hspares as [Hcurrent Hkeys].
        destruct (snd (repair_document _ props));
          now apply repair_document_plain.
    + rewrite validateAndRepairData_rejected by exact Hrejected.
      cbn -[reported]. unfold reported. cbn.
      destruct (onStorageError st); (split; [exact Hshape | auto]).
Qed.

Lemma elapse_storageData (st : State) (ms : N) :
  settled rt st -> storageData (elapse rt ms st) = storageData st.
Proof.
  intros (Hwork & Htracked & _). unfold timers_tracked in Htracked.
  destruct (saveTimeout st) as [h | ];
    destruct (timers st) as [ | [h' due] [ | t ts]] eqn:Et;
    try discriminate.
  - destruct (N.le_gt_cases due (clock st + ms)) as [Hfire | Hearly].
    + now rewrite (elapse_fire rt st h' due ms Et Hfire Hwork).
    + now rewrite (elapse_early rt st h' due ms Et) by lia.
  - unfold elapse. cbn. now rewrite Et.
Qed.

Lemma session_invariant (actions : list Action) :
  forall st,
    settled rt st ->
    repaired_shape (storageData st) = true ->
    forallb keeps_shape actions = true ->
    settled rt (perform_all rt actions st)
    /\ repaired_shape (storageData (perform_all rt actions st)) = true
    /\ (currentYear_plain (storageData st) = true ->
        forallb (spares_prototypes rt) actions = true ->
        currentYear_plain (storageData (perform_all rt actions st)) = true).
Proof.
  unfold perform_all.
  induction actions as [ | a actions IH]; intros st Hsettled Hshape Hkeeps;
    [split; [exact Hsettled | split; [exact Hshape | auto]] | ].
  simpl in Hkeeps. apply andb_true_iff in Hkeeps.
  destruct Hkeeps as [Ha Hkeeps]. simpl.
  pose proof Hsettled as (Hwork & Htracked & _).
  pose proof (perform_keeps_shape st a Hwork Htracked Hshape Ha) as Hstep.
  assert (Hnext : repaired_shape (storageData (perform rt st a)) = true
                  /\ (currentYear_plain (storageData st) = true ->
                      spares_prototypes rt a = true ->
                      currentYear_plain (storageData (perform rt st a))
                      = true)).
  { destruct a; try exact Hstep.
    simpl. rewrite elapse_storageData by exact Hsettled. now split. }
  destruct Hnext as [Hshape' Hplain'].
  destruct (IH (perform rt st a)) as (Hsettled'' & Hshape'' & Hplain'');
    [now apply settled_perform | exact Hshape' | exact Hkeeps | ].
  split; [exact Hsettled'' | ]. split; [exact Hshape'' | ].
  intros Hplain Hspares. apply andb_true_iff in Hspares.
  destruct Hspares as [Hspare Hspares]. apply Hplain''; auto.
Qed.

(** X26.  The shape of the document through a session.  Start from a settled
    state whose in-memory document has invariants 1, 2, 4 and 5 of the data
    model, as [initStorage] leaves it, and whose [currentYear] is not the
    name of a member of [Object.prototype].  Take any sequence of calls and
    pauses in which every [saveYear] saves a well-formed year entry and
    every call leaves the prototypes alone: none assigns under the key
    [__proto__], none makes such a name the current year, and no imported
    record has such a name as its [currentYear] or as a key of its [years].
    Afterwards the document still has the invariants, its [currentYear] is
    still no such name, so that the current year is no built-in, and
    [saveAnswer] returns normally for every year id and section id that is
    no such name, and for every field: it never meets a year entry without
    [sections], or a section without [answers]. *)
Theorem session_keeps_shape (st : State) (actions : list Action) :
  settled rt st ->
  repaired_shape (storageData st) = true ->
  currentYear_plain (storageData st) = true ->
  forallb keeps_shape actions = true ->
  forallb (spares_prototypes rt) actions = true ->
  let st' := perform_all rt actions st in
  repaired_shape (storageData st') = true
  /\ currentYear_plain (storageData st') = true
  /\ current_builtin (storageData st') = false
  /\ forall yearId sectionId fieldId value,
       inherited_name yearId = false ->
       inherited_name sectionId = false ->
       exists st'',
         saveAnswer rt yearId sectionId fieldId value st' = (Ok tt, st'').
Proof.
  intros Hsettled Hshape Hplain Hkeeps Hspares st'.
  destruct (session_invariant actions st Hsettled Hshape Hkeeps)
    as ((Hwork & Htracked & _) & Hshape' & Hplain').
  specialize (Hplain' Hplain Hspares).
  fold st' in Hwork, Htracked, Hshape', Hplain'.
  split; [exact Hshape' | ]. split; [exact Hplain' | ].
  split; [now apply currentYear_plain_member | ].
  intros y s f v Hy Hs.
  pose proof (repaired_shape_has_years _ Hshape') as Hyears.
  destruct (obj_get y (doc_years (storageData st'))) as [year | ] eqn:Eyear.
  - pose proof (repaired_shape_years _ Hshape' _ _ Eyear) as Hyear.
    destruct year as [ | | | | year]; try discriminate. simpl in Hyear.
    rewrite (saveAnswer_repaired st' y s f v year)
      by (try assumption; now apply finds_own_plain).
    rewrite debouncedSave_tracked by exact Htracked. eauto.
  - destruct (has_years_props _ Hyears)
      as (props & years & Hd & Hy' & Hdy & Hdp).
    rewrite (saveAnswer_unknown_year rt st' years)
      by (rewrite ?Hdp; congruence).
    rewrite Hy. eauto.
Qed.

End Session.

Lemma session_keeps_shape_witness :
  let st :=
    snd (initStorage Reference.runtime
           (fresh_state {[ STORAGE_KEY := Reference.stringify damaged_record ]}
              no_fault None)) in
  let actions :=
    [DoSaveAnswer "2024-2025" "x" "a" (JStr "one");
     Wait 100;
     DoCreateNewYear "2025-2026";
     DoSaveCurrentSection "x";
     DoSaveYear "2023-2024" (JObj [("sections", JObj [])]);
     DoSetCurrentYear "2024-2025";
     DoImportData (Reference.stringify damaged_record);
     Wait 400] in
  let st' := perform_all Reference.runtime actions st in
  repaired_shape (storageData st') = true
  /\ currentYear_plain (storageData st') = true
  /\ current_builtin (storageData st') = false
  /\ forall yearId sectionId fieldId value,
       inherited_name yearId = false ->
       inherited_name sectionId = false ->
       exists st'',
         saveAnswer Reference.runtime yearId sectionId fieldId value st'
         = (Ok tt, st'').
Proof.
  apply (session_keeps_shape Reference.runtime
           (snd (initStorage Reference.runtime
                   (fresh_state
                      {[ STORAGE_KEY := Reference.stringify damaged_record ]}
                      no_fault None)))
           [DoSaveAnswer "2024-2025" "x" "a" (JStr "one");
            Wait 100;
            DoCreateNewYear "2025-2026";
            DoSaveCurrentSection "x";
            DoSaveYear "2023-2024" (JObj [("sections", JObj [])]);
            DoSetCurrentYear "2024-2025";
            DoImportData (Reference.stringify damaged_record);
            Wait 400]).
  - split; [intros items op; reflexivity | ].
    split; [reflexivity | ].
    split; [intros h due H; discriminate H | ].
    intros _. vm_compute. reflexivity.
  - vm_compute. reflexivity.
  - vm_compute. reflexivity.
  - reflexivity.
  - vm_compute. reflexivity.
Defined.

(** ** Bursts of deferred calls *)

Section MixedBursts.

Variable rt : Runtime.

(** A deferred call that finds what it changes: the document changes, its
    shape stays, what later calls look for stays, and one deferred save is
    scheduled. *)
Lemma deferred_call_run (st : State) (a : Action) :
  timers_tracked st = true ->
  repaired_shape (storageData st) = true ->
  deferred_call (storageData st) a = true ->
  exists d,
    perform rt st a = armed (with_storageData d st)
    /\ repaired_shape d = true
    /\ forall a', deferred_call (storageData st) a' = true ->
                  deferred_call d a' = true.
Proof.
  intros Htracked Hshape Hcall.
  pose proof (repaired_shape_has_years _ Hshape) as Hyears.
  pose proof (repaired_shape_years _ Hshape) as Hall.
  assert (Hkeeps : forall yearId year,
            obj_get yearId (doc_years (storageData st)) = Some (JObj year) ->
            forall year' a',
              deferred_call (storageData st) a' = true ->
              deferred_call
                (JObj (obj_set "years"
                         (JObj (obj_set yearId (JObj year')
                                  (doc_years (storageData st))))
                         (doc_props (storageData st)))) a' = true).
  { intros yearId year Eyear year' a' Ha'.
    destruct a' as [y s f v | s | y | y | y data | v | text | ms];
      try discriminate; simpl in Ha' |- *.
    - apply andb_true_iff in Ha'. destruct Ha' as [Hy' ->].
      rewrite doc_years_set, obj_get_set, andb_true_r.
      now destruct (String.eqb y yearId).
    - unfold current_year in *. rewrite doc_years_set.
      unfold doc_currentYear in *. unfold doc_props at 1. simpl props_of.
      rewrite obj_get_set_ne by discriminate.
      destruct (obj_get "currentYear" (doc_props (storageData st)))
        as [cy | ]; [ | discriminate].
      destruct (truthy cy); [ | discriminate].
      rewrite obj_get_set. now destruct (String.eqb (ToString cy) yearId). }
  destruct a as [y s f v | s | y | y | y data | v | text | ms];
    try discriminate; simpl in Hcall; unfold perform.
  - apply andb_true_iff in Hcall. destruct Hcall as [Hcall Hplain].
    destruct (obj_get y (doc_years (storageData st)))
      as [[ | | | | year] | ] eqn:Eyear; try discriminate.
    pose proof (Hall _ _ Eyear) as Hyear. simpl in Hyear.
    rewrite (saveAnswer_repaired rt st y s f v year)
      by (try assumption; exact (plain_ids_section _ _ _ Hplain)).
    rewrite debouncedSave_tracked by exact Htracked.
    eexists. split; [reflexivity | ]. split.
    + unfold edited_document. apply repaired_shape_set_year; [exact Hshape | ].
      rewrite Eyear. simpl. now apply edited_year_repaired.
    + unfold edited_document. apply (Hkeeps y year Eyear).
  - destruct (current_year (storageData st)) as [[ | | | | year] | ]
      eqn:Ecurrent; try discriminate.
    destruct (current_year_key _ _ Ecurrent)
      as (cy & Hcurrent & Htruthy & Hentry).
    pose proof (Hall _ _ Hentry) as Hyear. simpl in Hyear.
    rewrite (saveCurrentSection_run rt st s cy year) by assumption.
    eexists. split; [reflexivity | ]. split.
    + unfold section_document. apply repaired_shape_set_year; [exact Hshape | ].
      simpl. unfold year_repaired in *.
      now rewrite !obj_get_set_ne by discriminate.
    + unfold section_document. apply (Hkeeps _ year Hentry).
Qed.

Lemma mixed_burst_rest (quiet : N) (rest : list (N * Action)) :
  (300 <= quiet)%N ->
  forall st,
    working st ->
    pending st ->
    repaired_shape (storageData st) = true ->
    forallb (deferred_call (storageData st)) (map snd rest) = true ->
    Forall (fun ga => (fst ga < 300)%N) rest ->
    let st' :=
      perform_all rt
        (flat_map (fun ga => [Wait (fst ga); snd ga]) rest ++ [Wait quiet])
        st in
    record_writes st'
    = (record_writes st ++ [JSON_stringify rt (storageData st')])%list
    /\ timers st' = []
    /\ saveTimeout st' = None.
Proof.
  intros Hquiet.
  induction rest as [ | [gap a] rest IH];
    intros st Hwork (h & Hhandle & Htimers) Hshape Hcalls Hgaps.
  - simpl. unfold perform_all. simpl.
    rewrite (elapse_fire rt st h _ quiet Htimers) by (auto; lia).
    cbn [storageData with_saveTimeout stored probed with_ls_writes
         with_localStorage with_timers with_clock timers saveTimeout].
    repeat split.
    unfold record_writes. cbn. rewrite !List.filter_app, !map_app. cbn.
    now rewrite app_nil_r.
  - simpl in Hcalls. apply andb_true_iff in Hcalls.
    destruct Hcalls as [Hcall Hcalls].
    inversion Hgaps as [ | ? ? Hgap Hgaps']; subst. simpl in Hgap.
    cbn [flat_map fst snd]. unfold perform_all.
    cbn [app fold_left perform].
    rewrite (elapse_early rt st h _ gap Htimers) by lia.
    destruct (deferred_call_run (with_clock (clock st + gap)%N st) a)
      as (d & Hrun & Hshape' & Hkeeps).
    { unfold timers_tracked. cbn. rewrite Hhandle, Htimers.
      apply Pos.eqb_refl. }
    { exact Hshape. }
    { exact Hcall. }
    rewrite Hrun.
    match goal with
    | |- context [fold_left (perform rt) _ ?s] =>
        specialize (IH s); fold (perform_all rt) in IH
    end.
    cbn [storageData armed with_saveTimeout with_timers with_storageData
         with_clock] in IH.
    destruct IH as (Hwrites & Hqueue & Hhandle').
    + intros items op. apply Hwork.
    + apply armed_pending.
    + exact Hshape'.
    + rewrite forallb_forall in Hcalls |- *. intros x Hx.
      apply Hkeeps. now apply Hcalls.
    + exact Hgaps'.
    + repeat split; assumption.
Qed.

(** X30.  Deferred saves coalesce across operations.  [saveAnswer] and
    [saveCurrentSection] share one timer: take a document of the repaired
    shape, a working backend and a tracked timer queue, and a burst of such
    calls, each [saveAnswer] for a year entry that exists, with a section id
    that is not the name of a member of [Object.prototype] and a field id
    other than [__proto__], each [saveCurrentSection] while [currentYear]
    names a year entry, and each call less than 300 ms after the one before,
    followed by 300 ms or more of quiet.  Then exactly one write of the
    document reaches the backend, it is the serialization of the in-memory
    document as the burst left it, and no timer stays pending. *)
Theorem mixed_burst_coalesces (st : State) (first : Action)
    (rest : list (N * Action)) (quiet : N) :
  working st ->
  timers_tracked st = true ->
  repaired_shape (storageData st) = true ->
  forallb (deferred_call (storageData st)) (first :: map snd rest) = true ->
  Forall (fun ga => (fst ga < 300)%N) rest ->
  (300 <= quiet)%N ->
  let st' := perform_all rt (mixed_burst first rest quiet) st in
  record_writes st'
  = (record_writes st ++ [JSON_stringify rt (storageData st')])%list
  /\ timers st' = []
  /\ saveTimeout st' = None.
Proof.
  intros Hwork Htracked Hshape Hcalls Hgaps Hquiet.
  simpl in Hcalls. apply andb_true_iff in Hcalls.
  destruct Hcalls as [Hcall Hcalls].
  destruct (deferred_call_run st first Htracked Hshape Hcall)
    as (d & Hrun & Hshape' & Hkeeps).
  unfold mixed_burst, perform_all. cbn [fold_left]. rewrite Hrun.
  match goal with
  | |- context [fold_left (perform rt) _ ?s] =>
      pose proof (mixed_burst_rest quiet rest Hquiet s) as Hrest;
      fold (perform_all rt) in Hrest
  end.
  cbn [storageData armed with_saveTimeout with_timers with_storageData]
    in Hrest.
  apply Hrest.
  - intros items op. apply Hwork.
  - apply armed_pending.
  - exact Hshape'.
  - rewrite forallb_forall in Hcalls |- *. intros x Hx.
    apply Hkeeps. now apply Hcalls.
  - exact Hgaps.
Qed.

End MixedBursts.

Lemma mixed_burst_coalesces_witness :
  let st := running_state sample_document no_fault None in
  let first := DoSaveCurrentSection "x" in
  let rest :=
    [(50%N, DoSaveAnswer "2024-2025" "x" "a" (JStr "o"));
     (299%N, DoSaveAnswer "2024-2025" "x" "a" (JStr "on"));
     (10%N, DoSaveCurrentSection "y")] in
  let st' := perform_all Reference.runtime (mixed_burst first rest 300) st in
  record_writes st'
  = (record_writes st
     ++ [JSON_stringify Reference.runtime (storageData st')])%list
  /\ timers st' = []
  /\ saveTimeout st' = None.
Proof.
  apply (mixed_burst_coalesces Reference.runtime
           (running_state sample_document no_fault None)
           (DoSaveCurrentSection "x")
           [(50%N, DoSaveAnswer "2024-2025" "x" "a" (JStr "o"));
            (299%N, DoSaveAnswer "2024-2025" "x" "a" (JStr "on"));
            (10%N, DoSaveCurrentSection "y")]
           300%N).
  - intros items op. reflexivity.
  - reflexivity.
  - reflexivity.
  - reflexivity.
  - repeat constructor.
  - reflexivity.
Defined.

(** ** The suggested year and its label *)

Lemma replace_first_skip (a : ascii) (rep s : string) :
  Ascii.eqb "-" a = false ->
  replace_first "-" rep (String a s) = String a (replace_first "-" rep s).
Proof.
  intros H.
  change (replace_first "-" rep (String a s))
    with (match (if Ascii.eqb "-" a then Some s else None) with
          | Some rest => rep +:+ rest
          | None => String a (replace_first "-" rep s)
          end).
  now rewrite H.
Qed.

Lemma replace_first_after_digits (d : Decimal.uint) (rep rest : string) :
  replace_first "-" rep (NilEmpty.string_of_uint d +:+ "-" +:+ rest)
  = NilEmpty.string_of_uint d +:+ rep +:+ rest.
Proof.
  induction d as [ | d IH | d IH | d IH | d IH | d IH | d IH | d IH | d IH
                   | d IH | d IH ];
    [reflexivity | ..];
    simpl NilEmpty.string_of_uint;
    change (String ?a ?s +:+ ?t) with (String a (s +:+ t));
    rewrite replace_first_skip by reflexivity; now rewrite IH.
Qed.

(** The first hyphen of a number followed by a hyphen is that hyphen, when
    the number is not negative. *)
Lemma replace_first_after_number (n : Z) (rep rest : string) :
  (0 <= n)%Z ->
  replace_first "-" rep (show_number n +:+ "-" +:+ rest)
  = show_number n +:+ rep +:+ rest.
Proof.
  intros Hn. unfold show_number.
  destruct n as [ | p | p]; [reflexivity | | lia].
  unfold Z.to_int, NilZero.string_of_int, NilZero.string_of_uint.
  destruct (Pos.to_uint p); [reflexivity | ..];
    match goal with
    | |- context [NilEmpty.string_of_uint ?d] =>
        apply (replace_first_after_digits d)
    end.
Qed.

(** X27.  The suggested year.  From the year 1 on, the id suggested for the
    current date spans two consecutive years, the first of them the year
    before the current one until March and the current one from April; its
    label puts the arrow between the two; and the id suggested from April to
    December is the one still suggested from January to March of the year
    after. *)
Theorem suggested_year_label (currentYear currentMonth laterMonth : Z) :
  (1 <= currentYear)%Z ->
  let first :=
    if (currentMonth <? 3)%Z then (currentYear - 1)%Z else currentYear in
  getSuggestedYearId currentYear currentMonth
  = show_number first +:+ "-" +:+ show_number (first + 1)
  /\ formatYearDisplay (getSuggestedYearId currentYear currentMonth)
     = show_number first +:+ " → " +:+ show_number (first + 1)
  /\ isCurrentYearCompass currentYear currentMonth
       (show_number first +:+ "-" +:+ show_number (first + 1)) = true
  /\ ((3 <= currentMonth)%Z -> (laterMonth < 3)%Z ->
      getSuggestedYearId (currentYear + 1) laterMonth
      = getSuggestedYearId currentYear currentMonth).
Proof.
  intros Hyear first.
  assert (Hid : getSuggestedYearId currentYear currentMonth
                = show_number first +:+ "-" +:+ show_number (first + 1)).
  { unfold getSuggestedYearId, first.
    destruct (currentMonth <? 3)%Z; [ | reflexivity].
    now replace (currentYear - 1 + 1)%Z with currentYear by lia. }
  split; [exact Hid | ]. split; [ | split].
  - rewrite Hid. unfold formatYearDisplay.
    apply replace_first_after_number.
    unfold first. destruct (currentMonth <? 3)%Z; lia.
  - unfold isCurrentYearCompass. rewrite Hid. apply String.eqb_refl.
  - intros Hmonth Hlater. unfold getSuggestedYearId.
    destruct (Z.ltb_spec laterMonth 3); [ | lia].
    destruct (Z.ltb_spec currentMonth 3); [lia | ].
    now replace (currentYear + 1 - 1)%Z with currentYear by lia.
Qed.

Lemma suggested_year_label_witness :
  getSuggestedYearId 2025 0 = "2024-2025"
  /\ formatYearDisplay (getSuggestedYearId 2025 0) = "2024 → 2025"
  /\ isCurrentYearCompass 2025 0 "2024-2025" = true
  /\ ((3 <= 0)%Z -> (11 < 3)%Z ->
      getSuggestedYearId (2025 + 1) 11 = getSuggestedYearId 2025 0).
Proof.
  apply (suggested_year_label 2025 0 11). lia.
Defined.

(** ** Sections with content *)

Lemma is_filled_has_value (value : JSValue) :
  is_filled value = true -> has_value value = true.
Proof.
  unfold is_filled, has_value. intros H.
  apply andb_true_iff in H. destruct H as [H1 H2]. now rewrite H1.
Qed.

(** X28.  A section that [isSectionStarted] reports as started has content for
    the PDF export: whenever [isSectionStarted] returns [true], the current
    year is an object that holds the section, and [hasContent] is [true] of
    that section's [answers]. *)
Theorem started_section_has_content (st st' : State) (sectionId : string) :
  isSectionStarted sectionId st = (Ok true, st') ->
  exists year section,
    getCurrentYear st = (Ok (JObj year), st)
    /\ obj_get sectionId (props_of (obj_get "sections" year)) = Some section
    /\ hasContent (obj_get "answers" (props_of (Some section))) = true.
Proof.
  unfold isSectionStarted, bind.
  pose proof (getCurrentYear_reads_only st) as Hsame.
  destruct (getCurrentYear st) as [[year | e] st1]; simpl in Hsame; subst st1;
    [ | discriminate].
  destruct year as [[ | b | n | s | year] | name]; try discriminate.
  cbn.
  destruct (obj_get "sections" year) as [[ | b | n | s | sections] | ]
    eqn:Esections; try discriminate.
  cbn. unfold lookup.
  destruct (obj_get sectionId sections) as [[ | b | n | s | section] | ]
    eqn:Esection; try discriminate;
    [ | destruct (inherited_name sectionId); discriminate].
  cbn.
  destruct (obj_get "answers" section) as [answers | ] eqn:Eanswers;
    [ | discriminate].
  destruct (truthy answers) eqn:Etruthy; cbn; [ | discriminate].
  intros Hrun. injection Hrun as Hfilled _.
  exists year, (JObj section). split; [reflexivity | ].
  split; [now rewrite Esections | ].
  simpl props_of. rewrite Eanswers. unfold hasContent. rewrite Etruthy.
  simpl negb. cbv iota.
  apply existsb_exists in Hfilled. destruct Hfilled as [value [Hin Hvalue]].
  apply existsb_exists. exists value. split; [exact Hin | ].
  apply is_filled_has_value. exact Hvalue.
Qed.

Lemma started_section_has_content_witness :
  let st := running_state sample_document no_fault None in
  exists year section,
    getCurrentYear st = (Ok (JObj year), st)
    /\ obj_get "x" (props_of (obj_get "sections" year)) = Some section
    /\ hasContent (obj_get "answers" (props_of (Some section))) = true.
Proof.
  apply (started_section_has_content
           (running_state sample_document no_fault None)
           (running_state sample_document no_fault None) "x").
  reflexivity.
Defined.

(** The converse fails: an answer that is a number counts as content for
    the export, and not as a started section. *)
Example content_without_started_section :
  let answers := JObj [("rating", JNum 5)] in
  let year := JObj [("sections", JObj [("x", JObj [("answers", answers)])])] in
  let d :=
    JObj [("currentYear", JStr "y"); ("years", JObj [("y", year)])] in
  let st := running_state d no_fault None in
  hasContent (Some answers) = true
  /\ isSectionStarted "x" st = (Ok false, st).
Proof. split; reflexivity. Qed.

